(** * Submission-processing orchestrator: a shallow embedding

    The development follows the Python sources of the orchestrator:

    - [app/main.py]: [normalize_url], [extract_domain],
      [validate_email_domain], [check_rate_limit], [process_submission],
      [submit_intake], [get_job_status], [get_profile], [submit_feedback];
    - [app/services/anthropic_service.py]: [validate_profile],
      [generate_profile], [check_data_sufficiency];
    - [app/database.py]: the queries used by the pipeline and the endpoints;
    - [app/workers/]: the dict each of the five providers returns, and
      [tech_detector.check_signature].

    Python values that travel through the pipeline (provider results, the
    parsed profile) are JSON-shaped and are embedded as [pyval]; every
    operation that can raise in Python returns a [result].  A string is a
    sequence of code points below 256 (Latin-1), and [str.lower] and
    [str.strip] are the ones of Python on that range; text with other code
    points is not represented. *)

From Stdlib Require Import String Ascii List ZArith QArith Lia Bool DecimalString.
From stdpp Require Import gmap strings.
Import ListNotations.

Set Warnings "-register-all".
Local Open Scope string_scope.
Local Open Scope list_scope.
Local Open Scope Z_scope.

(* ================================================================== *)
(** * Python strings *)
(* ================================================================== *)

Module PyStr.

(** The code points below 256 that [str.lower] changes: A..Z and the
    accented capitals 192..222, the multiplication sign 215 apart. *)
Definition is_upper (c : ascii) : bool :=
  let n := nat_of_ascii c in
  (((65 <=? n) && (n <=? 90))
   || ((192 <=? n) && (n <=? 222) && negb (n =? 215)))%nat.

Definition lower_char (c : ascii) : ascii :=
  if is_upper c then ascii_of_nat (nat_of_ascii c + 32) else c.

(** [s.lower()] *)
Fixpoint lower (s : string) : string :=
  match s with
  | EmptyString => EmptyString
  | String c s' => String (lower_char c) (lower s')
  end.

(** [s.startswith(p)] *)
Fixpoint startswith (s p : string) : bool :=
  match p, s with
  | EmptyString, _ => true
  | String _ _, EmptyString => false
  | String a p', String b s' => Ascii.eqb a b && startswith s' p'
  end.

(** [s.endswith(suf)] *)
Fixpoint endswith (s suf : string) : bool :=
  if String.eqb s suf then true
  else match s with
       | EmptyString => false
       | String _ s' => endswith s' suf
       end.

(** [needle in hay] for two strings *)
Fixpoint contains (hay needle : string) : bool :=
  if startswith hay needle then true
  else match hay with
       | EmptyString => false
       | String _ hay' => contains hay' needle
       end.

(** [c in chars], a membership test on the characters of [chars] *)
Fixpoint mem_char (c : ascii) (chars : string) : bool :=
  match chars with
  | EmptyString => false
  | String a chars' => Ascii.eqb a c || mem_char c chars'
  end.

(** [s.lstrip(chars)] and [s.rstrip(chars)] *)
Fixpoint lstrip (chars s : string) : string :=
  match s with
  | EmptyString => EmptyString
  | String c s' => if mem_char c chars then lstrip chars s' else s
  end.

Fixpoint rstrip (chars s : string) : string :=
  match s with
  | EmptyString => EmptyString
  | String c s' =>
      match rstrip chars s' with
      | EmptyString => if mem_char c chars then EmptyString
                       else String c EmptyString
      | r => String c r
      end
  end.

(** The characters [str.strip()] removes: space, tab, line feed, vertical
    tab, form feed, carriage return, the four separators 28..31, next line
    (133) and no-break space (160). *)
Definition whitespace : string :=
  String (ascii_of_nat 32) (String (ascii_of_nat 9) (String (ascii_of_nat 10)
 (String (ascii_of_nat 11) (String (ascii_of_nat 12) (String (ascii_of_nat 13)
 (String (ascii_of_nat 28) (String (ascii_of_nat 29) (String (ascii_of_nat 30)
 (String (ascii_of_nat 31) (String (ascii_of_nat 133) (String (ascii_of_nat 160)
  EmptyString))))))))))).

(** [s.strip()] *)
Definition strip (s : string) : string := rstrip whitespace (lstrip whitespace s).

(** [s[n:]] *)
Fixpoint drop (n : nat) (s : string) : string :=
  match n, s with
  | O, _ => s
  | S _, EmptyString => EmptyString
  | S n', String _ s' => drop n' s'
  end.

(** [s[::-1]] *)
Fixpoint rev (s : string) : string :=
  match s with
  | EmptyString => EmptyString
  | String c s' => rev s' +:+ String c EmptyString
  end.

(** [s.split(sep)] for a non-empty separator.  [skip] counts the
    characters of a separator occurrence still to be passed over and [cur]
    is the piece being read, last character first. *)
Fixpoint split_aux (sep : string) (skip : nat) (cur : string) (s : string)
  : list string :=
  match s with
  | EmptyString => [rev cur]
  | String c s' =>
      match skip with
      | S k => split_aux sep k cur s'
      | O =>
          if startswith s sep
          then rev cur :: split_aux sep (String.length sep - 1) EmptyString s'
          else split_aux sep O (String c cur) s'
      end
  end.

Definition split (s sep : string) : list string :=
  split_aux sep O EmptyString s.

(** Deleting every occurrence of the characters of [chars] from [s] *)
Fixpoint remove_chars (chars s : string) : string :=
  match s with
  | EmptyString => EmptyString
  | String c s' =>
      if mem_char c chars then remove_chars chars s'
      else String c (remove_chars chars s')
  end.

(** The part of [s] before the first character that belongs to [chars] *)
Fixpoint take_until (chars s : string) : string :=
  match s with
  | EmptyString => EmptyString
  | String c s' =>
      if mem_char c chars then EmptyString else String c (take_until chars s')
  end.

End PyStr.

(* ================================================================== *)
(** * Python values, exceptions and the operations the sources use *)
(* ================================================================== *)

(** Exception classes, as far as the [except] clauses and the library
    calls of the sources tell them apart. *)
Inductive exn_class :=
| RateLimitError | APIError | JSONDecodeError
| AttributeError | TypeError | KeyError | IndexError | ValueError
| TimeoutError | OtherException.

(** An exception object; [exn_text] is what [str(e)] returns. *)
Record pyexn := Exn { exn_cls : exn_class; exn_text : string }.

Inductive result (A : Type) :=
| Ok (a : A)
| Raise (e : pyexn).
Arguments Ok {A} a.
Arguments Raise {A} e.

#[global] Instance result_ret : MRet result := fun _ a => Ok a.
#[global] Instance result_bind : MBind result := fun _ _ f m =>
  match m with
  | Ok a => f a
  | Raise e => Raise e
  end.

(** JSON-shaped Python values.  A [dict] keeps its insertion order; its keys
    are strings.  Floats are embedded as rationals (no NaN, no infinity). *)
Inductive pyval :=
| VNone
| VBool (b : bool)
| VInt (z : Z)
| VFloat (q : Q)
| VStr (s : string)
| VList (l : list pyval)
| VDict (d : list (string * pyval)).

(** What the interpreter and the JSON library provide: [str(v)] on a float,
    a list or a dict, and [json.loads] on a text (the text of the
    [JSONDecodeError], or the parsed value). *)
Class PyBuiltins := {
  py_str : pyval -> string;
  json_loads : string -> string + pyval;
}.

Module Py.

Definition type_name (v : pyval) : string :=
  match v with
  | VNone => "NoneType" | VBool _ => "bool" | VInt _ => "int"
  | VFloat _ => "float" | VStr _ => "str" | VList _ => "list"
  | VDict _ => "dict"
  end.

(** [bool(v)] *)
Definition truthy (v : pyval) : bool :=
  match v with
  | VNone => false
  | VBool b => b
  | VInt z => negb (z =? 0)
  | VFloat q => negb (Qeq_bool q 0)
  | VStr s => negb (String.eqb s EmptyString)
  | VList l => match l with [] => false | _ => true end
  | VDict d => match d with [] => false | _ => true end
  end.

(** Lookup in a dict body: the first binding of the key. *)
Fixpoint assoc (k : string) (d : list (string * pyval)) : option pyval :=
  match d with
  | [] => None
  | (k', v) :: d' => if String.eqb k' k then Some v else assoc k d'
  end.

(** [d[k] = v] on a dict body: overwrite in place, or append. *)
Fixpoint assoc_set (k : string) (v : pyval) (d : list (string * pyval))
  : list (string * pyval) :=
  match d with
  | [] => [(k, v)]
  | (k', v') :: d' =>
      if String.eqb k' k then (k', v) :: d' else (k', v') :: assoc_set k v d'
  end.

Definition no_attribute (v : pyval) (attr : string) : pyexn :=
  Exn AttributeError
      ("'" +:+ type_name v +:+ "' object has no attribute '" +:+ attr +:+ "'").

(** [x.get(k, default)] *)
Definition get (x : pyval) (k : string) (default : pyval) : result pyval :=
  match x with
  | VDict d => Ok (match assoc k d with Some v => v | None => default end)
  | _ => Raise (no_attribute x "get")
  end.

(** [x[k]] for a string key *)
Definition getitem (x : pyval) (k : string) : result pyval :=
  match x with
  | VDict d =>
      match assoc k d with
      | Some v => Ok v
      | None => Raise (Exn KeyError ("'" +:+ k +:+ "'"))
      end
  | VList _ =>
      Raise (Exn TypeError "list indices must be integers or slices, not str")
  | VStr _ =>
      Raise (Exn TypeError "string indices must be integers, not 'str'")
  | _ =>
      Raise (Exn TypeError ("'" +:+ type_name x +:+ "' object is not subscriptable"))
  end.

(** [x[k] = v] for a string key *)
Definition setitem (x : pyval) (k : string) (v : pyval) : result pyval :=
  match x with
  | VDict d => Ok (VDict (assoc_set k v d))
  | VList _ =>
      Raise (Exn TypeError "list indices must be integers or slices, not str")
  | _ =>
      Raise (Exn TypeError
               ("'" +:+ type_name x +:+ "' object does not support item assignment"))
  end.

(** [x.lower()] *)
Definition lower (x : pyval) : result string :=
  match x with
  | VStr s => Ok (PyStr.lower s)
  | _ => Raise (no_attribute x "lower")
  end.

(** [x > 0] *)
Definition gt_zero (x : pyval) : result bool :=
  match x with
  | VBool b => Ok b
  | VInt z => Ok (0 <? z)
  | VFloat q => Ok (negb (Qle_bool q 0))
  | _ =>
      Raise (Exn TypeError
               ("'>' not supported between instances of '" +:+ type_name x
                +:+ "' and 'int'"))
  end.

(** Equality of the hashable values ([==] on None, numbers and strings) *)
Definition num_of (v : pyval) : option Q :=
  match v with
  | VBool b => Some (inject_Z (if b then 1 else 0))
  | VInt z => Some (inject_Z z)
  | VFloat q => Some q
  | _ => None
  end.

Definition eqb (a b : pyval) : bool :=
  match a, b with
  | VNone, VNone => true
  | VStr s, VStr t => String.eqb s t
  | _, _ =>
      match num_of a, num_of b with
      | Some p, Some q => Qeq_bool p q
      | _, _ => false
      end
  end.

(** [hash(v)]: lists and dicts are unhashable *)
Definition check_hashable (v : pyval) : result unit :=
  match v with
  | VList _ | VDict _ =>
      Raise (Exn TypeError ("unhashable type: '" +:+ type_name v +:+ "'"))
  | _ => Ok tt
  end.

(** [iter(x)]: the elements a [for] loop or a comprehension visits *)
Definition iter (x : pyval) : result (list pyval) :=
  match x with
  | VList l => Ok l
  | VDict d => Ok (map (fun kv => VStr (fst kv)) d)
  | VStr s => Ok (map (fun c => VStr (String c EmptyString)) (list_ascii_of_string s))
  | _ => Raise (Exn TypeError ("'" +:+ type_name x +:+ "' object is not iterable"))
  end.

(** [k in x] for a string [k] *)
Definition contains (x : pyval) (k : string) : result bool :=
  match x with
  | VDict d => Ok (match assoc k d with Some _ => true | None => false end)
  | VList l => Ok (existsb (eqb (VStr k)) l)
  | VStr s => Ok (PyStr.contains s k)
  | _ =>
      Raise (Exn TypeError
               ("argument of type '" +:+ type_name x +:+ "' is not iterable"))
  end.

(** [str(v)], also what an f-string inserts for [{v}] *)
Definition str `{PyBuiltins} (v : pyval) : string :=
  match v with
  | VNone => "None"
  | VBool true => "True"
  | VBool false => "False"
  | VInt z => NilZero.string_of_int (Z.to_int z)
  | VStr s => s
  | _ => py_str v
  end.

End Py.


(* ================================================================== *)
(** * [anthropic_service.check_data_sufficiency] *)
(* ================================================================== *)

Definition empty_dict : pyval := VDict [].

Definition check_data_sufficiency (worker_data : pyval)
  : result (bool * list string) :=
  let available_sources : list string := [] in
  let critical_sources : Z := 0 in
  (* Site scraper is most important *)
  site ← Py.get worker_data "site_scraper" empty_dict;
  site_ok ← Py.get site "success" VNone;
  let '(available_sources, critical_sources) :=
    if Py.truthy site_ok
    then (available_sources ++ ["Website Content"], critical_sources + 2)
    else (available_sources, critical_sources) in
  (* Tech detector *)
  tech ← Py.get worker_data "tech_detector" empty_dict;
  tech_ok ← Py.get tech "success" VNone;
  '(available_sources, critical_sources) ←
    (if Py.truthy tech_ok then
       tech_entry ← Py.getitem worker_data "tech_detector";
       techs ← Py.get tech_entry "detected" (VList []);
       mret (if Py.truthy techs
             then (available_sources ++ ["Technology Stack"], critical_sources + 1)
             else (available_sources, critical_sources))
     else mret (available_sources, critical_sources));
  (* DNS/WHOIS *)
  dns_data ← Py.get worker_data "dns_whois" empty_dict;
  dns_ok ← Py.get dns_data "success" VNone;
  '(available_sources, critical_sources) ←
    (if Py.truthy dns_ok then
       dns ← Py.get dns_data "dns" empty_dict;
       mx ← Py.get dns "mx_records" VNone;
       let '(available_sources, critical_sources) :=
         if Py.truthy mx
         then (available_sources ++ ["DNS Records"], critical_sources + 1)
         else (available_sources, critical_sources) in
       whois ← Py.get dns_data "whois" empty_dict;
       registrar ← Py.get whois "registrar" VNone;
       mret (if Py.truthy registrar
             then (available_sources ++ ["Domain WHOIS"], critical_sources + 1)
             else (available_sources, critical_sources))
     else mret (available_sources, critical_sources));
  (* Google Business *)
  google ← Py.get worker_data "google_business" empty_dict;
  google_ok ← Py.get google "success" VNone;
  '(available_sources, critical_sources) ←
    (if Py.truthy google_ok then
       google_entry ← Py.getitem worker_data "google_business";
       rating ← Py.get google_entry "rating" VNone;
       mret (if Py.truthy rating
             then (available_sources ++ ["Google Business Profile"], critical_sources + 1)
             else (available_sources, critical_sources))
     else mret (available_sources, critical_sources));
  (* Job postings (nice to have but not critical) *)
  jobs ← Py.get worker_data "job_scanner" empty_dict;
  jobs_ok ← Py.get jobs "success" VNone;
  available_sources ←
    (if Py.truthy jobs_ok then
       jobs_entry ← Py.getitem worker_data "job_scanner";
       total ← Py.get jobs_entry "total_positions" (VInt 0);
       has_jobs ← Py.gt_zero total;
       mret (if (has_jobs : bool) then available_sources ++ ["Job Postings"]
             else available_sources)
     else mret available_sources);
  (* Need at least 3 points *)
  let is_sufficient := 3 <=? critical_sources in
  mret (is_sufficient, available_sources).

(* ================================================================== *)
(** * [anthropic_service.validate_profile] *)
(* ================================================================== *)

(** [for x in xs: body] over a [result] state *)
Fixpoint for_each {A S : Type} (xs : list A) (body : S -> A -> result S) (s : S)
  : result S :=
  match xs with
  | [] => Ok s
  | x :: xs' => s' ← body s x; for_each xs' body s'
  end.

Definition tech_issue `{PyBuiltins} (tech : pyval) : string :=
  "Technology '" +:+ Py.str tech +:+ "' not found in detector output".

Definition review_issue : string :=
  "Profile claims review data but Google Business data was unavailable".

(** First block: every technology the profile lists must be one the
    detector reported. *)
Definition check_detected_technologies `{PyBuiltins}
    (profile worker_data : pyval) (issues : list string) : result (list string) :=
  has_snapshot ← Py.contains profile "operational_snapshot";
  if (has_snapshot : bool) then
    snapshot ← Py.getitem profile "operational_snapshot";
    detected_techs ← Py.get snapshot "detected_technologies" (VList []);
    tech_data ← Py.get worker_data "tech_detector" empty_dict;
    tech_ok ← Py.get tech_data "success" VNone;
    if Py.truthy tech_ok then
      detected ← Py.get tech_data "detected" (VList []);
      entries ← Py.iter detected;
      valid_techs ← for_each entries
        (fun acc t => name ← Py.getitem t "name";
                      _ ← Py.check_hashable name;
                      mret (acc ++ [name])) [];
      techs ← Py.iter detected_techs;
      for_each techs
        (fun issues tech =>
           _ ← Py.check_hashable tech;
           mret (if existsb (Py.eqb tech) valid_techs then issues
                 else issues ++ [tech_issue tech])) issues
    else mret issues
  else mret issues.

(** Second block: review data must come from Google Business. *)
Definition check_review_data `{PyBuiltins}
    (profile worker_data : pyval) (issues : list string) : result (list string) :=
  has_market ← Py.contains profile "market_position";
  if (has_market : bool) then
    market ← Py.getitem profile "market_position";
    reputation ← Py.get market "public_reputation" (VStr EmptyString);
    google_data ← Py.get worker_data "google_business" empty_dict;
    google_ok ← Py.get google_data "success" VNone;
    if Py.truthy google_ok then
      rating ← Py.get google_data "rating" VNone;
      if Py.truthy rating then
        actual ← Py.getitem google_data "rating";
        let rating_str := Py.str actual in
        mentioned ← Py.contains reputation rating_str;
        if (mentioned : bool) then mret issues
        else
          (* the soft check: evaluated, then [pass] *)
          _ ← Py.lower reputation;
          mret issues
      else mret issues
    else
      low ← Py.lower reputation;
      if PyStr.contains low "stars" || PyStr.contains low "rating" then
        if negb (PyStr.contains low "no data")
           && negb (PyStr.contains low "unavailable")
        then mret (issues ++ [review_issue])
        else mret issues
      else mret issues
  else mret issues.

Definition validate_profile `{PyBuiltins} (profile worker_data : pyval)
  : result (bool * list string) :=
  let issues : list string := [] in
  issues ← check_detected_technologies profile worker_data issues;
  issues ← check_review_data profile worker_data issues;
  mret (Nat.eqb (length issues) 0, issues).

(* ================================================================== *)
(** * [anthropic_service.generate_profile] *)
(* ================================================================== *)

(** What the pipeline does to the outside world, in order. *)
Inductive event :=
| EvProvider (name : string)          (* a data provider is called *)
| EvSynthesis (attempt : nat)         (* [client.messages.create] *)
| EvSleep (seconds : Z)               (* [asyncio.sleep] *)
| EvEmail (kind : string) (to : string).

(** The outcome of one call of the Anthropic client: the text of the first
    content block, or the exception the client raised. *)
Inductive api_reply :=
| ReplyText (response_text : string)
| ReplyRaise (e : pyexn).

Record Settings := { anthropic_api_key : string }.

Definition index_error : pyexn := Exn IndexError "list index out of range".

(** [l[i]] on a list *)
Definition list_item {A : Type} (l : list A) (i : nat) : result A :=
  match nth_error l i with
  | Some x => Ok x
  | None => Raise index_error
  end.

Definition fence_json : string := "```json".
Definition fence : string := "```".

(** Parse JSON (handle potential markdown code blocks) *)
Definition extract_json (response_text : string) : result string :=
  if PyStr.contains response_text fence_json then
    inner ← list_item (PyStr.split response_text fence_json) 1;
    list_item (PyStr.split inner fence) 0
  else if PyStr.contains response_text fence then
    inner ← list_item (PyStr.split response_text fence) 1;
    list_item (PyStr.split inner fence) 0
  else Ok response_text.

(** The body of the [try] of one attempt. *)
Definition attempt_body `{PyBuiltins} (reply : api_reply) (worker_data : pyval)
  : result pyval :=
  match reply with
  | ReplyRaise e => Raise e
  | ReplyText response_text =>
      json_str ← extract_json response_text;
      profile ← match json_loads (PyStr.strip json_str) with
                | inl text => Raise (Exn JSONDecodeError text)
                | inr v => Ok v
                end;
      '(is_valid, issues) ← validate_profile profile worker_data;
      if (is_valid : bool) then mret profile
      else Py.setitem profile "_validation_issues" (VList (map VStr issues))
  end.

(** The message each [except] clause returns once the retries are used up. *)
Definition failure_message (e : pyexn) : string :=
  match exn_cls e with
  | RateLimitError => "Rate limited by Anthropic API after retries"
  | APIError => "Anthropic API error: " +:+ exn_text e
  | JSONDecodeError => "Failed to parse profile JSON: " +:+ exn_text e
  | _ => "Error generating profile: " +:+ exn_text e
  end.

Definition delays : list Z := [1; 4; 16].

Definition profile_outcome : Type := option pyval * option string.

(** [for attempt in range(max_retries)], from [attempt] on; [remaining] is
    the number of iterations left. *)
Fixpoint retry_loop `{PyBuiltins} (remaining : nat) (attempt : nat)
    (max_retries : Z) (api : nat -> api_reply) (worker_data : pyval)
    (trace : list event) : list event * result profile_outcome :=
  match remaining with
  | O => (trace, Ok (None, Some "Failed to generate profile after all retries"))
  | S remaining' =>
      let trace := trace ++ [EvSynthesis attempt] in
      match attempt_body (api attempt) worker_data with
      | Ok profile => (trace, Ok (Some profile, None))
      | Raise e =>
          if Z.of_nat attempt <? max_retries - 1 then
            match list_item delays attempt with
            | Ok d => retry_loop remaining' (S attempt) max_retries api
                                 worker_data (trace ++ [EvSleep d])
            | Raise ie => (trace, Raise ie)
            end
          else (trace, Ok (None, Some (failure_message e)))
      end
  end.

Definition generate_profile `{PyBuiltins} (settings : Settings)
    (company_name : string) (worker_data : pyval) (max_retries : Z)
    (api : nat -> api_reply) : list event * result profile_outcome :=
  if String.eqb (anthropic_api_key settings) EmptyString then
    ([], Ok (None, Some "Anthropic API key not configured"))
  else
    retry_loop (Z.to_nat max_retries) O max_retries api worker_data [].

Definition default_max_retries : Z := 3.

(* ================================================================== *)
(** * [main.normalize_url], [main.extract_domain], [main.validate_email_domain] *)
(* ================================================================== *)

Definition normalize_url (url : string) : string :=
  let url :=
    if PyStr.startswith url "http://" || PyStr.startswith url "https://"
    then url else "https://" +:+ url in
  PyStr.rstrip "/" url.

(** What [urlsplit] says of a netloc that holds both square brackets, where
    it checks an IP literal ([_check_bracketed_netloc] in the releases that
    have it): the text of the [ValueError] it raises, or [None] when it
    accepts the netloc. *)
Class IpLiterals := { check_bracketed_netloc : string -> option string }.

(** [urllib.parse.urlparse(url).netloc], after CPython's [urlsplit], for
    text of code points below 256 (on which the NFKC check of the netloc
    never raises). *)
Module Urllib.

Definition scheme_chars : string :=
  "abcdefghijklmnopqrstuvwxyzABCDEFGHIJKLMNOPQRSTUVWXYZ0123456789+-.".

Definition is_alpha (c : ascii) : bool :=
  let n := nat_of_ascii c in
  (((65 <=? n) && (n <=? 90)) || ((97 <=? n) && (n <=? 122)))%nat.

(** Leading C0 control characters and spaces are dropped. *)
Fixpoint lstrip_c0 (s : string) : string :=
  match s with
  | EmptyString => EmptyString
  | String c s' => if (nat_of_ascii c <=? 32)%nat then lstrip_c0 s' else s
  end.

(** Tab, line feed and carriage return are removed wherever they are. *)
Definition unsafe_chars : string :=
  String (ascii_of_nat 9) (String (ascii_of_nat 10)
 (String (ascii_of_nat 13) EmptyString)).

(** The text after the first colon, when only scheme characters come
    before it. *)
Fixpoint after_scheme (s : string) : option string :=
  match s with
  | EmptyString => None
  | String c s' =>
      if Ascii.eqb c ":" then Some s'
      else if PyStr.mem_char c scheme_chars then after_scheme s'
      else None
  end.

Definition strip_scheme (url : string) : string :=
  match url with
  | EmptyString => url
  | String c _ =>
      if is_alpha c then
        match after_scheme url with
        | Some rest => rest
        | None => url
        end
      else url
  end.

(** A netloc with one square bracket and not the other is refused; one
    with both is checked as an IP literal. *)
Definition netloc `{IpLiterals} (url : string) : result string :=
  let url := PyStr.remove_chars unsafe_chars (lstrip_c0 url) in
  let url := strip_scheme url in
  if PyStr.startswith url "//" then
    let n := PyStr.take_until "/?#" (PyStr.drop 2 url) in
    let opening := PyStr.mem_char "[" n in
    let closing := PyStr.mem_char "]" n in
    if xorb opening closing then Raise (Exn ValueError "Invalid IPv6 URL")
    else if opening && closing then
      match check_bracketed_netloc n with
      | Some text => Raise (Exn ValueError text)
      | None => Ok n
      end
    else Ok n
  else Ok EmptyString.

End Urllib.

Definition extract_domain `{IpLiterals} (url : string) : result string :=
  netloc ← Urllib.netloc (normalize_url url);
  let domain := PyStr.lower netloc in
  (* Remove www. prefix *)
  mret (if PyStr.startswith domain "www." then PyStr.drop 4 domain else domain).

Definition generic_providers : list string :=
  ["gmail.com"; "yahoo.com"; "outlook.com"; "hotmail.com";
   "aol.com"; "icloud.com"; "protonmail.com"; "mail.com"].

(** [x in l] for a list of strings *)
Definition str_in_list (x : string) (l : list string) : bool :=
  existsb (String.eqb x) l.

Definition validate_email_domain `{IpLiterals} (email url : string)
  : result (bool * bool) :=
  at_domain ← list_item (PyStr.split email "@") 1;
  let email_domain := PyStr.lower at_domain in
  url_domain ← extract_domain url;
  (* Check for generic email providers *)
  if str_in_list email_domain generic_providers then mret (true, true)
  (* Check for exact match or subdomain match *)
  else if String.eqb email_domain url_domain then mret (true, false)
  (* Check if email domain is subdomain of URL domain *)
  else if PyStr.endswith email_domain ("." +:+ url_domain) then mret (true, false)
  (* Check if URL domain is subdomain of email domain *)
  else if PyStr.endswith url_domain ("." +:+ email_domain) then mret (true, false)
  else mret (false, false).

(* ================================================================== *)
(** * The Redis store and [main.check_rate_limit] *)
(* ================================================================== *)

(** Times are in seconds.  The two key families the orchestrator uses,
    [rate_limit:<ip>] and [profile_cache:<url>], are kept in two maps, each
    keyed by the full key: the first is only written by INCR and holds
    integers, the second holds job ids. *)
Record counter_entry := Counter { cnt_value : Z; cnt_expire_at : option Z }.
Record cache_entry := Cached { cache_job_id : string; cache_expire_at : Z }.

Record Redis := {
  counters : gmap string counter_entry;
  profile_cache : gmap string cache_entry;
}.

(** A key whose time to live has run out is gone. *)
Definition counter_live (now : Z) (e : counter_entry) : bool :=
  match cnt_expire_at e with
  | Some t => now <? t
  | None => true
  end.

(** GET *)
Definition redis_get (now : Z) (r : Redis) (key : string) : option Z :=
  match counters r !! key with
  | Some e => if counter_live now e then Some (cnt_value e) else None
  | None => None
  end.

(** The pipeline INCR key; EXPIRE key ttl *)
Definition redis_incr_expire (now : Z) (r : Redis) (key : string) (ttl : Z) : Redis :=
  let n := match redis_get now r key with Some n => n | None => 0 end in
  {| counters := <[key := Counter (n + 1) (Some (now + ttl))]> (counters r);
     profile_cache := profile_cache r |}.

(** SETEX *)
Definition redis_setex (now : Z) (r : Redis) (key : string) (ttl : Z)
    (value : string) : Redis :=
  {| counters := counters r;
     profile_cache := <[key := Cached value (now + ttl)]> (profile_cache r) |}.

(** Where a command of the backing store fails, if it does.  A failed
    command leaves the store as it was. *)
Inductive redis_fault := NoFault | GetFails | PipelineFails.

Definition rate_limit_key (ip : string) : string := "rate_limit:" +:+ ip.

(** [redis_client] is [None] when no connection could be made at startup.
    This is a check that no other check of the store interleaves with: its
    GET and its pipeline run back to back. *)
Definition check_rate_limit (fault : redis_fault) (now : Z) (ip : string)
    (redis_client : option Redis) : bool * option Redis :=
  match redis_client with
  | None => (true, redis_client)              (* Allow if Redis unavailable *)
  | Some r =>
      let key := rate_limit_key ip in
      match fault with
      | GetFails => (true, redis_client)      (* Allow if error *)
      | _ =>
          let count := redis_get now r key in
          if match count with Some n => 10 <=? n | None => false end
          then (false, redis_client)
          else
            match fault with
            | PipelineFails => (true, redis_client)   (* Allow if error *)
            | _ => (true, Some (redis_incr_expire now r key 3600))
            end
      end
  end.

(** Successive checks of one IP at the given times, without faults. *)
Fixpoint run_checks (times : list Z) (ip : string) (redis_client : option Redis)
  : list bool * option Redis :=
  match times with
  | [] => ([], redis_client)
  | t :: times' =>
      let '(allowed, redis_client) := check_rate_limit NoFault t ip redis_client in
      let '(rest, redis_client) := run_checks times' ip redis_client in
      (allowed :: rest, redis_client)
  end.

(** The two round trips of a check, which the source awaits one after the
    other.  After the first, the GET and the test, the check is decided or
    goes on to the pipeline. *)
Inductive after_get :=
| Decided (allowed : bool)
| Proceeds.

Definition rate_limit_get (fault : redis_fault) (now : Z) (ip : string)
    (redis_client : option Redis) : after_get :=
  match redis_client with
  | None => Decided true
  | Some r =>
      match fault with
      | GetFails => Decided true
      | _ =>
          if match redis_get now r (rate_limit_key ip) with
             | Some n => 10 <=? n
             | None => false
             end
          then Decided false
          else Proceeds
      end
  end.

(** The second round trip, INCR and EXPIRE in one pipeline; the check
    answers true whether the pipeline ran or raised. *)
Definition rate_limit_pipeline (fault : redis_fault) (now : Z) (ip : string)
    (redis_client : option Redis) : option Redis :=
  match redis_client with
  | None => None
  | Some r =>
      match fault with
      | PipelineFails => redis_client
      | _ => Some (redis_incr_expire now r (rate_limit_key ip) 3600)
      end
  end.

(** The pipelines of [count] checks of one IP that have all done their GET
    already, run one after the other. *)
Fixpoint run_pipelines (count : nat) (now : Z) (ip : string) (r : Redis) : Redis :=
  match count with
  | O => r
  | S count' =>
      run_pipelines count' now ip (redis_incr_expire now r (rate_limit_key ip) 3600)
  end.

(* ================================================================== *)
(** * The fan-out stage of [main.process_submission] *)
(* ================================================================== *)

(** What [asyncio.gather(..., return_exceptions=True)] hands back for one
    awaited provider: its return value, or the exception it raised (a
    time-out included). *)
Inductive outcome :=
| Returned (v : pyval)
| Raised (e : pyexn).

Record worker_results := {
  site_scraper_result : outcome;
  tech_detector_result : outcome;
  dns_whois_result : outcome;
  google_business_result : outcome;
  job_scanner_result : outcome;
}.

(** [r if not isinstance(r, Exception) else {"success": False, "error": str(r)}] *)
Definition organize_result (r : outcome) : pyval :=
  match r with
  | Returned v => v
  | Raised e => VDict [("success", VBool false); ("error", VStr (exn_text e))]
  end.

Definition provider_names : list string :=
  ["site_scraper"; "tech_detector"; "dns_whois"; "google_business"; "job_scanner"].

Definition organize_results (rs : worker_results) : list (string * pyval) :=
  [("site_scraper", organize_result (site_scraper_result rs));
   ("tech_detector", organize_result (tech_detector_result rs));
   ("dns_whois", organize_result (dns_whois_result rs));
   ("google_business", organize_result (google_business_result rs));
   ("job_scanner", organize_result (job_scanner_result rs))].

(* ================================================================== *)
(** * [database]: the tables and the queries of the pipeline *)
(* ================================================================== *)

Inductive SubmissionStatus :=
| queued | processing | complete | failed | manual_review | insufficient_data.

#[global] Instance SubmissionStatus_eq_dec : EqDecision SubmissionStatus.
Proof. solve_decision. Defined.

Record submission_row := {
  sub_id : Z;
  sub_company_name : string;
  sub_company_url : string;
  sub_email : string;
  sub_job_id : string;
  sub_auth_token : string;
  sub_status : SubmissionStatus;
  sub_created_at : Z;
  sub_completed_at : option Z;
}.

Record profile_row := {
  prof_id : Z;
  prof_submission_id : Z;
  prof_profile_json : pyval;
  prof_data_sources_used : list string;
  prof_confidence_score : pyval;
  prof_created_at : Z;
}.

(** The rows of a table are in insertion order.  Queries and updates do not
    fail: the storage layer is outside the orchestrator. *)
Record Database := {
  submissions : list submission_row;
  profiles : list profile_row;
}.

Definition day : Z := 86400.

(** [ORDER BY created_at DESC LIMIT 1]: of the rows with the latest
    [created_at], the one inserted first. *)
Fixpoint latest (rows : list submission_row) : option submission_row :=
  match rows with
  | [] => None
  | r :: rows' =>
      match latest rows' with
      | Some r' => if sub_created_at r <? sub_created_at r' then Some r' else Some r
      | None => Some r
      end
  end.

Definition recent_complete (now : Z) (url : string) (r : submission_row) : bool :=
  String.eqb (sub_company_url r) url
  && bool_decide (sub_status r = complete)
  && (now - day <? sub_created_at r).

(** Get recent submission by URL (for caching) *)
Definition get_submission_by_url (now : Z) (db : Database) (url : string)
  : option submission_row :=
  latest (List.filter (recent_complete now url) (submissions db)).

Definition get_submission_by_job_id (db : Database) (job_id : string)
  : option submission_row :=
  List.find (fun r => String.eqb (sub_job_id r) job_id) (submissions db).

Definition get_profile_by_submission_id (db : Database) (submission_id : Z)
  : option profile_row :=
  List.find (fun p => prof_submission_id p =? submission_id) (profiles db).

Definition set_status (status : SubmissionStatus) (completed_at : option Z)
    (r : submission_row) : submission_row :=
  {| sub_id := sub_id r; sub_company_name := sub_company_name r;
     sub_company_url := sub_company_url r; sub_email := sub_email r;
     sub_job_id := sub_job_id r; sub_auth_token := sub_auth_token r;
     sub_status := status; sub_created_at := sub_created_at r;
     sub_completed_at := match completed_at with
                         | Some t => Some t
                         | None => sub_completed_at r
                         end |}.

Definition update_submission_status (db : Database) (job_id : string)
    (status : SubmissionStatus) (completed_at : option Z) : Database :=
  {| submissions :=
       map (fun r => if String.eqb (sub_job_id r) job_id
                     then set_status status completed_at r else r)
           (submissions db);
     profiles := profiles db |}.

(** The next value of a SERIAL column *)
Definition next_id (ids : list Z) : Z := 1 + fold_right Z.max 0 ids.

Definition create_profile (now : Z) (db : Database) (submission_id : Z)
    (profile_json : pyval) (data_sources_used : list string)
    (confidence_score : pyval) : Database :=
  {| submissions := submissions db;
     profiles := profiles db ++
       [{| prof_id := next_id (map prof_id (profiles db));
           prof_submission_id := submission_id;
           prof_profile_json := profile_json;
           prof_data_sources_used := data_sources_used;
           prof_confidence_score := confidence_score;
           prof_created_at := now |}] |}.

Definition create_submission (now : Z) (db : Database)
    (company_name company_url email job_id auth_token : string)
    (status : SubmissionStatus) : Database :=
  {| submissions := submissions db ++
       [{| sub_id := next_id (map sub_id (submissions db));
           sub_company_name := company_name; sub_company_url := company_url;
           sub_email := email; sub_job_id := job_id;
           sub_auth_token := auth_token; sub_status := status;
           sub_created_at := now; sub_completed_at := None |}];
     profiles := profiles db |}.

(* ================================================================== *)
(** * [main.process_submission] *)
(* ================================================================== *)

Record IntakeRequest := {
  company_name : string;
  company_url : string;
  email : string;
}.

(** The state the orchestrator works on: the database, the Redis client
    (absent when the connection failed at startup) and the log of what was
    done to the outside world. *)
Record World := {
  db : Database;
  redis_client : option Redis;
  trace : list event;
}.

(** What one run of the background task meets: the clock, the settings, what
    the five providers give back and what the Anthropic client answers at
    each attempt. *)
Record Env := {
  env_now : Z;
  env_settings : Settings;
  env_workers : worker_results;
  env_api : nat -> api_reply;
}.

Definition with_db (w : World) (d : Database) : World :=
  {| db := d; redis_client := redis_client w; trace := trace w |}.

Definition log (w : World) (evs : list event) : World :=
  {| db := db w; redis_client := redis_client w; trace := trace w ++ evs |}.

Definition with_redis (w : World) (r : option Redis) : World :=
  {| db := db w; redis_client := r; trace := trace w |}.

Definition set_job_status (env : Env) (w : World) (job_id : string)
    (status : SubmissionStatus) : World :=
  with_db w (update_submission_status (db w) job_id status (Some (env_now env))).

(** The outermost [except Exception]: force [failed], try to notify. *)
Definition on_unexpected_error (env : Env) (w : World) (job_id : string)
    (submission : IntakeRequest) : World :=
  log (set_job_status env w job_id failed) [EvEmail "error" (email submission)].

(** The cache lookup that opens the task: the cached profile and the row of
    the current submission, when all three guards pass. *)
Definition cache_lookup (env : Env) (w : World) (job_id url : string)
  : option (profile_row * submission_row) :=
  match get_submission_by_url (env_now env) (db w) url with
  | Some cached =>
      if bool_decide (sub_status cached = complete) then
        match get_profile_by_submission_id (db w) (sub_id cached) with
        | Some cached_profile =>
            match get_submission_by_job_id (db w) job_id with
            | Some current => Some (cached_profile, current)
            | None => None
            end
        | None => None
        end
      else None
  | None => None
  end.

(** [bool(x)] for an [Optional] value *)
Definition option_truthy (x : option pyval) : bool :=
  match x with
  | Some v => Py.truthy v
  | None => false
  end.

(** [profile.get("data_confidence", {}).get("overall_score", "Medium")] *)
Definition confidence_of (profile : pyval) : result pyval :=
  confidence ← Py.get profile "data_confidence" empty_dict;
  Py.get confidence "overall_score" (VStr "Medium").

Definition cache_key (url : string) : string := "profile_cache:" +:+ url.

Definition process_submission `{PyBuiltins} (env : Env)
    (job_id auth_token : string) (submission : IntakeRequest) (w : World) : World :=
  let now := env_now env in
  (* Update status to processing *)
  let w := with_db w (update_submission_status (db w) job_id processing None) in
  let url := normalize_url (company_url submission) in
  (* Check cache first *)
  match cache_lookup env w job_id url with
  | Some (cached_profile, current) =>
      let w := with_db w (create_profile now (db w) (sub_id current)
                            (prof_profile_json cached_profile)
                            (prof_data_sources_used cached_profile)
                            (prof_confidence_score cached_profile)) in
      let w := set_job_status env w job_id complete in
      log w [EvEmail "profile_ready" (email submission)]
  | None =>
      (* Run all workers in parallel *)
      let w := log w (map EvProvider provider_names) in
      let worker_data := VDict (organize_results (env_workers env)) in
      (* Check data sufficiency *)
      match check_data_sufficiency worker_data with
      | Raise _ => on_unexpected_error env w job_id submission
      | Ok (is_sufficient, available_sources) =>
          if negb is_sufficient then
            log (set_job_status env w job_id insufficient_data)
                [EvEmail "insufficient_data" (email submission)]
          else
            (* Generate profile with Anthropic *)
            let '(calls, generated) :=
              generate_profile (env_settings env) (company_name submission)
                               worker_data default_max_retries (env_api env) in
            let w := log w calls in
            match generated with
            | Raise _ => on_unexpected_error env w job_id submission
            | Ok (profile, error) =>
                if option_truthy (VStr <$> error) || negb (option_truthy profile) then
                  log (set_job_status env w job_id failed)
                      [EvEmail "error" (email submission)]
                else
                  let profile := default VNone profile in
                  (* Store the profile *)
                  let stored :=
                    match get_submission_by_job_id (db w) job_id with
                    | Some current =>
                        confidence_score ← confidence_of profile;
                        mret (with_db w (create_profile now (db w) (sub_id current)
                                profile available_sources confidence_score))
                    | None => Ok w
                    end in
                  match stored with
                  | Raise _ => on_unexpected_error env w job_id submission
                  | Ok w =>
                      (* Update status and send email *)
                      let w := set_job_status env w job_id complete in
                      let w := log w [EvEmail "profile_ready" (email submission)] in
                      (* Cache in Redis (keyed by URL, 24h TTL) *)
                      match redis_client w with
                      | Some r => with_redis w (Some (redis_setex now r (cache_key url)
                                                        day job_id))
                      | None => w
                      end
                  end
            end
      end
  end.

(* ================================================================== *)
(** * [main.submit_intake] *)
(* ================================================================== *)

Record Request := {
  client_host : string;
  x_forwarded_for : option string;
}.

Inductive response :=
| HTTPException (status_code : Z) (detail : string)
| IntakeResponse (job_id : string) (message : string).

Definition rate_limited : response :=
  HTTPException 429 "Rate limit exceeded. Please try again later.".

Definition domain_mismatch : response :=
  HTTPException 400
    "Please use a business email address matching your company domain.".

(** Get client IP *)
Definition client_ip_of (request : Request) : result string :=
  match x_forwarded_for request with
  | Some forwarded_for =>
      if negb (String.eqb forwarded_for EmptyString) then
        first ← list_item (PyStr.split forwarded_for ",") 0;
        mret (PyStr.strip first)
      else mret (client_host request)
  | None => mret (client_host request)
  end.

Definition intake_failed : response :=
  HTTPException 500 "Failed to process submission. Please try again.".

(** The answer of the endpoint, the new state, and the background task it
    queued (job id and token), if any.  [ids] are the two fresh UUIDs;
    [insert_error] is the exception the INSERT of the submission raises, if
    it does (a value the table refuses, a lost connection). *)
Definition submit_intake `{IpLiterals} (fault : redis_fault)
    (insert_error : option pyexn) (now : Z) (ids : string * string)
    (request : Request) (submission : IntakeRequest) (w : World)
  : result (response * World * option (string * string)) :=
  client_ip ← client_ip_of request;
  (* Check rate limit *)
  let '(allowed, redis) := check_rate_limit fault now client_ip (redis_client w) in
  let w := with_redis w redis in
  if negb allowed then mret (rate_limited, w, None)
  else
    (* Validate email domain *)
    '(is_valid, needs_review) ←
      validate_email_domain (email submission) (company_url submission);
    if negb is_valid then mret (domain_mismatch, w, None)
    else
      (* Generate IDs *)
      let '(job_id, auth_token) := ids in
      (* Determine initial status *)
      let initial_status := if (needs_review : bool) then manual_review else queued in
      (* Create submission record *)
      match insert_error with
      | Some _ => mret (intake_failed, w, None)
      | None =>
          let w := with_db w (create_submission now (db w) (company_name submission)
                                (normalize_url (company_url submission))
                                (email submission) job_id auth_token
                                initial_status) in
          if negb needs_review then
            mret (IntakeResponse job_id
                    "Your operational profile is being generated. You'll receive an email when it's ready.",
                  w, Some (job_id, auth_token))
          else
            mret (IntakeResponse job_id
                    "Your request has been received and will be reviewed by our team.",
                  w, None)
      end.

(* ================================================================== *)
(** * [database.get_submission_by_token], [database.create_feedback] *)
(* ================================================================== *)

Definition get_submission_by_token (db : Database) (token : string)
  : option submission_row :=
  List.find (fun r => String.eqb (sub_auth_token r) token) (submissions db).

Record feedback_row := {
  fb_id : Z;
  fb_profile_id : Z;
  fb_rating : Z;
  fb_comment : option string;
  fb_created_at : Z;
}.

(** The two constraints of the feedback table: [profile_id REFERENCES
    profiles(id)] and [CHECK (rating >= 1 AND rating <= 5)]. *)
Definition references_profile (db : Database) (profile_id : Z) : bool :=
  existsb (fun p => prof_id p =? profile_id) (profiles db).

Definition rating_in_range (rating : Z) : bool := (1 <=? rating) && (rating <=? 5).

(** The INSERT raises when the database refuses the statement for a reason
    of its own ([error]: a NUL byte in the comment, a lost connection) or
    when a constraint is violated, and then stores nothing. *)
Definition create_feedback (error : option pyexn) (now : Z) (db : Database)
    (table : list feedback_row) (profile_id rating : Z) (comment : option string)
  : result (list feedback_row) :=
  match error with
  | Some e => Raise e
  | None =>
      if negb (references_profile db profile_id) then
        Raise (Exn OtherException "violates foreign key constraint")
      else if negb (rating_in_range rating) then
        Raise (Exn OtherException "violates check constraint")
      else
        Ok (table ++ [{| fb_id := next_id (map fb_id table);
                         fb_profile_id := profile_id; fb_rating := rating;
                         fb_comment := comment; fb_created_at := now |}])
  end.

(** The exceptions the three statements of the feedback endpoint raise for
    reasons of the database's own, if they do (a token that is not a UUID,
    a NUL byte, a lost connection). *)
Record feedback_faults := {
  select_submission_error : option pyexn;
  select_profile_error : option pyexn;
  insert_feedback_error : option pyexn;
}.

Definition no_faults : feedback_faults :=
  {| select_submission_error := None; select_profile_error := None;
     insert_feedback_error := None |}.

(* ================================================================== *)
(** * [main.get_job_status], [main.get_profile], [main.submit_feedback] *)
(* ================================================================== *)

Inductive status_response :=
| StatusError (status_code : Z) (detail : string)
| JobStatus (job_id : string) (status : SubmissionStatus) (created_at : Z)
            (completed_at : option Z).

Definition get_job_status (db : Database) (job_id : string) : status_response :=
  match get_submission_by_job_id db job_id with
  | None => StatusError 404 "Job not found"
  | Some submission =>
      JobStatus job_id (sub_status submission) (sub_created_at submission)
                (sub_completed_at submission)
  end.

Definition week : Z := 7 * day.

(** The [detail] of an error of the profile endpoint: a text, or the status
    of the job with a message. *)
Inductive profile_detail :=
| Message (text : string)
| Progress (status : SubmissionStatus) (message : string).

Inductive profile_response :=
| ProfileError (status_code : Z) (detail : profile_detail)
| ProfileData (profile : pyval) (company : string) (created_at : Z).

Definition progress_message (status : SubmissionStatus) : string :=
  if bool_decide (status = queued) || bool_decide (status = processing)
  then "Your profile is being prepared"
  else "Unable to generate profile".

Definition get_profile (now : Z) (db : Database) (token : string)
  : profile_response :=
  match get_submission_by_token db token with
  | None => ProfileError 404 (Message "Profile not found")
  | Some submission =>
      (* Check token expiration (7 days) *)
      if week <? now - sub_created_at submission then
        ProfileError 410 (Message "This profile link has expired")
      else if negb (bool_decide (sub_status submission = complete)) then
        ProfileError 202 (Progress (sub_status submission)
                                   (progress_message (sub_status submission)))
      else
        match get_profile_by_submission_id db (sub_id submission) with
        | None => ProfileError 404 (Message "Profile data not found")
        | Some profile =>
            ProfileData (prof_profile_json profile) (sub_company_name submission)
                        (prof_created_at profile)
        end
  end.

Inductive feedback_response :=
| FeedbackError (status_code : Z) (detail : string)
| FeedbackAccepted (message : string).

(** The answer of the endpoint and the feedback table after it; the
    endpoint handles no exception, so what a statement raises is raised. *)
Definition submit_feedback (faults : feedback_faults) (now : Z) (db : Database)
    (table : list feedback_row) (token : string) (rating : Z)
    (comment : option string)
  : result (feedback_response * list feedback_row) :=
  match select_submission_error faults with
  | Some e => Raise e
  | None =>
      match get_submission_by_token db token with
      | None => mret (FeedbackError 404 "Profile not found", table)
      | Some submission =>
          match select_profile_error faults with
          | Some e => Raise e
          | None =>
              match get_profile_by_submission_id db (sub_id submission) with
              | None => mret (FeedbackError 404 "Profile not found", table)
              | Some profile =>
                  if (rating <? 1) || (5 <? rating) then
                    mret (FeedbackError 400 "Rating must be between 1 and 5", table)
                  else
                    table ← create_feedback (insert_feedback_error faults) now db
                              table (prof_id profile) rating comment;
                    mret (FeedbackAccepted "Thank you for your feedback", table)
              end
          end
      end
  end.

(* ================================================================== *)
(** * [workers.tech_detector.check_signature] *)
(* ================================================================== *)

(** One entry of [TECH_SIGNATURES]; a key that is absent is an empty list. *)
Record signature := {
  sig_headers : list (string * string);
  sig_html : list string;
  sig_meta : list (string * string);
}.

Record detection := {
  det_name : string;
  det_confidence : Z;
  det_evidence : list string;
}.

(** [not value or value.lower() in found.lower()] *)
Definition value_matches (value found : string) : bool :=
  String.eqb value EmptyString
  || PyStr.contains (PyStr.lower found) (PyStr.lower value).

(** The inner loop over [headers.items()], left at the first match. *)
Fixpoint header_found (header_name_lower header_value : string)
    (headers : list (string * string)) : bool :=
  match headers with
  | [] => false
  | (h_name, h_value) :: headers' =>
      if String.eqb header_name_lower (PyStr.lower h_name)
         && value_matches header_value h_value
      then true
      else header_found header_name_lower header_value headers'
  end.

Definition header_hit (headers : list (string * string))
    (entry : string * string) : bool :=
  header_found (PyStr.lower (fst entry)) (snd entry) headers.

Definition html_hit (html_lower : string) (pattern : string) : bool :=
  PyStr.contains html_lower (PyStr.lower pattern).

Definition meta_hit (meta_tags : gmap string string) (entry : string * string)
  : bool :=
  match meta_tags !! fst entry with
  | Some found => value_matches (snd entry) found
  | None => false
  end.

(** One pass of a loop of the checker: [confidence += weight] and
    [matches.append(label entry)] for every entry that hits. *)
Definition scan {A : Type} (hit : A -> bool) (weight : Z) (label : A -> string)
    (entries : list A) (acc : Z * list string) : Z * list string :=
  fold_left (fun acc entry =>
               if hit entry then (fst acc + weight, snd acc ++ [label entry])
               else acc)
            entries acc.

Definition check_signature (tech_name : string) (sig : signature)
    (headers : list (string * string)) (html : string)
    (meta_tags : gmap string string) : option detection :=
  let acc := (0, []) in
  (* Check headers *)
  let acc := scan (header_hit headers) 30
                  (fun entry => "header:" +:+ fst entry) (sig_headers sig) acc in
  (* Check HTML patterns *)
  let html_lower := PyStr.lower html in
  let acc := scan (html_hit html_lower) 25
                  (fun pattern => "html:" +:+ String.substring 0 30 pattern)
                  (sig_html sig) acc in
  (* Check meta tags *)
  let acc := scan (meta_hit meta_tags) 30
                  (fun entry => "meta:" +:+ fst entry) (sig_meta sig) acc in
  let '(confidence, matches) := acc in
  if 25 <=? confidence then
    Some {| det_name := tech_name;
            det_confidence := Z.min confidence 100;
            det_evidence := firstn 3 matches |}
  else None.

(* ================================================================== *)
(** * The five providers: the dict each one returns *)
(* ================================================================== *)

(** Every provider builds a [result] dict, runs its requests inside a
    [try] that assigns to some keys of the dict, and returns the dict: with
    [success] set when the block ran to its end, with [error] set by the
    [except] clause that caught what the block raised.  A run of a provider
    is described by the assignments its block made to the payload keys and
    by the way the block ended; the values assigned are those the remote
    service led to. *)

(** [result[k] = v] for each assignment, in order *)
Definition assign {F : Type} (key : F -> string) (result : list (string * pyval))
    (assigned : list (F * pyval)) : list (string * pyval) :=
  fold_left (fun d kv => Py.assoc_set (key (fst kv)) (snd kv) d) assigned result.

(** [f"{n}"] for an integer *)
Definition int_text (n : Z) : string := NilZero.string_of_int (Z.to_int n).

(** How the [try] of a provider that fetches a page ended. *)
Inductive page_ending :=
| PageDone                           (* the block ran to its end *)
| PageTimeout                        (* [httpx.TimeoutException] *)
| PageStatus (status_code : Z)       (* [httpx.HTTPStatusError] *)
| PageError (text : string).         (* any other [Exception], [str(e)] *)

(** How the [try] of a provider that queries an API ended. *)
Inductive api_ending :=
| ApiDone
| ApiTimeout
| ApiError (text : string).

Inductive scraper_field :=
| Title | MetaDescription | VisibleText | NavigationItems | InternalLinksCount
| AboutContent | ServicesContent | TeamContent | LocationMentions | IsSpa.

Definition scraper_key (f : scraper_field) : string :=
  match f with
  | Title => "title" | MetaDescription => "meta_description"
  | VisibleText => "visible_text" | NavigationItems => "navigation_items"
  | InternalLinksCount => "internal_links_count"
  | AboutContent => "about_content" | ServicesContent => "services_content"
  | TeamContent => "team_content" | LocationMentions => "location_mentions"
  | IsSpa => "is_spa"
  end.

Record scraper_run := {
  scraper_assigned : list (scraper_field * pyval);
  scraper_ending : page_ending;
}.

Definition scrape_site (url : string) (run : scraper_run) : pyval :=
  let result :=
    [("source", VStr "site_scraper"); ("success", VBool false); ("url", VStr url);
     ("title", VNone); ("meta_description", VNone); ("visible_text", VNone);
     ("navigation_items", VList []); ("internal_links_count", VInt 0);
     ("about_content", VNone); ("services_content", VNone);
     ("team_content", VNone); ("location_mentions", VList []);
     ("is_spa", VBool false); ("error", VNone)] in
  let result := assign scraper_key result (scraper_assigned run) in
  VDict match scraper_ending run with
        | PageDone => Py.assoc_set "success" (VBool true) result
        | PageTimeout =>
            Py.assoc_set "error" (VStr "Timeout - site took too long to respond")
                         result
        | PageStatus status_code =>
            Py.assoc_set "error" (VStr ("HTTP error: " +:+ int_text status_code))
                         result
        | PageError text =>
            Py.assoc_set "error" (VStr ("Error scraping site: " +:+ text)) result
        end.

Inductive detector_field := Detected.

Definition detector_key (f : detector_field) : string := "detected".

Record detector_run := {
  detector_assigned : list (detector_field * pyval);
  detector_ending : page_ending;
}.

Definition detect_technologies (url : string) (run : detector_run) : pyval :=
  let result :=
    [("source", VStr "tech_detector"); ("success", VBool false); ("url", VStr url);
     ("detected", VList []); ("error", VNone)] in
  let result := assign detector_key result (detector_assigned run) in
  VDict match detector_ending run with
        | PageDone => Py.assoc_set "success" (VBool true) result
        | PageTimeout =>
            Py.assoc_set "error" (VStr "Timeout - site took too long to respond")
                         result
        | PageStatus status_code =>
            Py.assoc_set "error" (VStr ("HTTP error: " +:+ int_text status_code))
                         result
        | PageError text =>
            Py.assoc_set "error" (VStr ("Error detecting technologies: " +:+ text))
                         result
        end.

Inductive dns_field :=
| MxRecords | TxtRecords | Nameservers | EmailProvider | HasSpf | HasDkim | HasDmarc.

Definition dns_key (f : dns_field) : string :=
  match f with
  | MxRecords => "mx_records" | TxtRecords => "txt_records"
  | Nameservers => "nameservers" | EmailProvider => "email_provider"
  | HasSpf => "has_spf" | HasDkim => "has_dkim" | HasDmarc => "has_dmarc"
  end.

Inductive whois_field := Registrar | CreationDate | ExpirationDate | DomainAgeYears.

Definition whois_key (f : whois_field) : string :=
  match f with
  | Registrar => "registrar" | CreationDate => "creation_date"
  | ExpirationDate => "expiration_date" | DomainAgeYears => "domain_age_years"
  end.

(** One of the two blocking lookups: what it filled in (it swallows its own
    exceptions), or the time-out of [asyncio.wait_for]. *)
Inductive lookup (F : Type) :=
| Answered (assigned : list (F * pyval))
| LookupTimeout.
Arguments Answered {F} assigned.
Arguments LookupTimeout {F}.

Definition dns_lookup_result (l : lookup dns_field) : pyval :=
  match l with
  | Answered assigned =>
      VDict (assign dns_key
               [("mx_records", VList []); ("txt_records", VList []);
                ("nameservers", VList []); ("email_provider", VNone);
                ("has_spf", VBool false); ("has_dkim", VBool false);
                ("has_dmarc", VBool false)] assigned)
  | LookupTimeout => VDict [("error", VStr "DNS lookup timed out")]
  end.

Definition whois_lookup_result (l : lookup whois_field) : pyval :=
  match l with
  | Answered assigned =>
      VDict (assign whois_key
               [("registrar", VNone); ("creation_date", VNone);
                ("expiration_date", VNone); ("domain_age_years", VNone)] assigned)
  | LookupTimeout => VDict [("error", VStr "WHOIS lookup timed out")]
  end.

Inductive dns_whois_field := Domain | Dns | Whois.

Definition dns_whois_key (f : dns_whois_field) : string :=
  match f with
  | Domain => "domain" | Dns => "dns" | Whois => "whois"
  end.

(** The block of [lookup_dns_whois] either gets to its end, with the
    domain and the results of the two lookups, or raises on the way. *)
Inductive dns_whois_run :=
| LookupsDone (domain : string) (dns : lookup dns_field) (whois : lookup whois_field)
| LookupsError (assigned : list (dns_whois_field * pyval)) (text : string).

Definition lookup_dns_whois (url : string) (run : dns_whois_run) : pyval :=
  let result :=
    [("source", VStr "dns_whois"); ("success", VBool false); ("url", VStr url);
     ("domain", VNone); ("dns", empty_dict); ("whois", empty_dict);
     ("error", VNone)] in
  match run with
  | LookupsDone domain dns whois =>
      let dns := dns_lookup_result dns in
      let whois := whois_lookup_result whois in
      let result := Py.assoc_set "domain" (VStr domain) result in
      let result := Py.assoc_set "dns" dns result in
      let result := Py.assoc_set "whois" whois result in
      (* bool(result["dns"] or result["whois"]) *)
      VDict (Py.assoc_set "success" (VBool (Py.truthy dns || Py.truthy whois))
                          result)
  | LookupsError assigned text =>
      VDict (Py.assoc_set "error" (VStr ("Error in DNS/WHOIS lookup: " +:+ text))
                          (assign dns_whois_key result assigned))
  end.

Inductive google_field :=
| PlaceId | PlaceName | Rating | ReviewCount | BusinessCategory | Address
| Phone | Website | Hours | PhotoCount | PriceLevel.

Definition google_key (f : google_field) : string :=
  match f with
  | PlaceId => "place_id" | PlaceName => "name" | Rating => "rating"
  | ReviewCount => "review_count" | BusinessCategory => "business_category"
  | Address => "address" | Phone => "phone" | Website => "website"
  | Hours => "hours" | PhotoCount => "photo_count" | PriceLevel => "price_level"
  end.

(** The text search found nothing ([status_text] is what the f-string
    prints for the status of the answer), or the block ended after some
    assignments. *)
Inductive google_run :=
| NoResults (status_text : string)
| PlacesEnded (assigned : list (google_field * pyval)) (ending : api_ending).

Definition fetch_google_business (api_key company_name : string)
    (run : google_run) : pyval :=
  let result :=
    [("source", VStr "google_business"); ("success", VBool false);
     ("company_name", VStr company_name); ("place_id", VNone); ("name", VNone);
     ("rating", VNone); ("review_count", VNone); ("business_category", VNone);
     ("address", VNone); ("phone", VNone); ("website", VNone); ("hours", VNone);
     ("photo_count", VNone); ("price_level", VNone); ("error", VNone)] in
  if String.eqb api_key EmptyString then
    VDict (Py.assoc_set "error" (VStr "Google Places API key not configured") result)
  else
    match run with
    | NoResults status_text =>
        VDict (Py.assoc_set "error" (VStr ("No results found: " +:+ status_text))
                            result)
    | PlacesEnded assigned ending =>
        let result := assign google_key result assigned in
        VDict match ending with
              | ApiDone => Py.assoc_set "success" (VBool true) result
              | ApiTimeout =>
                  Py.assoc_set "error"
                    (VStr "Timeout - Google Places API took too long to respond")
                    result
              | ApiError text =>
                  Py.assoc_set "error"
                    (VStr ("Error fetching Google Business data: " +:+ text)) result
              end
    end.

Inductive jobs_field :=
| TotalPositions | JobTitles | Departments | SeniorityLevels | RecentPostings.

Definition jobs_key (f : jobs_field) : string :=
  match f with
  | TotalPositions => "total_positions" | JobTitles => "job_titles"
  | Departments => "departments" | SeniorityLevels => "seniority_levels"
  | RecentPostings => "recent_postings"
  end.

(** The answer of the search carried an [error] key, whose value the
    scanner hands on as it is; or it listed no job; or the block ended
    after some assignments. *)
Inductive jobs_run :=
| UpstreamError (error : pyval)
| NoJobs
| SearchEnded (assigned : list (jobs_field * pyval)) (ending : api_ending).

Definition scan_job_postings (api_key company_name : string) (run : jobs_run)
  : pyval :=
  let result :=
    [("source", VStr "job_scanner"); ("success", VBool false);
     ("company_name", VStr company_name); ("total_positions", VInt 0);
     ("job_titles", VList []); ("departments", VList []);
     ("seniority_levels", VList []); ("recent_postings", VList []);
     ("error", VNone)] in
  if String.eqb api_key EmptyString then
    VDict (Py.assoc_set "error"
             (VStr "SerpAPI key not configured - skipping job scan") result)
  else
    match run with
    | UpstreamError error => VDict (Py.assoc_set "error" error result)
    | NoJobs =>
        VDict (Py.assoc_set "error" (VStr "No job postings found")
                 (Py.assoc_set "success" (VBool true) result))
    | SearchEnded assigned ending =>
        let result := assign jobs_key result assigned in
        VDict match ending with
              | ApiDone => Py.assoc_set "success" (VBool true) result
              | ApiTimeout =>
                  Py.assoc_set "error" (VStr "Timeout - job search took too long")
                               result
              | ApiError text =>
                  Py.assoc_set "error"
                    (VStr ("Error scanning job postings: " +:+ text)) result
              end
    end.

Record provider_keys := {
  google_places_api_key : string;
  serpapi_key : string;
}.

Record provider_runs := {
  run_of_scraper : scraper_run;
  run_of_detector : detector_run;
  run_of_dns_whois : dns_whois_run;
  run_of_google : google_run;
  run_of_jobs : jobs_run;
}.

(** [asyncio.gather(..., return_exceptions=True)] over the five calls:
    every provider catches what its block raises, so each call returns. *)
Definition gather (keys : provider_keys) (url company_name : string)
    (runs : provider_runs) : worker_results :=
  {| site_scraper_result := Returned (scrape_site url (run_of_scraper runs));
     tech_detector_result :=
       Returned (detect_technologies url (run_of_detector runs));
     dns_whois_result := Returned (lookup_dns_whois url (run_of_dns_whois runs));
     google_business_result :=
       Returned (fetch_google_business (google_places_api_key keys) company_name
                                       (run_of_google runs));
     job_scanner_result :=
       Returned (scan_job_postings (serpapi_key keys) company_name
                                   (run_of_jobs runs)) |}.

(* ================================================================== *)
(** * The weight table of the sufficiency scorer, as the specification
      words it *)
(* ================================================================== *)

Definition is_dict (v : pyval) : bool :=
  match v with VDict _ => true | _ => false end.

Definition is_number (v : pyval) : bool :=
  match v with VBool _ | VInt _ | VFloat _ => true | _ => false end.

(** The value under key [k] of a dict, [default] when there is none. *)
Definition field (v : pyval) (k : string) (default : pyval) : pyval :=
  match v with
  | VDict d => match Py.assoc k d with Some x => x | None => default end
  | _ => default
  end.

(** The entry of a provider in the aggregated dataset. *)
Definition entry (worker_data : pyval) (provider : string) : pyval :=
  field worker_data provider empty_dict.

Definition succeeded (worker_data : pyval) (provider : string) : bool :=
  Py.truthy (field (entry worker_data provider) "success" VNone).

(** The signals that are actually present. *)
Definition site_signal (wd : pyval) : bool := succeeded wd "site_scraper".

Definition tech_signal (wd : pyval) : bool :=
  succeeded wd "tech_detector"
  && Py.truthy (field (entry wd "tech_detector") "detected" (VList [])).

Definition mx_signal (wd : pyval) : bool :=
  succeeded wd "dns_whois"
  && Py.truthy (field (field (entry wd "dns_whois") "dns" empty_dict)
                      "mx_records" VNone).

Definition registrar_signal (wd : pyval) : bool :=
  succeeded wd "dns_whois"
  && Py.truthy (field (field (entry wd "dns_whois") "whois" empty_dict)
                      "registrar" VNone).

Definition rating_signal (wd : pyval) : bool :=
  succeeded wd "google_business"
  && Py.truthy (field (entry wd "google_business") "rating" VNone).

Definition jobs_signal (wd : pyval) : bool :=
  succeeded wd "job_scanner"
  && match Py.gt_zero (field (entry wd "job_scanner") "total_positions" (VInt 0)) with
     | Ok b => b
     | Raise _ => false
     end.

Definition points (signal : bool) (weight : Z) : Z :=
  if signal then weight else 0.

(** Site 2, technologies 1, MX records 1, registrar 1, rating 1; job
    postings carry no weight. *)
Definition signal_weight (wd : pyval) : Z :=
  points (site_signal wd) 2 + points (tech_signal wd) 1
  + points (mx_signal wd) 1 + points (registrar_signal wd) 1
  + points (rating_signal wd) 1.

Definition named (signal : bool) (name : string) : list string :=
  if signal then [name] else [].

Definition signal_sources (wd : pyval) : list string :=
  named (site_signal wd) "Website Content"
  ++ named (tech_signal wd) "Technology Stack"
  ++ named (mx_signal wd) "DNS Records"
  ++ named (registrar_signal wd) "Domain WHOIS"
  ++ named (rating_signal wd) "Google Business Profile"
  ++ named (jobs_signal wd) "Job Postings".

(** An aggregated dataset as the fan-out stage and the providers build it:
    a dict whose provider entries are dicts, with dict-valued [dns] and
    [whois] and a numeric [total_positions] where these are given. *)
Definition well_shaped (wd : pyval) : bool :=
  is_dict wd
  && forallb (fun provider => is_dict (entry wd provider)) provider_names
  && is_dict (field (entry wd "dns_whois") "dns" empty_dict)
  && is_dict (field (entry wd "dns_whois") "whois" empty_dict)
  && is_number (field (entry wd "job_scanner") "total_positions" (VInt 0)).

(** The entry carries a non-empty error text. *)
Definition has_error_text (entry : pyval) : Prop :=
  exists text : string,
    field entry "error" VNone = VStr text /\ text <> EmptyString.

(** An entry as a provider leaves it: a dict whose [success] is [True], or
    [False] with an error text. *)
Definition succeeded_or_explained (entry : pyval) : Prop :=
  is_dict entry = true
  /\ (field entry "success" VNone = VBool true
      \/ (field entry "success" VNone = VBool false /\ has_error_text entry)).

(* ================================================================== *)
(** * Vocabulary of the statements about the synthesizer *)
(* ================================================================== *)

(** An attempt fails with a transient error: rate limiting, an API error or
    a parse error. *)
Definition is_transient (r : result pyval) : bool :=
  match r with
  | Ok _ => false
  | Raise e =>
      match exn_cls e with
      | RateLimitError | APIError | JSONDecodeError => true
      | _ => false
      end
  end.

(** Three attempts, a sleep of 1s and of 4s between them, none at the end. *)
Definition three_attempts : list event :=
  [EvSynthesis 0; EvSleep 1; EvSynthesis 1; EvSleep 4; EvSynthesis 2].

(** The narrative under [market_position.public_reputation]. *)
Definition reputation_of (profile : pyval) : pyval :=
  field (field profile "market_position" empty_dict) "public_reputation"
        (VStr EmptyString).

Definition mentions_rating (reputation : string) : bool :=
  PyStr.contains (PyStr.lower reputation) "stars"
  || PyStr.contains (PyStr.lower reputation) "rating".

Definition states_unavailable (reputation : string) : bool :=
  PyStr.contains (PyStr.lower reputation) "no data"
  || PyStr.contains (PyStr.lower reputation) "unavailable".

(** The reputation provider returned a usable rating. *)
Definition usable_rating (wd : pyval) : bool := rating_signal wd.

(** [a] is a strict subdomain of [b]: some label, a dot, then [b]. *)
Definition is_subdomain_of (a b : string) : Prop :=
  exists label : string, a = label +:+ "." +:+ b.

(** Successive check times that stay inside the window: each check comes
    less than an hour after the one before it. *)
Fixpoint within_window (t : Z) (times : list Z) : Prop :=
  match times with
  | [] => True
  | t' :: times' => t <= t' < t + 3600 /\ within_window t' times'
  end.

(* ================================================================== *)
(** * Vocabulary of the further properties *)
(* ================================================================== *)

(** Every stored counter is at most ten. *)
Definition counters_bounded (r : Redis) : Prop :=
  forall (key : string) (e : counter_entry),
    counters r !! key = Some e -> cnt_value e <= 10.

(** A source that carries weight in the sufficiency score. *)
Definition scored (source : string) : bool :=
  negb (String.eqb source "Job Postings").

(** The detector entry [t] names the technology [name]. *)
Definition names_technology (t : pyval) (name : string) : Prop :=
  Py.getitem t "name" = Ok (VStr name).

(** The log of [count] attempts starting at [attempt]: a sleep after each
    attempt but the last. *)
Fixpoint attempts_log (attempt count : nat) : list event :=
  match count with
  | O => []
  | S O => [EvSynthesis attempt]
  | S count' =>
      EvSynthesis attempt :: EvSleep (nth attempt delays 0)
        :: attempts_log (S attempt) count'
  end.

(** What the loop returns is a profile without error or an error without
    profile. *)
Definition one_of_profile_and_error (out : profile_outcome) : Prop :=
  (exists profile : pyval, out = (Some profile, None))
  \/ (exists message : string, out = (None, Some message) /\ message <> EmptyString).

Definition backtick : ascii := ascii_of_nat 96.

(** The three states the background task can leave a submission in, each
    with the email it sends. *)
Definition terminal_outcomes : list (SubmissionStatus * string) :=
  [(complete, "profile_ready"); (insufficient_data, "insufficient_data");
   (failed, "error")].

(** An event that is not an email. *)
Definition is_call (ev : event) : bool :=
  match ev with
  | EvEmail _ _ => false
  | _ => true
  end.

Definition is_synthesis (ev : event) : bool :=
  match ev with
  | EvSynthesis _ => true
  | _ => false
  end.

(** What a run of the background task leaves behind: the job in a
    terminal state with its completion time, at most one new profile (and
    only for [complete]), the calls it made followed by one email, and at
    most one write to the URL cache (and only for [complete]); a job of the
    table that is left [complete] got its profile. *)
Definition run_shape (env : Env) (job_id : string) (submission : IntakeRequest)
    (w w' : World) : Prop :=
  let now := env_now env in
  let db1 := update_submission_status (db w) job_id processing None in
  let url := normalize_url (company_url submission) in
  let worker_data := VDict (organize_results (env_workers env)) in
  exists (status : SubmissionStatus) (mail : string) (calls : list event)
         (new_profiles : list profile_row),
    db w' = update_submission_status
              {| submissions := submissions db1;
                 profiles := profiles (db w) ++ new_profiles |}
              job_id status (Some now)
    /\ trace w' = trace w ++ calls ++ [EvEmail mail (email submission)]
    /\ In (status, mail) terminal_outcomes
    /\ (new_profiles = []
        \/ (status = complete
            /\ exists row, new_profiles = [row] /\ prof_created_at row = now))
    /\ forallb is_call calls = true
    /\ (existsb is_synthesis calls = true ->
        exists sources, check_data_sufficiency worker_data = Ok (true, sources))
    /\ (redis_client w' = redis_client w
        \/ (status = complete
            /\ exists r, redis_client w = Some r
                         /\ redis_client w'
                            = Some (redis_setex now r (cache_key url) day job_id)))
    /\ (status = complete ->
        forall current : submission_row,
          get_submission_by_job_id (db w) job_id = Some current ->
          exists row, new_profiles = [row]
                      /\ prof_submission_id row = sub_id current).

(** The numbers of entries of a signature that hit. *)
Definition header_hits (sig : signature) (headers : list (string * string)) : nat :=
  length (List.filter (header_hit headers) (sig_headers sig)).

Definition html_hits (sig : signature) (html : string) : nat :=
  length (List.filter (html_hit (PyStr.lower html)) (sig_html sig)).

Definition meta_hits (sig : signature) (meta_tags : gmap string string) : nat :=
  length (List.filter (meta_hit meta_tags) (sig_meta sig)).

(* ================================================================== *)
(** * Sample inputs *)
(* ================================================================== *)

Definition failure_entry (text : string) : pyval :=
  VDict [("success", VBool false); ("error", VStr text)].

(** Only the site scraper succeeded. *)
Definition site_only : pyval :=
  VDict [("site_scraper", VDict [("source", VStr "site_scraper");
                                 ("success", VBool true);
                                 ("title", VStr "Acme")]);
         ("tech_detector", failure_entry "HTTP error: 503");
         ("dns_whois", failure_entry "Error in DNS/WHOIS lookup: no route");
         ("google_business", failure_entry "Google Places API key not configured");
         ("job_scanner", failure_entry "SerpAPI key not configured - skipping job scan")].

(** Site, one technology and MX records, with two open positions. *)
Definition rich_dataset : pyval :=
  VDict [("site_scraper", VDict [("success", VBool true)]);
         ("tech_detector",
           VDict [("success", VBool true);
                  ("detected", VList [VDict [("name", VStr "WordPress");
                                             ("confidence", VInt 55)]])]);
         ("dns_whois",
           VDict [("success", VBool true);
                  ("dns", VDict [("mx_records", VList [VStr "aspmx.l.google.com"])]);
                  ("whois", VDict [("registrar", VNone)])]);
         ("google_business", failure_entry "No results found: ZERO_RESULTS");
         ("job_scanner", VDict [("success", VBool true);
                                ("total_positions", VInt 2)])].

Definition all_raised (e1 e2 e3 e4 e5 : pyexn) : worker_results :=
  {| site_scraper_result := Raised e1; tech_detector_result := Raised e2;
     dns_whois_result := Raised e3; google_business_result := Raised e4;
     job_scanner_result := Raised e5 |}.

Definition double_quote : string := String (ascii_of_nat 34) EmptyString.
Definition newline : string := String (ascii_of_nat 10) EmptyString.

(** A profile document and the value it parses to. *)
Definition acme_json : string :=
  "{" +:+ double_quote +:+ "company_name" +:+ double_quote +:+ ": "
  +:+ double_quote +:+ "Acme" +:+ double_quote +:+ "}".

Definition acme_profile : pyval := VDict [("company_name", VStr "Acme")].

Definition acme_reply : string :=
  "```json" +:+ newline +:+ acme_json +:+ newline +:+ "```".

Definition quoted (text : string) : string :=
  double_quote +:+ text +:+ double_quote.

(** A narrative that quotes stars, and the document it is parsed from. *)
Definition starred_profile : pyval :=
  VDict [("company_name", VStr "Acme");
         ("market_position",
           VDict [("public_reputation", VStr "Rated 4.8 stars by its customers")])].

Definition starred_json : string :=
  "{" +:+ quoted "company_name" +:+ ": " +:+ quoted "Acme" +:+ ", "
  +:+ quoted "market_position" +:+ ": {" +:+ quoted "public_reputation" +:+ ": "
  +:+ quoted "Rated 4.8 stars by its customers" +:+ "}}".

(** A runtime for the examples: [json.loads] knows the two documents. *)
Definition sample_builtins : PyBuiltins :=
  {| py_str := fun _ => "<object>";
     json_loads := fun text =>
       if String.eqb text acme_json then inr acme_profile
       else if String.eqb text starred_json then inr starred_profile
       else inl "Expecting value: line 1 column 1 (char 0)" |}.

(** An IP-literal check for the examples: the loopback address is
    accepted, any other bracketed host is refused. *)
#[global] Instance sample_ip_literals : IpLiterals :=
  {| check_bracketed_netloc := fun n =>
       if String.eqb n "[::1]" then None
       else Some "does not appear to be an IPv4 or IPv6 address" |}.

Definition configured : Settings := {| anthropic_api_key := "sk-test" |}.

Definition always_rate_limited : nat -> api_reply :=
  fun _ => ReplyRaise (Exn RateLimitError "Error code: 429").

Definition third_time_lucky : nat -> api_reply :=
  fun attempt =>
    if (attempt <? 2)%nat then ReplyRaise (Exn APIError "Error code: 529")
    else ReplyText acme_reply.

(** Google Business answered, for a listing that has no rating yet. *)
Definition unrated_listing : pyval :=
  VDict [("site_scraper", VDict [("success", VBool true)]);
         ("tech_detector", failure_entry "HTTP error: 503");
         ("dns_whois", VDict [("success", VBool true);
                              ("dns", VDict [("mx_records", VList [VStr "mx.acme.com"])]);
                              ("whois", VDict [("registrar", VStr "Gandi")])]);
         ("google_business", VDict [("success", VBool true);
                                    ("name", VStr "Acme");
                                    ("rating", VNone);
                                    ("review_count", VNone)]);
         ("job_scanner", failure_entry "No job postings found")].

Definition empty_redis : Redis := {| counters := ∅; profile_cache := ∅ |}.

(** An IP that has used up its ten requests, the last one at time 1000. *)
Definition exhausted_redis : Redis :=
  {| counters := {[ rate_limit_key "203.0.113.7" := Counter 10 (Some 4600) ]};
     profile_cache := ∅ |}.

(** An IP one request short of the limit, last seen at time 1000. *)
Definition nearly_exhausted_redis : Redis :=
  {| counters := {[ rate_limit_key "203.0.113.7" := Counter 9 (Some 4600) ]};
     profile_cache := ∅ |}.

Definition empty_db : Database := {| submissions := []; profiles := [] |}.

(** A blocked IP sends a request whose email does not match the company. *)
Definition blocked_world : World :=
  {| db := empty_db; redis_client := Some exhausted_redis; trace := [] |}.

Definition blocked_request : Request :=
  {| client_host := "203.0.113.7"; x_forwarded_for := None |}.

Definition mismatched_submission : IntakeRequest :=
  {| company_name := "Acme"; company_url := "acme.com"; email := "ops@other.com" |}.

(** A submission created at time 0 and completed at time 100, with its
    profile, and a new submission for the same URL. *)
Definition first_submission : submission_row :=
  {| sub_id := 1; sub_company_name := "Acme";
     sub_company_url := "https://acme.com"; sub_email := "ops@acme.com";
     sub_job_id := "job-1"; sub_auth_token := "token-1";
     sub_status := complete; sub_created_at := 0;
     sub_completed_at := Some 100 |}.

Definition first_profile : profile_row :=
  {| prof_id := 1; prof_submission_id := 1;
     prof_profile_json := acme_profile;
     prof_data_sources_used := ["Website Content"; "DNS Records"];
     prof_confidence_score := VStr "High"; prof_created_at := 100 |}.

Definition second_submission (created_at : Z) : submission_row :=
  {| sub_id := 2; sub_company_name := "Acme";
     sub_company_url := "https://acme.com"; sub_email := "eve@acme.com";
     sub_job_id := "job-2"; sub_auth_token := "token-2";
     sub_status := queued; sub_created_at := created_at;
     sub_completed_at := None |}.

Definition resubmission : IntakeRequest :=
  {| company_name := "Acme"; company_url := "acme.com/"; email := "eve@acme.com" |}.

Definition world_at (created_at : Z) : World :=
  {| db := {| submissions := [first_submission; second_submission created_at];
              profiles := [first_profile] |};
     redis_client := None; trace := [] |}.

Definition offline : pyexn := Exn OtherException "network is unreachable".

Definition env_at (now : Z) : Env :=
  {| env_now := now; env_settings := configured;
     env_workers := all_raised offline offline offline offline offline;
     env_api := always_rate_limited |}.

(** A profile that lists three technologies. *)
Definition stack_profile_body : list (string * pyval) :=
  [("company_name", VStr "Acme");
   ("operational_snapshot",
     VDict [("detected_technologies",
             VList [VStr "WordPress"; VStr "React"; VStr "Shopify"])])].

Definition stack_profile : pyval := VDict stack_profile_body.

(** All five providers answer and the third synthesis attempt succeeds. *)
Definition rich_results : worker_results :=
  {| site_scraper_result := Returned (VDict [("success", VBool true)]);
     tech_detector_result :=
       Returned (VDict [("success", VBool true);
                        ("detected", VList [VDict [("name", VStr "WordPress")]])]);
     dns_whois_result :=
       Returned (VDict [("success", VBool true);
                        ("dns", VDict [("mx_records", VList [VStr "mx.acme.com"])]);
                        ("whois", VDict [("registrar", VStr "Gandi")])]);
     google_business_result := Raised offline;
     job_scanner_result := Raised offline |}.

Definition env_rich (now : Z) : Env :=
  {| env_now := now; env_settings := configured;
     env_workers := rich_results; env_api := third_time_lucky |}.

(** A fresh world, and a request from an address without history. *)
Definition fresh_world : World :=
  {| db := empty_db; redis_client := Some empty_redis; trace := [] |}.

Definition gmail_submission : IntakeRequest :=
  {| company_name := "Acme"; company_url := "acme.com";
     email := "eve@gmail.com" |}.

(** The first two rows of [TECH_SIGNATURES] and a page to check them on. *)
Definition wordpress_signature : signature :=
  {| sig_headers := [("x-powered-by", "wordpress")];
     sig_html := ["/wp-content/"; "/wp-includes/"; "wp-json"];
     sig_meta := [("generator", "wordpress")] |}.

Definition shopify_signature : signature :=
  {| sig_headers := [("x-shopify-stage", EmptyString)];
     sig_html := ["cdn.shopify.com"; "shopify.com/s/"];
     sig_meta := [] |}.

Definition blog_headers : list (string * string) :=
  [("content-type", "text/html"); ("X-Powered-By", "PHP/8.1, WordPress")].

Definition blog_html : string :=
  "<link href=/wp-content/themes/a.css><script src=/WP-INCLUDES/js/b.js>".

Definition blog_meta : gmap string string :=
  {[ "generator" := "WordPress 6.4" ]}.

(** A profile that lists a technology as an object, with a narrative
    that quotes stars; and a runtime whose [json.loads] returns it. *)
Definition object_stack_profile : pyval :=
  VDict [("operational_snapshot",
           VDict [("detected_technologies",
                   VList [VDict [("name", VStr "WordPress")]])]);
         ("market_position",
           VDict [("public_reputation", VStr "Rated 4.8 stars by its customers")])].

Definition parsing_to (profile : pyval) : PyBuiltins :=
  {| py_str := fun _ => "<object>"; json_loads := fun _ => inr profile |}.

(** A run of the five providers in which the job search answered with an
    empty [error]. *)
Definition both_keys : provider_keys :=
  {| google_places_api_key := "places-key"; serpapi_key := "serp-key" |}.

Definition page_fetched : scraper_run :=
  {| scraper_assigned := [(Title, VStr "Acme")]; scraper_ending := PageDone |}.

Definition runs_with_silent_search : provider_runs :=
  {| run_of_scraper := page_fetched;
     run_of_detector := {| detector_assigned := []; detector_ending := PageTimeout |};
     run_of_dns_whois := LookupsDone "acme.com" LookupTimeout LookupTimeout;
     run_of_google := NoResults "ZERO_RESULTS";
     run_of_jobs := UpstreamError (VStr EmptyString) |}.

(* ================================================================== *)
(** * Theorems *)
(* ================================================================== *)

(** ** Sufficiency scorer *)

Lemma get_field (v : pyval) (k : string) (default : pyval) :
  is_dict v = true -> Py.get v k default = Ok (field v k default).
Proof. destruct v; cbn; congruence. Qed.

Lemma getitem_entry (wd : pyval) (provider : string) :
  succeeded wd provider = true ->
  Py.getitem wd provider = Ok (field wd provider empty_dict).
Proof.
  unfold succeeded, entry, field.
  destruct wd as [| | | | | |d]; cbn; try discriminate.
  destruct (Py.assoc provider d); cbn; [reflexivity|discriminate].
Qed.

Lemma bind_ok {A B : Type} (a : A) (f : A -> result B) : (Ok a ≫= f) = f a.
Proof. reflexivity. Qed.


Lemma score_if (b : bool) (sources : list string) (name : string) (score w : Z) :
  (if b then (sources ++ [name], score + w) else (sources, score))
  = (sources ++ named b name, score + points b w).
Proof. destruct b; cbn; [reflexivity | now rewrite app_nil_r, Z.add_0_r]. Qed.

Lemma source_if (b : bool) (sources : list string) (name : string) :
  (if b then sources ++ [name] else sources) = sources ++ named b name.
Proof. destruct b; cbn; [reflexivity | now rewrite app_nil_r]. Qed.

(** One step through the body of a function written in the [result]
    monad over a well-shaped dataset. *)
Ltac py_step :=
  match goal with
  | |- context [Ok ?a ≫= ?f] => rewrite (bind_ok a f); cbv beta iota
  | |- context [Py.get ?v ?k ?d] => rewrite (get_field v k d) by assumption
  | |- context [Py.getitem ?wd ?p] =>
      rewrite (getitem_entry wd p) by (unfold succeeded, entry; assumption)
  | |- context [if ?b then (?s ++ [?n], ?c + ?w) else (?s, ?c)] =>
      rewrite (score_if b s n c w)
  | |- context [if ?b then ?s ++ [?n] else ?s] => rewrite (source_if b s n)
  | |- context [if Py.truthy ?v then _ else _] =>
      destruct (Py.truthy v) eqn:?; cbv beta iota
  end.

Lemma check_data_sufficiency_value (wd : pyval) :
  well_shaped wd = true ->
  check_data_sufficiency wd = Ok (3 <=? signal_weight wd, signal_sources wd).
Proof.
  intros Hshape. unfold well_shaped in Hshape. cbn [forallb provider_names] in Hshape.
  repeat (apply andb_prop in Hshape; destruct Hshape as [Hshape ?]).
  repeat match goal with
         | H : _ && _ = true |- _ => apply andb_prop in H; destruct H
         end.
  unfold check_data_sufficiency, signal_weight, signal_sources, site_signal,
    tech_signal, mx_signal, registrar_signal, rating_signal, jobs_signal,
    succeeded, entry in *.
  cbv zeta. fold empty_dict. unfold mret, result_ret.
  repeat py_step;
    try (destruct (field (field wd "job_scanner" empty_dict) "total_positions" (VInt 0));
         try discriminate; cbn [Py.gt_zero]; repeat py_step).
  all: cbn [andb points named]; rewrite <- ?app_assoc, ?app_nil_r; cbn [app].
  all: apply f_equal, f_equal2; [apply f_equal; lia | reflexivity].
Qed.

(** C1.  On every aggregated dataset of the five providers,
    [check_data_sufficiency] returns, and its flag is true exactly when the
    accumulated weight is at least 3, with site-scraper success worth 2 and
    a non-empty technology list, MX records, a known registrar and a Google
    Business rating worth 1 each (each counted for a provider that
    succeeded); a positive job-posting count puts "Job Postings" in the
    source list and adds nothing to the weight. *)
Theorem sufficient_iff_weight_at_least_3 (wd : pyval) :
  well_shaped wd = true ->
  exists (sufficient : bool) (sources : list string),
    check_data_sufficiency wd = Ok (sufficient, sources)
    /\ (sufficient = true <-> 3 <= signal_weight wd)
    /\ signal_weight wd
       = points (site_signal wd) 2 + points (tech_signal wd) 1
         + points (mx_signal wd) 1 + points (registrar_signal wd) 1
         + points (rating_signal wd) 1
    /\ sources = signal_sources wd
    /\ (In "Job Postings" sources <-> jobs_signal wd = true).
Proof.
  intros Hshape.
  exists (3 <=? signal_weight wd), (signal_sources wd).
  split; [now apply check_data_sufficiency_value|].
  split; [apply Z.leb_le|].
  split; [reflexivity|].
  split; [reflexivity|].
  unfold signal_sources.
  destruct (site_signal wd), (tech_signal wd), (mx_signal wd),
    (registrar_signal wd), (rating_signal wd), (jobs_signal wd);
    cbn; intuition congruence.
Qed.

Lemma sufficient_iff_weight_at_least_3_witness :
  exists (sufficient : bool) (sources : list string),
    check_data_sufficiency rich_dataset = Ok (sufficient, sources)
    /\ (sufficient = true <-> 3 <= signal_weight rich_dataset)
    /\ signal_weight rich_dataset
       = points (site_signal rich_dataset) 2 + points (tech_signal rich_dataset) 1
         + points (mx_signal rich_dataset) 1 + points (registrar_signal rich_dataset) 1
         + points (rating_signal rich_dataset) 1
    /\ sources = signal_sources rich_dataset
    /\ (In "Job Postings" sources <-> jobs_signal rich_dataset = true).
Proof. apply (sufficient_iff_weight_at_least_3 rich_dataset). reflexivity. Defined.

(** C2.  What the code does when the site scraper succeeded and no other
    scored signal is present: the weight is 2 and the dataset is reported
    as not sufficient, although the comment above the threshold gives
    "site scraper alone" as an example of a sufficient dataset. *)
Theorem site_scraper_alone_is_insufficient (wd : pyval) :
  well_shaped wd = true ->
  site_signal wd = true ->
  tech_signal wd = false -> mx_signal wd = false ->
  registrar_signal wd = false -> rating_signal wd = false ->
  exists sources, check_data_sufficiency wd = Ok (false, sources).
Proof.
  intros Hshape Hsite Htech Hmx Hreg Hrating.
  exists (signal_sources wd).
  rewrite check_data_sufficiency_value by assumption.
  unfold signal_weight. rewrite Hsite, Htech, Hmx, Hreg, Hrating. reflexivity.
Qed.

Lemma site_scraper_alone_is_insufficient_witness :
  exists sources, check_data_sufficiency site_only = Ok (false, sources).
Proof. apply (site_scraper_alone_is_insufficient site_only); reflexivity. Defined.

Example site_only_result :
  check_data_sufficiency site_only = Ok (false, ["Website Content"])
  /\ site_signal site_only = true /\ signal_weight site_only = 2.
Proof. repeat split. Qed.

(** ** Fan-out *)

Lemma assoc_set_same (d : list (string * pyval)) (k : string) (v : pyval) :
  Py.assoc k (Py.assoc_set k v d) = Some v.
Proof.
  induction d as [|[k' v'] d IH]; cbn; [now rewrite String.eqb_refl|].
  destruct (String.eqb k' k) eqn:Hk; cbn; rewrite Hk; [reflexivity|exact IH].
Qed.

Lemma assoc_set_other (d : list (string * pyval)) (k k' : string) (v : pyval) :
  String.eqb k' k = false ->
  Py.assoc k (Py.assoc_set k' v d) = Py.assoc k d.
Proof.
  intros Hne. induction d as [|[k0 v0] d IH]; cbn.
  - now rewrite Hne.
  - destruct (String.eqb k0 k') eqn:Hk; cbn.
    + apply String.eqb_eq in Hk. subst k0. now rewrite Hne.
    + destruct (String.eqb k0 k); [reflexivity|exact IH].
Qed.

Lemma assoc_assign {F : Type} (key : F -> string) (k : string)
    (assigned : list (F * pyval)) (d : list (string * pyval)) :
  (forall f : F, String.eqb (key f) k = false) ->
  Py.assoc k (assign key d assigned) = Py.assoc k d.
Proof.
  intros Hkey. unfold assign. revert d.
  induction assigned as [|[f v] assigned IH]; intros d; [reflexivity|].
  cbn [fold_left fst snd]. rewrite IH. now apply assoc_set_other.
Qed.

Lemma labelled_not_empty (c : ascii) (label text : string) :
  String c label +:+ text <> EmptyString.
Proof. change (String c (label +:+ text) <> EmptyString). discriminate. Qed.

(** An entry whose [success] and [error] are known. *)
Lemma entry_explained (d : list (string * pyval)) (text : string) :
  Py.assoc "success" d = Some (VBool false) ->
  Py.assoc "error" d = Some (VStr text) ->
  text <> EmptyString ->
  succeeded_or_explained (VDict d).
Proof.
  intros Hsuccess Herror Htext. split; [reflexivity|]. right.
  unfold has_error_text, field. rewrite Hsuccess, Herror. eauto.
Qed.

Lemma entry_done (d : list (string * pyval)) :
  Py.assoc "success" d = Some (VBool true) -> succeeded_or_explained (VDict d).
Proof.
  intros Hsuccess. split; [reflexivity|]. left. unfold field. now rewrite Hsuccess.
Qed.

Ltac entry_keys :=
  repeat first
    [ rewrite assoc_set_same
    | rewrite assoc_set_other by reflexivity
    | rewrite assoc_assign by (intros []; reflexivity) ];
  try reflexivity.

Ltac explain text :=
  apply (entry_explained _ text);
  [entry_keys | entry_keys | first [discriminate | apply labelled_not_empty]].

Lemma scrape_site_explains (url : string) (run : scraper_run) :
  succeeded_or_explained (scrape_site url run).
Proof.
  unfold scrape_site. cbv zeta. destruct (scraper_ending run) as [| |code|text].
  - apply entry_done. entry_keys.
  - explain "Timeout - site took too long to respond".
  - explain ("HTTP error: " +:+ int_text code).
  - explain ("Error scraping site: " +:+ text).
Qed.

Lemma detect_technologies_explains (url : string) (run : detector_run) :
  succeeded_or_explained (detect_technologies url run).
Proof.
  unfold detect_technologies. cbv zeta.
  destruct (detector_ending run) as [| |code|text].
  - apply entry_done. entry_keys.
  - explain "Timeout - site took too long to respond".
  - explain ("HTTP error: " +:+ int_text code).
  - explain ("Error detecting technologies: " +:+ text).
Qed.

Lemma assign_not_empty {F : Type} (key : F -> string)
    (assigned : list (F * pyval)) (d : list (string * pyval)) :
  d <> [] -> assign key d assigned <> [].
Proof.
  unfold assign. revert d.
  induction assigned as [|[f v] assigned IH]; intros d Hd; [exact Hd|].
  cbn [fold_left fst snd]. apply IH.
  destruct d as [|[k0 v0] d]; [contradiction|]. cbn.
  destruct (String.eqb k0 (key f)); discriminate.
Qed.

Lemma lookup_results_truthy (dns : lookup dns_field) (whois : lookup whois_field) :
  Py.truthy (dns_lookup_result dns) || Py.truthy (whois_lookup_result whois) = true.
Proof.
  destruct dns as [assigned|]; [|reflexivity]. cbn [dns_lookup_result Py.truthy].
  match goal with
  | |- context [assign dns_key ?d assigned] =>
      pose proof (assign_not_empty dns_key assigned d) as Hfilled;
      destruct (assign dns_key d assigned)
  end; [now contradiction Hfilled|reflexivity].
Qed.

Lemma lookup_dns_whois_explains (url : string) (run : dns_whois_run) :
  succeeded_or_explained (lookup_dns_whois url run).
Proof.
  unfold lookup_dns_whois. destruct run as [domain dns whois|assigned text];
    cbv zeta.
  - rewrite lookup_results_truthy. apply entry_done. entry_keys.
  - explain ("Error in DNS/WHOIS lookup: " +:+ text).
Qed.

Lemma fetch_google_business_explains (api_key company_name : string)
    (run : google_run) :
  succeeded_or_explained (fetch_google_business api_key company_name run).
Proof.
  unfold fetch_google_business. cbv zeta.
  destruct (String.eqb api_key EmptyString).
  { explain "Google Places API key not configured". }
  destruct run as [status_text|assigned [| |text]].
  - explain ("No results found: " +:+ status_text).
  - apply entry_done. entry_keys.
  - explain "Timeout - Google Places API took too long to respond".
  - explain ("Error fetching Google Business data: " +:+ text).
Qed.

Lemma scan_job_postings_explains (api_key company_name : string) (run : jobs_run) :
  succeeded_or_explained (scan_job_postings api_key company_name run)
  \/ (api_key <> EmptyString
      /\ exists upstream : pyval,
           run = UpstreamError upstream
           /\ is_dict (scan_job_postings api_key company_name run) = true
           /\ field (scan_job_postings api_key company_name run) "success" VNone
              = VBool false
           /\ field (scan_job_postings api_key company_name run) "error" VNone
              = upstream).
Proof.
  unfold scan_job_postings. cbv zeta.
  destruct (String.eqb_spec api_key EmptyString) as [|Hkey].
  { left. explain "SerpAPI key not configured - skipping job scan". }
  destruct run as [upstream| |assigned [| |text]].
  - right. split; [exact Hkey|]. exists upstream. repeat split.
  - left. apply entry_done. entry_keys.
  - left. apply entry_done. entry_keys.
  - left. explain "Timeout - job search took too long".
  - left. explain ("Error scanning job postings: " +:+ text).
Qed.



(** ** Profile synthesizer *)

Lemma failure_message_not_empty (e : pyexn) : failure_message e <> EmptyString.
Proof. unfold failure_message. destruct (exn_cls e); discriminate. Qed.

Section Synthesizer.

Context `{PyBuiltins}.

Variables (settings : Settings) (company : string) (worker_data : pyval).
Variable api : nat -> api_reply.

Hypothesis key_configured : anthropic_api_key settings <> EmptyString.

Lemma key_test : String.eqb (anthropic_api_key settings) EmptyString = false.
Proof. apply String.eqb_neq, key_configured. Qed.

Lemma transient_raises (r : result pyval) :
  is_transient r = true -> exists e, r = Raise e.
Proof. destruct r as [|e]; [discriminate|]. now exists e. Qed.

(** The run of the default three attempts when the first two raise. *)
Lemma two_failures_then (e0 e1 : pyexn) :
  attempt_body (api 0%nat) worker_data = Raise e0 ->
  attempt_body (api 1%nat) worker_data = Raise e1 ->
  generate_profile settings company worker_data default_max_retries api
  = (three_attempts,
     match attempt_body (api 2%nat) worker_data with
     | Ok profile => Ok (Some profile, None)
     | Raise e => Ok (None, Some (failure_message e))
     end).
Proof.
  intros H0 H1. unfold generate_profile. rewrite key_test.
  change (Z.to_nat default_max_retries) with 3%nat.
  cbn [retry_loop]. rewrite H0. cbn. rewrite H1. cbn.
  destruct (attempt_body (api 2%nat) worker_data); reflexivity.
Qed.

(** C3.  With the API key configured and the default of three attempts:
    when every attempt fails with a transient error, [generate_profile]
    returns no profile and the message of the clause that caught the last
    error, after exactly three attempts and two sleeps, of 1 then 4
    seconds, none after the last attempt; when the first two fail
    transiently and the third succeeds, it returns the parsed profile and
    no error, after the same attempts and sleeps. *)
Theorem three_attempts_with_backoff :
  is_transient (attempt_body (api 0%nat) worker_data) = true ->
  is_transient (attempt_body (api 1%nat) worker_data) = true ->
  (is_transient (attempt_body (api 2%nat) worker_data) = true ->
   exists (e : pyexn) (message : string),
     attempt_body (api 2%nat) worker_data = Raise e
     /\ message = failure_message e
     /\ message <> EmptyString
     /\ generate_profile settings company worker_data default_max_retries api
        = (three_attempts, Ok (None, Some message)))
  /\ (forall profile : pyval,
        attempt_body (api 2%nat) worker_data = Ok profile ->
        generate_profile settings company worker_data default_max_retries api
        = (three_attempts, Ok (Some profile, None)))
  /\ three_attempts
     = [EvSynthesis 0; EvSleep 1; EvSynthesis 1; EvSleep 4; EvSynthesis 2].
Proof.
  intros T0 T1.
  destruct (transient_raises _ T0) as [e0 H0].
  destruct (transient_raises _ T1) as [e1 H1].
  pose proof (two_failures_then e0 e1 H0 H1) as Hrun.
  split; [|split; [|reflexivity]].
  - intros T2. destruct (transient_raises _ T2) as [e2 H2].
    exists e2, (failure_message e2). rewrite H2 in Hrun.
    repeat split; auto using failure_message_not_empty.
  - intros profile H2. now rewrite H2 in Hrun.
Qed.

End Synthesizer.

Lemma three_attempts_with_backoff_witness :
  generate_profile (H := sample_builtins) configured "Acme" site_only
                   default_max_retries always_rate_limited
  = (three_attempts, Ok (None, Some "Rate limited by Anthropic API after retries"))
  /\ generate_profile (H := sample_builtins) configured "Acme" site_only
                      default_max_retries third_time_lucky
     = (three_attempts, Ok (Some acme_profile, None)).
Proof.
  split.
  - destruct (three_attempts_with_backoff (H := sample_builtins) configured "Acme"
                site_only always_rate_limited) as [Hfail _];
      [discriminate | reflexivity | reflexivity |].
    destruct (Hfail eq_refl) as (e & message & He & Hm & _ & Hrun).
    injection He as <-. subst message. exact Hrun.
  - destruct (three_attempts_with_backoff (H := sample_builtins) configured "Acme"
                site_only third_time_lucky) as (_ & Hok & _);
      [discriminate | reflexivity | reflexivity |].
    apply Hok. reflexivity.
Defined.

(** ** Anti-fabrication validator *)

(** C5 as stated fails, twice.  Google Business answered without a
    rating, the narrative quotes stars and does not say that data is
    missing, and no issue is recorded.  And with a failed Google Business
    and the same narrative, a profile that lists a technology as an object
    makes the technology check raise [TypeError] (the detector having
    succeeded): nothing is flagged, the attempt fails, and after the
    retries [generate_profile] returns no profile and an error. *)
Lemma unrated_listing_is_not_flagged :
  reputation_of starred_profile = VStr "Rated 4.8 stars by its customers"
  /\ mentions_rating "Rated 4.8 stars by its customers" = true
  /\ states_unavailable "Rated 4.8 stars by its customers" = false
  /\ usable_rating unrated_listing = false
  /\ validate_profile (H := sample_builtins) starred_profile unrated_listing
     = Ok (true, [])
  /\ reputation_of object_stack_profile = VStr "Rated 4.8 stars by its customers"
  /\ usable_rating rich_dataset = false
  /\ validate_profile (H := sample_builtins) object_stack_profile rich_dataset
     = Raise (Exn TypeError "unhashable type: 'dict'")
  /\ snd (generate_profile (H := parsing_to object_stack_profile) configured
            "Acme" rich_dataset default_max_retries (fun _ => ReplyText "{}"))
     = Ok (None, Some "Error generating profile: unhashable type: 'dict'").
Proof. repeat split. Qed.

Lemma contains_key_present (d : list (string * pyval)) (k : string) (v : pyval) :
  Py.assoc k d = Some v -> Py.contains (VDict d) k = Ok true.
Proof. intros Hk. cbn. now rewrite Hk. Qed.

Lemma getitem_present (d : list (string * pyval)) (k : string) (v : pyval) :
  Py.assoc k d = Some v -> Py.getitem (VDict d) k = Ok v.
Proof. intros Hk. cbn. now rewrite Hk. Qed.

(** The first attempt that does not raise is the one whose profile
    [generate_profile] returns, as long as the delays before it exist. *)
Lemma retry_loop_first_success `{PyBuiltins} (max_retries : Z)
    (api : nat -> api_reply) (worker_data profile : pyval) (k : nat) :
  Z.of_nat k < max_retries -> (k <= 3)%nat ->
  (forall j : nat, (j < k)%nat ->
     exists e, attempt_body (api j) worker_data = Raise e) ->
  attempt_body (api k) worker_data = Ok profile ->
  forall (n attempt remaining : nat) (trace : list event),
    (attempt + n = k)%nat -> (n < remaining)%nat ->
    snd (retry_loop remaining attempt max_retries api worker_data trace)
    = Ok (Some profile, None).
Proof.
  intros Hk Hdelays Hearlier Hsuccess.
  induction n as [|n IH]; intros attempt remaining trace Hsum Hremaining;
    (destruct remaining as [|remaining]; [lia|]); cbn [retry_loop].
  - replace attempt with k by lia. now rewrite Hsuccess.
  - destruct (Hearlier attempt) as [e ->]; [lia|].
    destruct (Z.ltb_spec (Z.of_nat attempt) (max_retries - 1)) as [_|]; [|lia].
    assert (Hattempt : (attempt <= 2)%nat) by lia.
    destruct attempt as [|[|[|attempt]]]; try lia; cbn [list_item nth_error delays];
      apply IH; lia.
Qed.

Lemma first_success_is_returned `{PyBuiltins} (settings : Settings)
    (company : string) (max_retries : Z) (api : nat -> api_reply)
    (worker_data profile : pyval) (k : nat) :
  anthropic_api_key settings <> EmptyString ->
  Z.of_nat k < max_retries -> (k <= 3)%nat ->
  (forall j : nat, (j < k)%nat ->
     exists e, attempt_body (api j) worker_data = Raise e) ->
  attempt_body (api k) worker_data = Ok profile ->
  snd (generate_profile settings company worker_data max_retries api)
  = Ok (Some profile, None).
Proof.
  intros Hkey Hk Hdelays Hearlier Hsuccess. unfold generate_profile.
  apply String.eqb_neq in Hkey. rewrite Hkey.
  apply (retry_loop_first_success max_retries api worker_data profile k
           Hk Hdelays Hearlier Hsuccess k 0%nat); lia.
Qed.

(** When Google Business succeeded, the review check adds no issue,
    whatever the profile and the rating. *)
Lemma review_check_silent `{PyBuiltins} (profile worker_data : pyval)
    (issues issues' : list string) :
  succeeded worker_data "google_business" = true ->
  check_review_data profile worker_data issues = Ok issues' ->
  issues' = issues.
Proof.
  intros Hok. unfold check_review_data.
  destruct (Py.contains profile "market_position") as [[|]|]; cbn;
    [|now intros [= <-]|discriminate].
  destruct (Py.getitem profile "market_position") as [market|]; cbn;
    [|discriminate].
  destruct (Py.get market "public_reputation" (VStr EmptyString))
    as [reputation|]; cbn; [|discriminate].
  destruct worker_data as [| | | | | |d]; cbn; try discriminate.
  unfold succeeded, entry, field in Hok.
  destruct (match Py.assoc "google_business" d with
            | Some x => x
            | None => empty_dict
            end) as [| | | | | |g]; cbn; try discriminate.
  rewrite Hok.
  destruct (Py.truthy match Py.assoc "rating" g with
                      | Some v => v
                      | None => VNone
                      end); [|now intros [= <-]].
  destruct (Py.assoc "rating" g) as [actual|]; cbn; [|discriminate].
  destruct (Py.contains reputation (Py.str actual)) as [[|]|]; cbn;
    [now intros [= <-]| |discriminate].
  destruct (Py.lower reputation); cbn; [now intros [= <-]|discriminate].
Qed.

Section Validator.

Context `{PyBuiltins}.

Variables (p m : list (string * pyval)) (reputation : string).
Variable worker_data : pyval.

Hypothesis market_position : Py.assoc "market_position" p = Some (VDict m).
Hypothesis public_reputation :
  field (VDict m) "public_reputation" (VStr EmptyString) = VStr reputation.
Hypothesis dataset_shape :
  is_dict worker_data = true
  /\ is_dict (entry worker_data "google_business") = true.
Hypothesis provider_failed : succeeded worker_data "google_business" = false.
Hypothesis claims_rating : mentions_rating reputation = true.

(** What the second block adds when the provider failed and the narrative
    mentions a rating. *)
Lemma review_data_checked (issues : list string) :
  check_review_data (VDict p) worker_data issues
  = Ok (if states_unavailable reputation then issues
        else issues ++ [review_issue]).
Proof.
  destruct dataset_shape as [Hwd Hgoogle].
  unfold check_review_data.
  rewrite (contains_key_present p _ _ market_position), bind_ok. cbv beta iota.
  rewrite (getitem_present p _ _ market_position), bind_ok. cbv beta.
  rewrite (get_field (VDict m)), bind_ok by reflexivity. cbv beta.
  rewrite public_reputation.
  rewrite (get_field worker_data), bind_ok by assumption. cbv beta.
  rewrite (get_field _ "success"), bind_ok by exact Hgoogle. cbv beta.
  unfold succeeded, entry in provider_failed. rewrite provider_failed.
  cbn [Py.lower]. rewrite bind_ok. cbv beta.
  unfold mentions_rating in claims_rating. rewrite claims_rating.
  unfold states_unavailable.
  destruct (PyStr.contains (PyStr.lower reputation) "no data"),
    (PyStr.contains (PyStr.lower reputation) "unavailable"); reflexivity.
Qed.

(** The verdict of the validator on such a profile, for either outcome of
    the technology check. *)
Lemma validate_profile_value :
  validate_profile (VDict p) worker_data
  = match check_detected_technologies (VDict p) worker_data [] with
    | Raise e => Raise e
    | Ok tech_issues =>
        if states_unavailable reputation
        then Ok (Nat.eqb (length tech_issues) 0, tech_issues)
        else Ok (false, tech_issues ++ [review_issue])
    end.
Proof.
  unfold validate_profile.
  destruct (check_detected_technologies (VDict p) worker_data [])
    as [tech_issues|e]; [|reflexivity].
  rewrite bind_ok. cbv beta. rewrite review_data_checked, bind_ok. cbv beta.
  destruct (states_unavailable reputation); [reflexivity|].
  rewrite length_app. cbn [length]. unfold mret, result_ret.
  replace (length tech_issues + 1)%nat with (S (length tech_issues)) by lia.
  reflexivity.
Qed.

(** One attempt whose reply parses to the profile. *)
Lemma attempt_on_parsed_profile (response_text json_str : string) :
  extract_json response_text = Ok json_str ->
  json_loads (PyStr.strip json_str) = inr (VDict p) ->
  attempt_body (ReplyText response_text) worker_data
  = match validate_profile (VDict p) worker_data with
    | Raise e => Raise e
    | Ok (true, _) => Ok (VDict p)
    | Ok (false, issues) =>
        Ok (VDict (Py.assoc_set "_validation_issues" (VList (map VStr issues)) p))
    end.
Proof.
  intros Hextract Hparse. unfold attempt_body.
  rewrite Hextract, bind_ok. cbv beta. rewrite Hparse, bind_ok. cbv beta.
  destruct (validate_profile (VDict p) worker_data) as [[[|] issues]|e];
    reflexivity.
Qed.

End Validator.

(** C5, amended.  Take a profile whose [market_position.public_reputation]
    is a text that mentions a rating or stars, and an aggregated dataset (a
    dict whose Google Business entry is a dict).

    When Google Business did not succeed: if the technology check that
    comes first raises, [validate_profile] raises with it and an attempt
    that parsed this profile fails like any other; if it returns, then
    unless the narrative states "no data" or "unavailable" the validator
    answers invalid with the review-data issue after the technology issues,
    and [generate_profile] returns the profile, the issues stored under
    [_validation_issues], with no error, whenever the reply of an attempt
    parses to this profile, the earlier attempts having failed; if the
    narrative states that the data is missing the review check adds
    nothing.

    When Google Business succeeded, with or without a rating, the review
    check adds no issue, for any profile: the issues of the validator are
    those of the technology check. *)
Theorem unbacked_rating_is_flagged_not_blocked `{PyBuiltins}
    (p m : list (string * pyval)) (reputation : string) (worker_data : pyval)
    (settings : Settings) (company : string) (max_retries : Z)
    (api : nat -> api_reply) :
  Py.assoc "market_position" p = Some (VDict m) ->
  field (VDict m) "public_reputation" (VStr EmptyString) = VStr reputation ->
  mentions_rating reputation = true ->
  is_dict worker_data = true
  /\ is_dict (entry worker_data "google_business") = true ->
  (succeeded worker_data "google_business" = false ->
   (forall e : pyexn,
       check_detected_technologies (VDict p) worker_data [] = Raise e ->
       validate_profile (VDict p) worker_data = Raise e
       /\ forall response_text json_str : string,
            extract_json response_text = Ok json_str ->
            json_loads (PyStr.strip json_str) = inr (VDict p) ->
            attempt_body (ReplyText response_text) worker_data = Raise e)
   /\ (forall tech_issues : list string,
         check_detected_technologies (VDict p) worker_data [] = Ok tech_issues ->
         (states_unavailable reputation = false ->
          validate_profile (VDict p) worker_data
          = Ok (false, tech_issues ++ [review_issue])
          /\ forall (k : nat) (response_text json_str : string),
               anthropic_api_key settings <> EmptyString ->
               Z.of_nat k < max_retries -> (k <= 3)%nat ->
               (forall j : nat, (j < k)%nat ->
                  exists e, attempt_body (api j) worker_data = Raise e) ->
               api k = ReplyText response_text ->
               extract_json response_text = Ok json_str ->
               json_loads (PyStr.strip json_str) = inr (VDict p) ->
               snd (generate_profile settings company worker_data max_retries api)
               = Ok (Some (VDict (Py.assoc_set "_validation_issues"
                                    (VList (map VStr (tech_issues ++ [review_issue])))
                                    p)),
                     None))
         /\ (states_unavailable reputation = true ->
             validate_profile (VDict p) worker_data
             = Ok (Nat.eqb (length tech_issues) 0, tech_issues))))
  /\ (forall (profile dataset : pyval) (valid : bool) (issues : list string),
        succeeded dataset "google_business" = true ->
        validate_profile profile dataset = Ok (valid, issues) ->
        check_detected_technologies profile dataset [] = Ok issues).
Proof.
  intros Hmarket Hreputation Hmentions Hshape. split.
  - intros Hfailed.
    pose proof (validate_profile_value p m reputation worker_data Hmarket
                  Hreputation Hshape Hfailed Hmentions) as Hvalue.
    split.
    + intros e Hraise. rewrite Hraise in Hvalue. split; [exact Hvalue|].
      intros response_text json_str Hextract Hparse.
      rewrite (attempt_on_parsed_profile p worker_data _ _ Hextract Hparse).
      now rewrite Hvalue.
    + intros tech_issues Htech. rewrite Htech in Hvalue. split.
      * intros Hplain. rewrite Hplain in Hvalue. split; [exact Hvalue|].
        intros k response_text json_str Hkey Hk Hdelays Hearlier Hreply
               Hextract Hparse.
        apply (first_success_is_returned settings company max_retries api
                 worker_data _ k Hkey Hk Hdelays Hearlier).
        rewrite Hreply.
        rewrite (attempt_on_parsed_profile p worker_data _ _ Hextract Hparse).
        now rewrite Hvalue.
      * intros Hhedged. now rewrite Hhedged in Hvalue.
  - intros profile dataset valid issues Hok. unfold validate_profile.
    destruct (check_detected_technologies profile dataset []) as [tech_issues|e];
      [|discriminate].
    rewrite bind_ok. cbv beta.
    destruct (check_review_data profile dataset tech_issues) as [issues'|e] eqn:Hreview;
      [|discriminate].
    apply (review_check_silent _ _ _ _ Hok) in Hreview. subst issues'.
    rewrite bind_ok. now intros [= _ <-].
Qed.

Lemma unbacked_rating_is_flagged_not_blocked_witness :
  validate_profile (H := sample_builtins) starred_profile site_only
  = Ok (false, [] ++ [review_issue])
  /\ snd (generate_profile (H := sample_builtins) configured "Acme" site_only 3
            (fun attempt => if (attempt <? 1)%nat
                            then ReplyRaise (Exn APIError "Error code: 529")
                            else ReplyText starred_json))
     = Ok (Some (VDict (Py.assoc_set "_validation_issues"
                          (VList (map VStr ([] ++ [review_issue])))
                          [("company_name", VStr "Acme");
                           ("market_position",
                             VDict [("public_reputation",
                                     VStr "Rated 4.8 stars by its customers")])])),
           None).
Proof.
  destruct (unbacked_rating_is_flagged_not_blocked (H := sample_builtins)
              [("company_name", VStr "Acme");
               ("market_position",
                 VDict [("public_reputation",
                         VStr "Rated 4.8 stars by its customers")])]
              [("public_reputation", VStr "Rated 4.8 stars by its customers")]
              "Rated 4.8 stars by its customers" site_only configured "Acme" 3
              (fun attempt => if (attempt <? 1)%nat
                              then ReplyRaise (Exn APIError "Error code: 529")
                              else ReplyText starred_json)
              eq_refl eq_refl eq_refl (conj eq_refl eq_refl))
    as [Hfailed _].
  destruct (Hfailed eq_refl) as [_ Hreturns].
  destruct (Hreturns [] eq_refl) as [Hplain _].
  destruct (Hplain eq_refl) as [Hverdict Hgenerate].
  split; [exact Hverdict|].
  apply (Hgenerate 1%nat starred_json starred_json); try reflexivity;
    try discriminate; try lia.
  intros j Hj. assert (j = 0%nat) as -> by lia. eexists. reflexivity.
Defined.

(** ** Domain validator *)

Lemma append_cons (c : ascii) (s t : string) :
  String c s +:+ t = String c (s +:+ t).
Proof. reflexivity. Qed.

Lemma append_empty_r (s : string) : s +:+ EmptyString = s.
Proof. induction s as [|c s IH]; [reflexivity|]. now rewrite append_cons, IH. Qed.

Lemma append_assoc (s t u : string) : (s +:+ t) +:+ u = s +:+ (t +:+ u).
Proof. induction s as [|c s IH]; [reflexivity|]. now rewrite !append_cons, IH. Qed.

Lemma endswith_cons (c : ascii) (s suf : string) :
  PyStr.endswith (String c s) suf
  = if String.eqb (String c s) suf then true else PyStr.endswith s suf.
Proof. reflexivity. Qed.

Lemma endswith_empty (suf : string) :
  PyStr.endswith EmptyString suf
  = if String.eqb EmptyString suf then true else false.
Proof. reflexivity. Qed.

Lemma endswith_refl (s : string) : PyStr.endswith s s = true.
Proof.
  destruct s as [|c s]; [reflexivity|].
  now rewrite endswith_cons, String.eqb_refl.
Qed.

Lemma endswith_spec (s suf : string) :
  PyStr.endswith s suf = true <-> exists p, s = p +:+ suf.
Proof.
  split.
  - induction s as [|c s IH].
    + rewrite endswith_empty.
      destruct (String.eqb_spec EmptyString suf) as [<-|]; [|discriminate].
      now exists EmptyString.
    + rewrite endswith_cons.
      destruct (String.eqb_spec (String c s) suf) as [<-|_].
      * now exists EmptyString.
      * intros [p ->]%IH. now exists (String c p).
  - intros [p ->]. induction p as [|c p IH].
    + apply endswith_refl.
    + rewrite append_cons, endswith_cons, IH. now destruct (String.eqb _ _).
Qed.

Lemma startswith_empty (s : string) : PyStr.startswith s EmptyString = true.
Proof. now destruct s. Qed.

Lemma split_aux_char (a c : ascii) (cur s : string) :
  PyStr.split_aux (String a EmptyString) 0 cur (String c s)
  = if Ascii.eqb a c
    then PyStr.rev cur :: PyStr.split_aux (String a EmptyString) 0 EmptyString s
    else PyStr.split_aux (String a EmptyString) 0 (String c cur) s.
Proof.
  cbn [PyStr.split_aux PyStr.startswith String.length Nat.sub].
  now rewrite startswith_empty, andb_true_r.
Qed.

Lemma rev_cons (c : ascii) (s : string) :
  PyStr.rev (String c s) = PyStr.rev s +:+ String c EmptyString.
Proof. reflexivity. Qed.

Lemma split_no_separator (d cur : string) :
  PyStr.mem_char "@" d = false ->
  PyStr.split_aux "@" 0 cur d = [PyStr.rev cur +:+ d].
Proof.
  revert cur. induction d as [|c d IH]; intros cur Hd.
  - cbn [PyStr.split_aux]. now rewrite append_empty_r.
  - cbn [PyStr.mem_char] in Hd. apply orb_false_elim in Hd as [Hc Hd].
    rewrite Ascii.eqb_sym in Hc.
    rewrite split_aux_char, Hc, IH, rev_cons, append_assoc by assumption.
    reflexivity.
Qed.

Lemma split_at_sign (l d cur : string) :
  PyStr.mem_char "@" l = false ->
  PyStr.mem_char "@" d = false ->
  PyStr.split_aux "@" 0 cur (l +:+ "@" +:+ d) = [PyStr.rev cur +:+ l; d].
Proof.
  revert cur. induction l as [|c l IH]; intros cur Hl Hd.
  - change (EmptyString +:+ "@" +:+ d) with (String "@" d).
    rewrite split_aux_char, Ascii.eqb_refl, append_empty_r.
    f_equal. now apply split_no_separator.
  - cbn [PyStr.mem_char] in Hl. apply orb_false_elim in Hl as [Hc Hl].
    rewrite Ascii.eqb_sym in Hc.
    rewrite append_cons, split_aux_char, Hc, IH, rev_cons, append_assoc
      by assumption.
    reflexivity.
Qed.

Lemma email_domain_of (l d : string) :
  PyStr.mem_char "@" l = false ->
  PyStr.mem_char "@" d = false ->
  list_item (PyStr.split (l +:+ "@" +:+ d) "@") 1 = Ok d.
Proof.
  intros Hl Hd. unfold PyStr.split. now rewrite split_at_sign.
Qed.

Lemma str_in_list_In (x : string) (l : list string) :
  str_in_list x l = true <-> In x l.
Proof.
  unfold str_in_list. rewrite existsb_exists. split.
  - intros (y & Hy & ->%String.eqb_eq). exact Hy.
  - intros Hx. exists x. split; [exact Hx|apply String.eqb_refl].
Qed.

Lemma validate_email_domain_unfold `{IpLiterals} (l d url url_domain : string) :
  PyStr.mem_char "@" l = false ->
  PyStr.mem_char "@" d = false ->
  extract_domain url = Ok url_domain ->
  validate_email_domain (l +:+ "@" +:+ d) url
  = Ok (if str_in_list (PyStr.lower d) generic_providers then (true, true)
        else if String.eqb (PyStr.lower d) url_domain then (true, false)
        else if PyStr.endswith (PyStr.lower d) ("." +:+ url_domain) then (true, false)
        else if PyStr.endswith url_domain ("." +:+ PyStr.lower d) then (true, false)
        else (false, false)).
Proof.
  intros Hl Hd Hurl. unfold validate_email_domain.
  rewrite email_domain_of, bind_ok by assumption. cbv beta.
  rewrite Hurl, bind_ok. cbv beta.
  repeat match goal with
         | |- context [if ?b then _ else _] => destruct b
         end; reflexivity.
Qed.

Lemma split_head (s cur : string) :
  exists pieces : list string,
    PyStr.split_aux "@" 0 cur s
    = (PyStr.rev cur +:+ PyStr.take_until "@" s) :: pieces.
Proof.
  revert cur. induction s as [|c s IH]; intros cur.
  - exists []. cbn [PyStr.split_aux PyStr.take_until]. now rewrite append_empty_r.
  - rewrite split_aux_char. cbn [PyStr.take_until PyStr.mem_char].
    rewrite orb_false_r. destruct (Ascii.eqb "@" c).
    + eexists. now rewrite append_empty_r.
    + destruct (IH (String c cur)) as [pieces ->]. exists pieces.
      now rewrite rev_cons, append_assoc.
Qed.

Lemma split_after_local (l rest cur : string) :
  PyStr.mem_char "@" l = false ->
  PyStr.split_aux "@" 0 cur (l +:+ "@" +:+ rest)
  = (PyStr.rev cur +:+ l) :: PyStr.split_aux "@" 0 EmptyString rest.
Proof.
  revert cur. induction l as [|c l IH]; intros cur Hl.
  - change (EmptyString +:+ "@" +:+ rest) with (String "@" rest).
    now rewrite split_aux_char, Ascii.eqb_refl, append_empty_r.
  - cbn [PyStr.mem_char] in Hl. apply orb_false_elim in Hl as [Hc Hl].
    rewrite Ascii.eqb_sym in Hc.
    rewrite append_cons, split_aux_char, Hc, IH, rev_cons, append_assoc
      by assumption.
    reflexivity.
Qed.

(** The piece [email.split("@")[1]] of an email with an at sign: the text
    after the first at sign, up to the second one if there is one. *)
Lemma email_domain_piece (l rest : string) :
  PyStr.mem_char "@" l = false ->
  list_item (PyStr.split (l +:+ "@" +:+ rest) "@") 1
  = Ok (PyStr.take_until "@" rest).
Proof.
  intros Hl. unfold PyStr.split. rewrite split_after_local by assumption.
  destruct (split_head rest EmptyString) as [pieces ->]. reflexivity.
Qed.

Lemma validate_email_domain_value `{IpLiterals} (l rest url : string) :
  PyStr.mem_char "@" l = false ->
  validate_email_domain (l +:+ "@" +:+ rest) url
  = match extract_domain url with
    | Raise e => Raise e
    | Ok url_domain =>
        let d := PyStr.lower (PyStr.take_until "@" rest) in
        Ok (if str_in_list d generic_providers then (true, true)
            else if String.eqb d url_domain then (true, false)
            else if PyStr.endswith d ("." +:+ url_domain) then (true, false)
            else if PyStr.endswith url_domain ("." +:+ d) then (true, false)
            else (false, false))
    end.
Proof.
  intros Hl. unfold validate_email_domain.
  rewrite email_domain_piece, bind_ok by assumption. cbv beta.
  destruct (extract_domain url) as [url_domain|e]; [|reflexivity].
  rewrite bind_ok. cbv beta zeta.
  repeat match goal with
         | |- context [if ?b then _ else _] => destruct b
         end; reflexivity.
Qed.

Lemma extract_domain_raises_value_error `{IpLiterals} (url : string) (e : pyexn) :
  extract_domain url = Raise e -> exn_cls e = ValueError.
Proof.
  unfold extract_domain, Urllib.netloc. cbv zeta.
  repeat match goal with
         | |- context [if ?b then _ else _] => destruct b
         | |- context [match check_bracketed_netloc ?n with _ => _ end] =>
             destruct (check_bracketed_netloc n)
         end; cbn; try discriminate; now intros [= <-].
Qed.




(** ** Rate limiter *)

Lemma last_cons {A : Type} (l : list A) (a d : A) :
  List.last (a :: l) d = List.last l a.
Proof.
  revert a d. induction l as [|b l IH]; intros a d; [reflexivity|].
  change (List.last (a :: b :: l) d) with (List.last (b :: l) d).
  now rewrite !IH.
Qed.

Section RateLimiter.

Variable ip : string.

Local Abbreviation key := (rate_limit_key ip).

Lemma check_when_absent (now : Z) (r : Redis) :
  redis_get now r key = None ->
  check_rate_limit NoFault now ip (Some r)
  = (true, Some (redis_incr_expire now r key 3600)).
Proof. intros Hget. unfold check_rate_limit. now rewrite Hget. Qed.

Lemma check_when_counted (now c : Z) (r : Redis) :
  redis_get now r key = Some c ->
  check_rate_limit NoFault now ip (Some r)
  = if 10 <=? c then (false, Some r)
    else (true, Some (redis_incr_expire now r key 3600)).
Proof. intros Hget. unfold check_rate_limit. now rewrite Hget. Qed.

Lemma rejected_leaves_store (fault : redis_fault) (now : Z)
    (redis_client : option Redis) :
  fst (check_rate_limit fault now ip redis_client) = false ->
  snd (check_rate_limit fault now ip redis_client) = redis_client.
Proof.
  unfold check_rate_limit. destruct redis_client as [r|]; [|discriminate].
  destruct fault; cbn; try discriminate;
    destruct (redis_get now r key) as [c|]; try discriminate;
    destruct (10 <=? c); cbn; congruence.
Qed.

Lemma entry_after_incr (now : Z) (r : Redis) :
  counters (redis_incr_expire now r key 3600) !! key
  = Some (Counter (match redis_get now r key with Some n => n | None => 0 end + 1)
                  (Some (now + 3600))).
Proof. unfold redis_incr_expire. cbn. apply lookup_insert_eq. Qed.

Lemma get_live (now t c : Z) (r : Redis) :
  counters r !! key = Some (Counter c (Some t)) ->
  redis_get now r key = if now <? t then Some c else None.
Proof. intros He. unfold redis_get, counter_live. now rewrite He. Qed.

(** While the count stays within ten, every check inside the window is
    allowed, counted, and moves the expiry. *)
Lemma run_checks_allowed (times : list Z) :
  forall (t c : Z) (r : Redis),
    counters r !! key = Some (Counter c (Some (t + 3600))) ->
    within_window t times ->
    c + Z.of_nat (length times) <= 10 ->
    exists r' : Redis,
      run_checks times ip (Some r) = (repeat true (length times), Some r')
      /\ counters r' !! key
         = Some (Counter (c + Z.of_nat (length times))
                         (Some (List.last times t + 3600))).
Proof.
  induction times as [|t' times IH]; intros t c r He Hw Hc.
  - exists r. cbn. now rewrite Z.add_0_r.
  - destruct Hw as [Ht Hw].
    change (length (t' :: times)) with (S (length times)) in Hc.
    rewrite Nat2Z.inj_succ in Hc.
    assert (Hget : redis_get t' r key = Some c).
    { rewrite (get_live _ _ _ _ He).
      destruct (Z.ltb_spec t' (t + 3600)); [reflexivity|lia]. }
    pose proof (entry_after_incr t' r) as He'. rewrite Hget in He'.
    destruct (IH t' (c + 1) _ He' Hw) as (r' & Hrun & Hr'); [lia|].
    exists r'. cbn [run_checks]. rewrite (check_when_counted _ _ _ Hget).
    destruct (Z.leb_spec 10 c); [exfalso; lia|]. rewrite Hrun. split; [reflexivity|].
    rewrite Hr'.
    replace (c + Z.of_nat (length (t' :: times)))
      with (c + 1 + Z.of_nat (length times))
      by (change (length (t' :: times)) with (S (length times)); lia).
    now rewrite last_cons.
Qed.

Lemma eleven_checks (r : Redis) (t1 : Z) (times : list Z) :
  redis_get t1 r key = None ->
  length times = 10%nat ->
  within_window t1 times ->
  fst (run_checks (t1 :: times) ip (Some r)) = repeat true 10 ++ [false].
Proof.
  intros Hfresh Hlen Hw.
  destruct (exists_last (l := times)) as (first & t11 & ->);
    [now destruct times|].
  rewrite length_app in Hlen. cbn in Hlen.
  assert (Hw' : within_window t1 first
                /\ List.last first t1 <= t11 < List.last first t1 + 3600).
  { clear -Hw. revert t1 Hw. induction first as [|a first IH]; intros t1 Hw.
    - cbn in *. tauto.
    - destruct Hw as [Ha Hw]. destruct (IH a Hw) as [Hw1 Hl].
      split; [now split|]. now rewrite last_cons. }
  destruct Hw' as [Hw1 Hlast].
  cbn [run_checks]. rewrite (check_when_absent _ _ Hfresh).
  pose proof (entry_after_incr t1 r) as He. rewrite Hfresh in He.
  destruct (run_checks_allowed first t1 1 _ He Hw1) as (r' & Hrun & Hr'); [lia|].
  assert (Hsplit : forall rc,
             run_checks (first ++ [t11]) ip rc
             = let '(a, rc1) := run_checks first ip rc in
               let '(b, rc2) := check_rate_limit NoFault t11 ip rc1 in
               (a ++ [b], rc2)).
  { clear. induction first as [|a first IH]; intros rc; cbn [run_checks app].
    - now destruct (check_rate_limit NoFault t11 ip rc).
    - destruct (check_rate_limit NoFault a ip rc) as [b rc1]. rewrite IH.
      destruct (run_checks first ip rc1) as [bs rc2].
      now destruct (check_rate_limit NoFault t11 ip rc2). }
  rewrite Hsplit, Hrun.
  assert (Hget : redis_get t11 r' key = Some 10).
  { rewrite (get_live _ _ _ _ Hr').
    destruct (Z.ltb_spec t11 (List.last first t1 + 3600)); [|lia].
    f_equal. lia. }
  rewrite (check_when_counted _ _ _ Hget). cbn.
  replace (length first) with 9%nat by lia. reflexivity.
Qed.

End RateLimiter.

(** C8.  With a working backing store and a fresh window, ten checks of an
    IP inside the window are allowed and the eleventh is rejected; a
    rejected check leaves the store, and so the count, as it was; without a
    backing store, or when a command of the store fails, the check allows. *)
Theorem tenth_allowed_eleventh_rejected
    (ip : string) (r : Redis) (t1 : Z) (times : list Z) :
  redis_get t1 r (rate_limit_key ip) = None ->
  length times = 10%nat ->
  within_window t1 times ->
  fst (run_checks (t1 :: times) ip (Some r)) = repeat true 10 ++ [false]
  /\ nth_error (fst (run_checks (t1 :: times) ip (Some r))) 9 = Some true
  /\ nth_error (fst (run_checks (t1 :: times) ip (Some r))) 10 = Some false
  /\ (forall (fault : redis_fault) (now : Z) (redis_client : option Redis),
        fst (check_rate_limit fault now ip redis_client) = false ->
        snd (check_rate_limit fault now ip redis_client) = redis_client)
  /\ (forall (fault : redis_fault) (now : Z),
        check_rate_limit fault now ip None = (true, None))
  /\ (forall (now : Z) (store : Redis),
        check_rate_limit GetFails now ip (Some store) = (true, Some store))
  /\ (forall (now : Z) (store : Redis),
        fst (check_rate_limit NoFault now ip (Some store)) = true ->
        check_rate_limit PipelineFails now ip (Some store) = (true, Some store)).
Proof.
  intros Hfresh Hlen Hw.
  pose proof (eleven_checks ip r t1 times Hfresh Hlen Hw) as Hrun.
  rewrite Hrun.
  repeat split; try reflexivity.
  - apply rejected_leaves_store.
  - intros now store. unfold check_rate_limit.
    destruct (redis_get now store _) as [c|]; [|reflexivity].
    destruct (10 <=? c); [discriminate|reflexivity].
Qed.

Lemma tenth_allowed_eleventh_rejected_witness :
  fst (run_checks [0; 60; 120; 180; 240; 300; 360; 420; 480; 540; 600]
                  "203.0.113.7" (Some empty_redis))
  = repeat true 10 ++ [false].
Proof.
  apply (tenth_allowed_eleventh_rejected "203.0.113.7" empty_redis 0
           [60; 60 + 60; 180; 240; 300; 360; 420; 480; 540; 600]).
  - reflexivity.
  - reflexivity.
  - cbn. lia.
Defined.

(** C10.  An allowed check (the store working) leaves the counter with a
    time to live of a full 3600 seconds, so the window runs from the latest
    allowed request; a rejected check leaves the store as it was; and once
    the allowed request at [t_last] has brought the count to the limit, the
    IP is rejected at every time before [t_last + 3600] and allowed from
    [t_last + 3600] on. *)
Theorem window_runs_from_last_allowed_check
    (ip : string) (r r1 : Redis) (t_last : Z) :
  check_rate_limit NoFault t_last ip (Some r) = (true, Some r1) ->
  (exists c : Z,
      counters r1 !! rate_limit_key ip = Some (Counter c (Some (t_last + 3600))))
  /\ (forall (fault : redis_fault) (now : Z) (redis_client : option Redis),
        fst (check_rate_limit fault now ip redis_client) = false ->
        snd (check_rate_limit fault now ip redis_client) = redis_client)
  /\ (forall c : Z,
        redis_get t_last r1 (rate_limit_key ip) = Some c -> 10 <= c ->
        forall now : Z, t_last <= now ->
          (now < t_last + 3600 ->
           check_rate_limit NoFault now ip (Some r1) = (false, Some r1))
          /\ (t_last + 3600 <= now ->
              fst (check_rate_limit NoFault now ip (Some r1)) = true)).
Proof.
  intros Hallowed.
  assert (Hr1 : r1 = redis_incr_expire t_last r (rate_limit_key ip) 3600).
  { unfold check_rate_limit in Hallowed.
    destruct (redis_get t_last r _) as [c|]; [destruct (10 <=? c)|];
      congruence. }
  pose proof (entry_after_incr ip t_last r) as He. rewrite <- Hr1 in He.
  split; [eauto|]. split; [apply rejected_leaves_store|].
  intros c Hc Hlimit now Hnow.
  rewrite (get_live ip _ _ _ _ He) in Hc.
  destruct (Z.ltb_spec t_last (t_last + 3600)); [|lia].
  injection Hc as Hc.
  pose proof (get_live ip now _ _ _ He) as Hget. rewrite Hc in Hget.
  split; intros Hwhen.
  - destruct (Z.ltb_spec now (t_last + 3600)); [|lia].
    rewrite (check_when_counted ip _ _ _ Hget).
    destruct (Z.leb_spec 10 c); [reflexivity|lia].
  - destruct (Z.ltb_spec now (t_last + 3600)); [lia|].
    now rewrite (check_when_absent ip _ _ Hget).
Qed.

Lemma window_runs_from_last_allowed_check_witness :
  exists r1 : Redis,
    check_rate_limit NoFault 2000 "203.0.113.7" (Some nearly_exhausted_redis)
    = (true, Some r1)
    /\ counters r1 !! rate_limit_key "203.0.113.7" = Some (Counter 10 (Some 5600))
    /\ check_rate_limit NoFault 5599 "203.0.113.7" (Some r1) = (false, Some r1)
    /\ fst (check_rate_limit NoFault 5600 "203.0.113.7" (Some r1)) = true.
Proof.
  exists (redis_incr_expire 2000 nearly_exhausted_redis
            (rate_limit_key "203.0.113.7") 3600).
  destruct (window_runs_from_last_allowed_check "203.0.113.7"
              nearly_exhausted_redis
              (redis_incr_expire 2000 nearly_exhausted_redis
                 (rate_limit_key "203.0.113.7") 3600) 2000)
    as (_ & _ & Hblocked); [reflexivity|].
  split; [reflexivity|]. split; [reflexivity|].
  split.
  - apply (Hblocked 10); [reflexivity|lia|lia|lia].
  - apply (Hblocked 10); [reflexivity|lia|lia|lia].
Defined.

(** ** Intake *)

(** The failing input of C6: a request whose email domain does not match,
    sent from an IP that is over the limit.  The claim, like the docstring
    of [submit_intake] ("Validates email domain, rate limits, and queues
    the analysis job"), has the domain validator first, so the answer
    should be the domain-validation error; the code answers 429. *)
Lemma blocked_ip_sees_rate_limit_first :
  validate_email_domain (email mismatched_submission)
                        (company_url mismatched_submission) = Ok (false, false)
  /\ client_ip_of blocked_request = Ok "203.0.113.7"
  /\ redis_get 2000 exhausted_redis (rate_limit_key "203.0.113.7") = Some 10
  /\ submit_intake NoFault None 2000 ("job-9", "token-9") blocked_request
                   mismatched_submission blocked_world
     = Ok (rate_limited, blocked_world, None)
  /\ rate_limited <> domain_mismatch.
Proof. repeat split; discriminate. Qed.

Lemma with_redis_same (w : World) : with_redis w (redis_client w) = w.
Proof. now destruct w. Qed.

(** C6.  The code departs from the claim and from the docstring of
    [submit_intake], which both put the domain validator first: it
    consults the rate limiter first.  A request the rate limiter rejects
    is answered 429 whatever its email and URL, the domain validator not
    consulted; the domain-validation error is only given to a request the
    rate limiter allowed (and counted). *)
Theorem rate_limit_precedes_domain_validation `{IpLiterals}
    (fault : redis_fault) (insert_error : option pyexn) (now : Z)
    (ids : string * string)
    (request : Request) (submission : IntakeRequest) (w : World) (ip : string) :
  client_ip_of request = Ok ip ->
  (fst (check_rate_limit fault now ip (redis_client w)) = false ->
   submit_intake fault insert_error now ids request submission w
   = Ok (rate_limited, w, None))
  /\ (fst (check_rate_limit fault now ip (redis_client w)) = true ->
      forall needs_review : bool,
        validate_email_domain (email submission) (company_url submission)
        = Ok (false, needs_review) ->
        submit_intake fault insert_error now ids request submission w
        = Ok (domain_mismatch,
              with_redis w (snd (check_rate_limit fault now ip (redis_client w))),
              None)).
Proof.
  intros Hip. unfold submit_intake. rewrite Hip, bind_ok. cbv beta.
  split.
  - intros Hrejected.
    pose proof (rejected_leaves_store ip fault now _ Hrejected) as Hstore.
    destruct (check_rate_limit fault now ip (redis_client w)) as [allowed rc].
    cbn in Hrejected, Hstore. subst. cbn. now rewrite with_redis_same.
  - intros Hallowed needs_review Hinvalid.
    destruct (check_rate_limit fault now ip (redis_client w)) as [allowed rc].
    cbn in Hallowed. subst. cbn [negb fst snd]. cbv iota.
    now rewrite Hinvalid.
Qed.

Lemma rate_limit_precedes_domain_validation_witness :
  (fst (check_rate_limit NoFault 2000 "203.0.113.7" (redis_client blocked_world))
   = false ->
   submit_intake NoFault None 2000 ("job-9", "token-9") blocked_request
                 mismatched_submission blocked_world
   = Ok (rate_limited, blocked_world, None))
  /\ (fst (check_rate_limit NoFault 2000 "203.0.113.7" (redis_client blocked_world))
      = true ->
      forall needs_review : bool,
        validate_email_domain (email mismatched_submission)
                              (company_url mismatched_submission)
        = Ok (false, needs_review) ->
        submit_intake NoFault None 2000 ("job-9", "token-9") blocked_request
                      mismatched_submission blocked_world
        = Ok (domain_mismatch,
              with_redis blocked_world
                (snd (check_rate_limit NoFault 2000 "203.0.113.7"
                        (redis_client blocked_world))),
              None)).
Proof.
  apply (rate_limit_precedes_domain_validation NoFault None 2000 ("job-9", "token-9")
           blocked_request mismatched_submission blocked_world "203.0.113.7").
  reflexivity.
Defined.

(** ** Cache *)

(** C7 as stated fails: the first submission reached [complete] within the
    past 24 hours (at time 100, the clock being at 86450) and has a stored
    profile, but it was created more than 24 hours ago, so the lookup
    misses and the five providers are called. *)
Lemma completed_recently_but_created_earlier :
  sub_company_url first_submission = normalize_url (company_url resubmission)
  /\ sub_status first_submission = complete
  /\ sub_completed_at first_submission = Some 100
  /\ 86450 - day < 100
  /\ get_profile_by_submission_id (db (world_at 86400)) 1 = Some first_profile
  /\ get_submission_by_url 86450 (db (world_at 86400))
       (normalize_url (company_url resubmission)) = None
  /\ trace (process_submission (H := sample_builtins) (env_at 86450)
              "job-2" "token-2" resubmission (world_at 86400))
     = map EvProvider provider_names
       ++ [EvEmail "insufficient_data" "eve@acme.com"]
  /\ profiles (db (process_submission (H := sample_builtins) (env_at 86450)
                     "job-2" "token-2" resubmission (world_at 86400)))
     = [first_profile].
Proof. repeat split. Qed.

Lemma latest_In (rows : list submission_row) (r : submission_row) :
  latest rows = Some r -> In r rows.
Proof.
  revert r. induction rows as [|a rows IH]; intros r; cbn; [discriminate|].
  destruct (latest rows) as [r'|].
  - destruct (sub_created_at a <? sub_created_at r'); intros [= <-]; auto.
  - intros [= <-]. auto.
Qed.

Lemma get_submission_by_url_recent (now : Z) (d : Database) (url : string)
    (r : submission_row) :
  get_submission_by_url now d url = Some r ->
  In r (submissions d)
  /\ sub_company_url r = url
  /\ sub_status r = complete
  /\ now - day < sub_created_at r.
Proof.
  intros Hr%latest_In. apply filter_In in Hr as [Hin Hr].
  unfold recent_complete in Hr.
  apply andb_prop in Hr as [[Hurl Hst]%andb_prop Hrecent].
  repeat split; auto.
  - now apply String.eqb_eq.
  - now apply bool_decide_eq_true in Hst.
  - now apply Z.ltb_lt.
Qed.

Lemma job_status_after_update (d : Database) (job_id : string)
    (status : SubmissionStatus) (completed_at : option Z) (r : submission_row) :
  get_submission_by_job_id d job_id = Some r ->
  get_submission_by_job_id (update_submission_status d job_id status completed_at)
                           job_id
  = Some (set_status status completed_at r).
Proof.
  unfold get_submission_by_job_id, update_submission_status. cbn.
  induction (submissions d) as [|a rows IH]; cbn; [discriminate|].
  destruct (String.eqb (sub_job_id a) job_id) eqn:Ha; cbn; rewrite Ha.
  - now intros [= <-].
  - exact IH.
Qed.

(** C7, amended.  When the latest submission with the same normalized URL
    that is [complete] and was created within the past 24 hours has a
    stored profile, the background task copies that profile (payload,
    data-sources list, confidence score) onto the new submission, moves the
    new submission to [complete], sends the profile email, and calls no
    provider and no synthesis. *)
Theorem cache_hit_clones_profile `{PyBuiltins}
    (env : Env) (job_id auth_token : string) (submission : IntakeRequest)
    (w : World) (cached current : submission_row) (cached_profile : profile_row) :
  let now := env_now env in
  let url := normalize_url (company_url submission) in
  let db1 := update_submission_status (db w) job_id processing None in
  let w' := process_submission env job_id auth_token submission w in
  get_submission_by_url now db1 url = Some cached ->
  get_profile_by_submission_id db1 (sub_id cached) = Some cached_profile ->
  get_submission_by_job_id db1 job_id = Some current ->
  (sub_company_url cached = url
   /\ sub_status cached = complete
   /\ now - day < sub_created_at cached)
  /\ profiles (db w')
     = profiles (db w)
       ++ [{| prof_id := next_id (map prof_id (profiles (db w)));
              prof_submission_id := sub_id current;
              prof_profile_json := prof_profile_json cached_profile;
              prof_data_sources_used := prof_data_sources_used cached_profile;
              prof_confidence_score := prof_confidence_score cached_profile;
              prof_created_at := now |}]
  /\ get_submission_by_job_id (db w') job_id
     = Some (set_status complete (Some now) current)
  /\ trace w' = trace w ++ [EvEmail "profile_ready" (email submission)]
  /\ redis_client w' = redis_client w.
Proof.
  intros now url db1 w' Hcached Hprofile Hcurrent.
  pose proof (get_submission_by_url_recent _ _ _ _ Hcached)
    as (_ & Hurl & Hstatus & Hrecent).
  split; [auto|].
  assert (Hw' : w' = log (set_job_status env
                           (with_db (with_db w db1)
                              (create_profile now db1 (sub_id current)
                                 (prof_profile_json cached_profile)
                                 (prof_data_sources_used cached_profile)
                                 (prof_confidence_score cached_profile)))
                           job_id complete)
                         [EvEmail "profile_ready" (email submission)]).
  { unfold w', process_submission, cache_lookup. cbn [db with_db].
    fold db1. fold url. fold now. rewrite Hcached.
    rewrite bool_decide_eq_true_2 by assumption.
    now rewrite Hprofile, Hcurrent. }
  rewrite Hw'. cbn [db trace redis_client log set_job_status with_db].
  repeat split.
  apply (job_status_after_update
           (create_profile now db1 (sub_id current)
              (prof_profile_json cached_profile)
              (prof_data_sources_used cached_profile)
              (prof_confidence_score cached_profile))).
  exact Hcurrent.
Qed.

Lemma cache_hit_clones_profile_witness :
  let w' := process_submission (H := sample_builtins) (env_at 3600)
              "job-2" "token-2" resubmission (world_at 3000) in
  profiles (db w')
  = [first_profile;
     {| prof_id := 2; prof_submission_id := 2;
        prof_profile_json := acme_profile;
        prof_data_sources_used := ["Website Content"; "DNS Records"];
        prof_confidence_score := VStr "High"; prof_created_at := 3600 |}]
  /\ trace w' = [EvEmail "profile_ready" "eve@acme.com"].
Proof.
  destruct (cache_hit_clones_profile (H := sample_builtins) (env_at 3600)
              "job-2" "token-2" resubmission (world_at 3000)
              first_submission
              (set_status processing None (second_submission 3000))
              first_profile)
    as (_ & Hprofiles & _ & Htrace & _); try reflexivity.
  split; [exact Hprofiles | exact Htrace].
Defined.

(* ================================================================== *)
(** * Further properties of the same code *)
(* ================================================================== *)

(** ** URL normalisation and host extraction *)

Lemma rstrip_last (chars s p : string) (c : ascii) :
  PyStr.rstrip chars s = p +:+ String c EmptyString ->
  PyStr.mem_char c chars = false.
Proof.
  revert p. induction s as [|a s IH]; intros p; cbn [PyStr.rstrip].
  - destruct p; discriminate.
  - destruct (PyStr.rstrip chars s) as [|b r] eqn:Hr.
    + destruct (PyStr.mem_char a chars) eqn:Ha; [destruct p; discriminate|].
      destruct p as [|a' [|? ?]]; cbn; try discriminate.
      now intros [= <-].
    + destruct p as [|a' p]; [discriminate|].
      rewrite append_cons. intros [= _ Hp]. now apply (IH p).
Qed.

Lemma rstrip_idempotent (chars s : string) :
  PyStr.rstrip chars (PyStr.rstrip chars s) = PyStr.rstrip chars s.
Proof.
  induction s as [|a s IH]; [reflexivity|]. cbn [PyStr.rstrip].
  destruct (PyStr.rstrip chars s) as [|b r] eqn:Hr.
  - destruct (PyStr.mem_char a chars) eqn:Ha; [reflexivity|].
    cbn [PyStr.rstrip]. now rewrite Ha.
  - cbn [PyStr.rstrip] in *. now rewrite IH.
Qed.

(** X1.  Whatever the input, [normalize_url] returns a text that does not
    end with a slash. *)
Theorem normalize_url_has_no_trailing_slash (url : string) :
  PyStr.endswith (normalize_url url) "/" = false.
Proof.
  destruct (PyStr.endswith (normalize_url url) "/") eqn:He; [|reflexivity].
  apply endswith_spec in He as [p Hp]. unfold normalize_url in Hp.
  now apply rstrip_last in Hp.
Qed.

(** X2.  [normalize_url] is idempotent on every input whose normalised
    form still begins with [http://] or [https://]. *)
Theorem normalize_url_idempotent (url : string) :
  PyStr.startswith (normalize_url url) "http://"
  || PyStr.startswith (normalize_url url) "https://" = true ->
  normalize_url (normalize_url url) = normalize_url url.
Proof.
  intros Hscheme. unfold normalize_url at 1. rewrite Hscheme.
  unfold normalize_url. apply rstrip_idempotent.
Qed.

Lemma normalize_url_idempotent_witness :
  normalize_url (normalize_url "acme.com//") = normalize_url "acme.com//".
Proof. apply (normalize_url_idempotent "acme.com//"). reflexivity. Defined.

Lemma lower_char_idempotent (c : ascii) :
  PyStr.lower_char (PyStr.lower_char c) = PyStr.lower_char c.
Proof. destruct c as [[] [] [] [] [] [] [] []]; reflexivity. Qed.

Lemma lower_idempotent (s : string) : PyStr.lower (PyStr.lower s) = PyStr.lower s.
Proof.
  induction s as [|c s IH]; [reflexivity|].
  cbn [PyStr.lower]. now rewrite lower_char_idempotent, IH.
Qed.

Lemma lower_drop (n : nat) (s : string) :
  PyStr.lower (PyStr.drop n s) = PyStr.drop n (PyStr.lower s).
Proof.
  revert s. induction n as [|n IH]; intros s; [reflexivity|].
  destruct s as [|c s]; [reflexivity|]. cbn [PyStr.drop PyStr.lower]. apply IH.
Qed.

(** X3.  The host [extract_domain] returns is in lower case: lower-casing
    it again changes nothing. *)
Theorem extract_domain_is_lower_case `{IpLiterals} (url domain : string) :
  extract_domain url = Ok domain -> PyStr.lower domain = domain.
Proof.
  unfold extract_domain.
  destruct (Urllib.netloc (normalize_url url)) as [n|e]; [|discriminate].
  rewrite bind_ok. unfold mret, result_ret.
  destruct (PyStr.startswith (PyStr.lower n) "www."); intros Hd.
  - assert (Hdom : domain = PyStr.drop 4 (PyStr.lower n)) by congruence.
    now rewrite Hdom, lower_drop, lower_idempotent.
  - assert (Hdom : domain = PyStr.lower n) by congruence.
    rewrite Hdom. apply lower_idempotent.
Qed.

Lemma extract_domain_is_lower_case_witness :
  PyStr.lower "shop.acme.com:8443" = "shop.acme.com:8443".
Proof.
  apply (extract_domain_is_lower_case "https://WWW.Shop.Acme.com:8443/a?b").
  reflexivity.
Defined.

(** ** Domain validator *)

(** X4.  The verdict of [validate_email_domain] does not depend on the
    local part of the email nor on the letter case of its domain. *)
Theorem verdict_ignores_local_part_and_case `{IpLiterals} (l1 l2 d1 d2 url : string) :
  PyStr.mem_char "@" l1 = false -> PyStr.mem_char "@" d1 = false ->
  PyStr.mem_char "@" l2 = false -> PyStr.mem_char "@" d2 = false ->
  PyStr.lower d1 = PyStr.lower d2 ->
  validate_email_domain (l1 +:+ "@" +:+ d1) url
  = validate_email_domain (l2 +:+ "@" +:+ d2) url.
Proof.
  intros Hl1 Hd1 Hl2 Hd2 Hlower. unfold validate_email_domain.
  rewrite !email_domain_of, !bind_ok by assumption. cbv beta zeta.
  now rewrite Hlower.
Qed.

Lemma verdict_ignores_local_part_and_case_witness :
  validate_email_domain ("Ops" +:+ "@" +:+ "Mail.ACME.com") "acme.com"
  = validate_email_domain ("jane.doe" +:+ "@" +:+ "mail.acme.com") "acme.com".
Proof. apply verdict_ignores_local_part_and_case; reflexivity. Defined.

(** X5.  An email without an at sign makes [validate_email_domain] raise
    [IndexError], before the URL is looked at. *)
Theorem email_without_at_sign_raises `{IpLiterals} (email url : string) :
  PyStr.mem_char "@" email = false ->
  validate_email_domain email url = Raise index_error.
Proof.
  intros Hno. unfold validate_email_domain, PyStr.split.
  now rewrite split_no_separator.
Qed.

Lemma email_without_at_sign_raises_witness :
  validate_email_domain "ops.acme.com" "[" = Raise index_error.
Proof. apply email_without_at_sign_raises. reflexivity. Defined.

(** ** Rate limiter *)

Lemma rate_limit_key_inj (a b : string) :
  rate_limit_key a = rate_limit_key b -> a = b.
Proof.
  unfold rate_limit_key. rewrite !append_cons.
  change (EmptyString +:+ a) with a. change (EmptyString +:+ b) with b.
  now intros [= ->].
Qed.

Lemma get_after_other_incr (now now' : Z) (r : Redis) (key key' : string) :
  key <> key' ->
  redis_get now' (redis_incr_expire now r key 3600) key' = redis_get now' r key'.
Proof.
  intros Hne. unfold redis_get, redis_incr_expire. cbn [counters].
  now rewrite lookup_insert_ne.
Qed.

(** X6.  A check of one IP never changes what a check of another IP
    answers, whatever the faults and the times. *)
Theorem rate_limit_is_per_ip (a b : string) (fault fault' : redis_fault)
    (now now' : Z) (redis_client : option Redis) :
  a <> b ->
  fst (check_rate_limit fault' now' b
         (snd (check_rate_limit fault now a redis_client)))
  = fst (check_rate_limit fault' now' b redis_client).
Proof.
  intros Hab.
  assert (Hkey : rate_limit_key a <> rate_limit_key b)
    by (intros H; now apply rate_limit_key_inj in H).
  destruct redis_client as [r|]; [|reflexivity].
  unfold check_rate_limit at 2.
  destruct fault; try reflexivity;
    destruct (redis_get now r (rate_limit_key a)) as [c|];
    try destruct (10 <=? c); try reflexivity;
    cbn [snd]; unfold check_rate_limit;
    rewrite (get_after_other_incr _ _ _ _ _ Hkey);
    destruct fault'; try reflexivity;
    destruct (redis_get now' r (rate_limit_key b)) as [n|];
    try destruct (10 <=? n); reflexivity.
Qed.

Lemma rate_limit_is_per_ip_witness :
  fst (check_rate_limit NoFault 2100 "198.51.100.2"
         (snd (check_rate_limit NoFault 2000 "203.0.113.7"
                 (Some nearly_exhausted_redis))))
  = fst (check_rate_limit NoFault 2100 "198.51.100.2" (Some nearly_exhausted_redis)).
Proof. apply rate_limit_is_per_ip. discriminate. Defined.

Lemma check_rate_limit_round_trips (fault : redis_fault) (now : Z) (ip : string)
    (redis_client : option Redis) :
  check_rate_limit fault now ip redis_client
  = match rate_limit_get fault now ip redis_client with
    | Decided allowed => (allowed, redis_client)
    | Proceeds => (true, rate_limit_pipeline fault now ip redis_client)
    end.
Proof.
  unfold check_rate_limit, rate_limit_get, rate_limit_pipeline.
  destruct redis_client as [r|]; [|reflexivity].
  destruct fault; try reflexivity;
    destruct (redis_get now r (rate_limit_key ip)) as [n|];
    try destruct (10 <=? n); reflexivity.
Qed.

Lemma get_after_incr (now : Z) (r : Redis) (key : string) :
  redis_get now (redis_incr_expire now r key 3600) key
  = Some (match redis_get now r key with Some n => n | None => 0 end + 1).
Proof.
  unfold redis_get at 1, redis_incr_expire, counter_live. cbn [counters].
  rewrite lookup_insert_eq. cbn.
  destruct (Z.ltb_spec now (now + 3600)); [reflexivity|lia].
Qed.

Lemma get_after_pipelines (count : nat) (now : Z) (ip : string) (r : Redis) :
  redis_get now (run_pipelines (S count) now ip r) (rate_limit_key ip)
  = Some (match redis_get now r (rate_limit_key ip) with
          | Some n => n
          | None => 0
          end + Z.of_nat (S count)).
Proof.
  revert r. induction count as [|count IH]; intros r.
  - cbn [run_pipelines]. rewrite get_after_incr. f_equal.
  - change (run_pipelines (S (S count)) now ip r)
      with (run_pipelines (S count) now ip
              (redis_incr_expire now r (rate_limit_key ip) 3600)).
    rewrite IH, get_after_incr. f_equal. lia.
Qed.

(** X7.  A check whose GET and pipeline run back to back never lets a
    counter pass the limit: when no stored counter is above ten before it,
    none is after it.  The source awaits the two round trips separately,
    and the bound does not survive interleaving: when several checks of
    one IP have all done their GET on the same store before the first
    pipeline runs, and the count they read is below ten, each of them is
    allowed and the counter ends at the count read plus their number. *)
Theorem counter_bound_needs_back_to_back_checks (fault : redis_fault) (now : Z)
    (ip : string) (r : Redis) :
  (counters_bounded r ->
   forall r' : Redis,
     snd (check_rate_limit fault now ip (Some r)) = Some r' ->
     counters_bounded r')
  /\ (rate_limit_get NoFault now ip (Some r) = Proceeds ->
      forall count : nat,
        fst (check_rate_limit NoFault now ip (Some r)) = true
        /\ redis_get now (run_pipelines (S count) now ip r) (rate_limit_key ip)
           = Some (match redis_get now r (rate_limit_key ip) with
                   | Some n => n
                   | None => 0
                   end + Z.of_nat (S count))).
Proof.
  split.
  - intros Hb r' Hr'. unfold check_rate_limit in Hr'.
    assert (Hincr : (forall c, redis_get now r (rate_limit_key ip) = Some c -> c < 10) ->
                    counters_bounded (redis_incr_expire now r (rate_limit_key ip) 3600)).
    { intros Hc key e. unfold redis_incr_expire. cbn [counters].
      destruct (decide (rate_limit_key ip = key)) as [<-|Hne].
      - rewrite lookup_insert_eq. intros [= <-]. cbn.
        destruct (redis_get now r (rate_limit_key ip)) as [c|]; [|lia].
        specialize (Hc c eq_refl). lia.
      - rewrite lookup_insert_ne by assumption. apply Hb. }
    destruct fault; cbn in Hr'.
    + destruct (redis_get now r (rate_limit_key ip)) as [c|] eqn:Hget.
      * destruct (Z.leb_spec 10 c); cbn in Hr'; injection Hr' as <-; [exact Hb|].
        apply Hincr. now intros ? [= <-].
      * injection Hr' as <-. apply Hincr. discriminate.
    + now injection Hr' as <-.
    + destruct (redis_get now r (rate_limit_key ip)) as [c|];
        [destruct (10 <=? c)|]; cbn in Hr'; now injection Hr' as <-.
  - intros Hget count. split; [|apply get_after_pipelines].
    rewrite check_rate_limit_round_trips. now rewrite Hget.
Qed.

Lemma counter_bound_needs_back_to_back_checks_witness :
  fst (check_rate_limit NoFault 2000 "203.0.113.7" (Some nearly_exhausted_redis))
  = true
  /\ redis_get 2000 (run_pipelines 2 2000 "203.0.113.7" nearly_exhausted_redis)
               (rate_limit_key "203.0.113.7")
     = Some (match redis_get 2000 nearly_exhausted_redis
                     (rate_limit_key "203.0.113.7") with
             | Some n => n
             | None => 0
             end + Z.of_nat 2).
Proof.
  destruct (counter_bound_needs_back_to_back_checks NoFault 2000 "203.0.113.7"
              nearly_exhausted_redis) as [_ Hoverlap].
  exact (Hoverlap eq_refl 1%nat).
Defined.

(** ** Sufficiency scorer *)

(** X8.  No single source makes a dataset sufficient: when
    [check_data_sufficiency] answers true, at least two scored sources are
    in its list, and at least three when the site scraper is not one. *)
Theorem sufficiency_needs_two_sources (wd : pyval) (sources : list string) :
  well_shaped wd = true ->
  check_data_sufficiency wd = Ok (true, sources) ->
  (2 <= length (List.filter scored sources))%nat
  /\ (site_signal wd = false -> (3 <= length (List.filter scored sources))%nat).
Proof.
  intros Hshape Hrun. rewrite check_data_sufficiency_value in Hrun by assumption.
  injection Hrun as Hweight <-.
  unfold signal_weight in Hweight. unfold signal_sources.
  destruct (site_signal wd), (tech_signal wd), (mx_signal wd),
    (registrar_signal wd), (rating_signal wd), (jobs_signal wd);
    cbn in Hweight |- *; try discriminate; split; (lia || discriminate).
Qed.

Lemma sufficiency_needs_two_sources_witness :
  (2 <= length (List.filter scored
                  ["Website Content"; "Technology Stack"; "DNS Records";
                   "Job Postings"]))%nat
  /\ (site_signal rich_dataset = false ->
      (3 <= length (List.filter scored
                      ["Website Content"; "Technology Stack"; "DNS Records";
                       "Job Postings"]))%nat).
Proof. apply (sufficiency_needs_two_sources rich_dataset); reflexivity. Defined.

(** ** Anti-fabrication validator: technologies *)

Section Technologies.

Context `{PyBuiltins}.

Lemma collect_names (entries : list pyval) (names : list string) :
  Forall2 names_technology entries names ->
  forall acc : list pyval,
    for_each entries
      (fun acc t => name ← Py.getitem t "name";
                    _ ← Py.check_hashable name;
                    mret (acc ++ [name])) acc
    = Ok (acc ++ map VStr names).
Proof.
  induction 1 as [|t name entries names Ht _ IH]; intros acc; cbn [for_each map].
  - now rewrite app_nil_r.
  - unfold names_technology in Ht. rewrite Ht, bind_ok. cbn [Py.check_hashable].
    rewrite bind_ok. unfold mret, result_ret. rewrite bind_ok, IH.
    now rewrite <- app_assoc.
Qed.

Lemma detected_name (t : string) (names : list string) :
  existsb (Py.eqb (VStr t)) (map VStr names) = str_in_list t names.
Proof. induction names as [|n names IH]; [reflexivity|]. cbn. now rewrite IH. Qed.

Lemma flag_unknown (names techs : list string) :
  forall issues : list string,
    for_each (map VStr techs)
      (fun issues tech =>
         _ ← Py.check_hashable tech;
         mret (if existsb (Py.eqb tech) (map VStr names) then issues
               else issues ++ [tech_issue tech])) issues
    = Ok (issues
          ++ map (fun t => tech_issue (VStr t))
                 (List.filter (fun t => negb (str_in_list t names)) techs)).
Proof.
  induction techs as [|t techs IH]; intros issues; cbn [for_each map List.filter].
  - now rewrite app_nil_r.
  - cbn [Py.check_hashable]. rewrite bind_ok. unfold mret, result_ret.
    rewrite bind_ok, detected_name, IH.
    destruct (str_in_list t names); cbn [negb map]; [reflexivity|].
    now rewrite <- app_assoc.
Qed.

Variables (p : list (string * pyval)) (snapshot worker_data : pyval).

Hypothesis has_snapshot : Py.assoc "operational_snapshot" p = Some snapshot.
Hypothesis snapshot_shape : is_dict snapshot = true.
Hypothesis dataset_shape :
  is_dict worker_data = true /\ is_dict (entry worker_data "tech_detector") = true.

(** X9.  When the technology detector succeeded, the first block of
    [validate_profile] adds one issue for each technology the profile lists
    that is not a name the detector reported, in the order of the profile's
    list, and none for the others. *)
Theorem undetected_technologies_are_flagged
    (entries : list pyval) (names techs issues : list string) :
  field snapshot "detected_technologies" (VList []) = VList (map VStr techs) ->
  succeeded worker_data "tech_detector" = true ->
  field (entry worker_data "tech_detector") "detected" (VList []) = VList entries ->
  Forall2 names_technology entries names ->
  check_detected_technologies (VDict p) worker_data issues
  = Ok (issues
        ++ map (fun t => tech_issue (VStr t))
               (List.filter (fun t => negb (str_in_list t names)) techs)).
Proof.
  intros Htechs Hok Hdetected Hnames. destruct dataset_shape as [Hwd Hentry].
  unfold check_detected_technologies.
  rewrite (contains_key_present p _ _ has_snapshot), bind_ok. cbv beta iota.
  rewrite (getitem_present p _ _ has_snapshot), bind_ok. cbv beta.
  rewrite (get_field snapshot), bind_ok, Htechs by assumption. cbv beta.
  rewrite (get_field worker_data), bind_ok by assumption. cbv beta.
  rewrite (get_field _ "success"), bind_ok by exact Hentry. cbv beta.
  unfold succeeded, entry in Hok. rewrite Hok.
  rewrite (get_field _ "detected"), bind_ok by exact Hentry. cbv beta.
  unfold entry in Hdetected. rewrite Hdetected. cbn [Py.iter].
  rewrite bind_ok. cbv beta.
  rewrite (collect_names entries names Hnames), bind_ok. cbv beta.
  rewrite bind_ok. cbv beta. apply flag_unknown.
Qed.

(** X10.  When the technology detector did not succeed, the first block of
    [validate_profile] adds no issue, whatever technologies the profile
    lists. *)
Theorem failed_detector_flags_nothing (issues : list string) :
  succeeded worker_data "tech_detector" = false ->
  check_detected_technologies (VDict p) worker_data issues = Ok issues.
Proof.
  intros Hfailed. destruct dataset_shape as [Hwd Hentry].
  unfold check_detected_technologies.
  rewrite (contains_key_present p _ _ has_snapshot), bind_ok. cbv beta iota.
  rewrite (getitem_present p _ _ has_snapshot), bind_ok. cbv beta.
  rewrite (get_field snapshot), bind_ok by assumption. cbv beta.
  rewrite (get_field worker_data), bind_ok by assumption. cbv beta.
  rewrite (get_field _ "success"), bind_ok by exact Hentry. cbv beta.
  unfold succeeded, entry in Hfailed. now rewrite Hfailed.
Qed.

End Technologies.

Lemma undetected_technologies_are_flagged_witness :
  check_detected_technologies (H := sample_builtins) stack_profile rich_dataset []
  = Ok ([] ++ map (fun t => tech_issue (H := sample_builtins) (VStr t))
                  (List.filter (fun t => negb (str_in_list t ["WordPress"]))
                               ["WordPress"; "React"; "Shopify"])).
Proof.
  apply (undetected_technologies_are_flagged (H := sample_builtins)
           stack_profile_body
           (VDict [("detected_technologies",
                    VList [VStr "WordPress"; VStr "React"; VStr "Shopify"])])
           rich_dataset eq_refl eq_refl (conj eq_refl eq_refl)
           [VDict [("name", VStr "WordPress"); ("confidence", VInt 55)]]);
    try reflexivity.
  repeat constructor.
Defined.

Lemma failed_detector_flags_nothing_witness :
  check_detected_technologies (H := sample_builtins) stack_profile site_only []
  = Ok [].
Proof.
  apply (failed_detector_flags_nothing (H := sample_builtins)
           stack_profile_body
           (VDict [("detected_technologies",
                    VList [VStr "WordPress"; VStr "React"; VStr "Shopify"])])
           site_only eq_refl eq_refl (conj eq_refl eq_refl)).
  reflexivity.
Defined.

(** ** Retry loop of the synthesizer *)

Section RetryLoop.

Context `{PyBuiltins}.

Variables (max_retries : Z) (api : nat -> api_reply) (worker_data : pyval).

Lemma retry_loop_returns (remaining : nat) :
  max_retries <= 4 ->
  forall (attempt : nat) (trace : list event),
    exists out : profile_outcome,
      snd (retry_loop remaining attempt max_retries api worker_data trace) = Ok out
      /\ one_of_profile_and_error out.
Proof.
  intros Hmax. induction remaining as [|remaining IH]; intros attempt trace;
    cbn [retry_loop].
  - eexists. split; [reflexivity|]. right. eexists. split; [reflexivity|discriminate].
  - destruct (attempt_body (api attempt) worker_data) as [profile|e].
    + eexists. split; [reflexivity|]. left. now exists profile.
    + destruct (Z.ltb_spec (Z.of_nat attempt) (max_retries - 1)) as [Hlt|_].
      * destruct attempt as [|[|[|attempt]]]; try (exfalso; lia); cbn; apply IH.
      * eexists. split; [reflexivity|]. right. eexists.
        split; [reflexivity|apply failure_message_not_empty].
Qed.

Lemma retry_loop_log (remaining : nat) :
  forall (attempt : nat) (trace : list event),
    (attempt <= 3)%nat ->
    Z.of_nat (attempt + remaining) = Z.max 0 max_retries ->
    exists count : nat,
      (count <= remaining)%nat /\ (attempt + count <= 4)%nat
      /\ (0 < remaining -> 0 < count)%nat
      /\ fst (retry_loop remaining attempt max_retries api worker_data trace)
         = trace ++ attempts_log attempt count.
Proof.
  induction remaining as [|remaining IH]; intros attempt trace Hattempt Hsum;
    cbn [retry_loop].
  - exists 0%nat. cbn. rewrite app_nil_r. repeat split; lia.
  - destruct (attempt_body (api attempt) worker_data) as [profile|e].
    + exists 1%nat. cbn. repeat split; lia.
    + destruct (Z.ltb_spec (Z.of_nat attempt) (max_retries - 1)) as [Hlt|_].
      * destruct (list_item delays attempt) as [d|ie] eqn:Hd.
        -- assert (Hnext : (S attempt <= 3)%nat).
           { unfold list_item in Hd.
             assert (Hsome : nth_error delays attempt <> None)
               by (destruct (nth_error delays attempt); congruence).
             apply List.nth_error_Some in Hsome. cbn in Hsome. lia. }
           destruct (IH (S attempt) ((trace ++ [EvSynthesis attempt]) ++ [EvSleep d])
                        Hnext) as (count & Hc1 & Hc2 & Hc3 & Hlog); [lia|].
           assert (0 < remaining)%nat by lia.
           exists (S count). rewrite Hlog. repeat split; try lia.
           destruct count as [|count]; [lia|].
           rewrite <- !app_assoc. cbn [app attempts_log].
           replace (nth attempt delays 0) with d; [reflexivity|].
           unfold list_item in Hd.
           destruct attempt as [|[|[|attempt]]]; [| | |lia];
             cbn in Hd |- *; congruence.
        -- exists 1%nat. cbn. repeat split; lia.
      * exists 1%nat. cbn. repeat split; lia.
Qed.

Variables (settings : Settings) (company : string).

(** X11.  With at most four retries, [generate_profile] never raises: it
    returns a profile without error, or no profile and a non-empty error
    message. *)
Theorem generate_profile_returns_profile_or_error :
  max_retries <= 4 ->
  exists out : profile_outcome,
    snd (generate_profile settings company worker_data max_retries api) = Ok out
    /\ one_of_profile_and_error out.
Proof.
  intros Hmax. unfold generate_profile.
  destruct (String.eqb (anthropic_api_key settings) EmptyString).
  - eexists. split; [reflexivity|]. right. eexists. split; [reflexivity|discriminate].
  - now apply retry_loop_returns.
Qed.

(** X12.  The list of delays has three entries: with five retries or more
    and a configured key, a fourth failed attempt makes [generate_profile]
    raise [IndexError] where it looks up the next delay, after four calls
    and sleeps of 1, 4 and 16 seconds. *)
Theorem fourth_failure_raises_index_error (e0 e1 e2 e3 : pyexn) :
  anthropic_api_key settings <> EmptyString ->
  5 <= max_retries ->
  attempt_body (api 0%nat) worker_data = Raise e0 ->
  attempt_body (api 1%nat) worker_data = Raise e1 ->
  attempt_body (api 2%nat) worker_data = Raise e2 ->
  attempt_body (api 3%nat) worker_data = Raise e3 ->
  generate_profile settings company worker_data max_retries api
  = ([EvSynthesis 0; EvSleep 1; EvSynthesis 1; EvSleep 4; EvSynthesis 2;
      EvSleep 16; EvSynthesis 3],
     Raise index_error).
Proof.
  intros Hkey Hmax H0 H1 H2 H3. unfold generate_profile.
  rewrite (key_test settings Hkey).
  destruct (Z.to_nat max_retries) as [|[|[|[|n]]]] eqn:Hn; try lia.
  cbn [retry_loop]. rewrite H0, H1, H2, H3.
  repeat match goal with
         | |- context [Z.of_nat ?a <? max_retries - 1] =>
             destruct (Z.ltb_spec (Z.of_nat a) (max_retries - 1)); [|lia]
         end.
  reflexivity.
Qed.

(** X13.  Whatever the number of retries asked for, [generate_profile]
    calls the API at most four times and never more often than
    [max_retries]; it sleeps after each call but the last, for the delay of
    that call, and does nothing else. *)
Theorem generate_profile_log :
  exists count : nat,
    (count <= 4)%nat /\ Z.of_nat count <= Z.max 0 max_retries
    /\ fst (generate_profile settings company worker_data max_retries api)
       = attempts_log 0 count.
Proof.
  unfold generate_profile.
  destruct (String.eqb (anthropic_api_key settings) EmptyString).
  - exists 0%nat. repeat split; lia.
  - destruct (retry_loop_log (Z.to_nat max_retries) 0 []) as (count & Hc1 & Hc2 & _ & Hlog);
      [lia|lia|].
    exists count. repeat split; [lia|lia|exact Hlog].
Qed.

End RetryLoop.

Lemma generate_profile_returns_profile_or_error_witness :
  exists out : profile_outcome,
    snd (generate_profile (H := sample_builtins) configured "Acme" site_only 4
           third_time_lucky) = Ok out
    /\ one_of_profile_and_error out.
Proof.
  apply (generate_profile_returns_profile_or_error (H := sample_builtins) 4).
  lia.
Defined.

Lemma fourth_failure_raises_index_error_witness :
  generate_profile (H := sample_builtins) configured "Acme" site_only 5
                   always_rate_limited
  = ([EvSynthesis 0; EvSleep 1; EvSynthesis 1; EvSleep 4; EvSynthesis 2;
      EvSleep 16; EvSynthesis 3],
     Raise index_error).
Proof.
  apply (fourth_failure_raises_index_error (H := sample_builtins) 5
           always_rate_limited site_only configured "Acme"
           (Exn RateLimitError "Error code: 429") (Exn RateLimitError "Error code: 429")
           (Exn RateLimitError "Error code: 429") (Exn RateLimitError "Error code: 429"));
    (discriminate || lia || reflexivity).
Defined.

(** ** Fenced JSON *)

Lemma rev_append (a b : string) :
  PyStr.rev (a +:+ b) = PyStr.rev b +:+ PyStr.rev a.
Proof.
  induction a as [|c a IH].
  - cbn [PyStr.rev]. change (EmptyString +:+ b) with b. now rewrite append_empty_r.
  - rewrite append_cons. cbn [PyStr.rev]. now rewrite IH, append_assoc.
Qed.

Lemma rev_involutive (s : string) : PyStr.rev (PyStr.rev s) = s.
Proof.
  induction s as [|c s IH]; [reflexivity|].
  cbn [PyStr.rev]. now rewrite rev_append, IH.
Qed.

Lemma startswith_append (sep t : string) : PyStr.startswith (sep +:+ t) sep = true.
Proof.
  induction sep as [|c sep IH]; [apply startswith_empty|].
  rewrite append_cons. cbn [PyStr.startswith]. now rewrite Ascii.eqb_refl, IH.
Qed.

Lemma startswith_spec (s prefix : string) :
  PyStr.startswith s prefix = true -> exists t, s = prefix +:+ t.
Proof.
  revert s. induction prefix as [|c prefix IH]; intros s Hs.
  - now exists s.
  - destruct s as [|a s]; [discriminate|]. cbn [PyStr.startswith] in Hs.
    apply andb_prop in Hs as [->%Ascii.eqb_eq [t ->]%IH]. now exists t.
Qed.

Lemma split_aux_skip (sep u t cur : string) :
  PyStr.split_aux sep (String.length u) cur (u +:+ t) = PyStr.split_aux sep 0 cur t.
Proof. induction u as [|c u IH]; [reflexivity|]. rewrite append_cons. exact IH. Qed.

(** At an occurrence of the separator the piece ends. *)
Lemma split_aux_at_sep (c : ascii) (u t cur : string) :
  PyStr.split_aux (String c u) 0 cur (String c u +:+ t)
  = PyStr.rev cur :: PyStr.split_aux (String c u) 0 EmptyString t.
Proof.
  pose proof (startswith_append (String c u) t) as Hs.
  rewrite append_cons in *. cbn [PyStr.split_aux]. rewrite Hs.
  cbn [String.length]. rewrite Nat.sub_succ, Nat.sub_0_r.
  now rewrite split_aux_skip.
Qed.

Section Fences.

(** A separator that begins with a backtick, as both fences do. *)
Variable sep' : string.

Local Abbreviation sep := (String backtick sep').

Lemma startswith_plain (s : string) :
  PyStr.mem_char backtick s = false -> PyStr.startswith s sep = false.
Proof.
  destruct s as [|c s]; [reflexivity|]. cbn [PyStr.mem_char PyStr.startswith].
  intros [Hc _]%orb_false_elim. rewrite Ascii.eqb_sym in Hc. now rewrite Hc.
Qed.

(** Text without backticks is read into the current piece. *)
Lemma split_aux_plain (s t cur : string) :
  PyStr.mem_char backtick s = false ->
  PyStr.split_aux sep 0 cur (s +:+ t)
  = PyStr.split_aux sep 0 (PyStr.rev s +:+ cur) t.
Proof.
  revert cur. induction s as [|c s IH]; intros cur Hs; [reflexivity|].
  cbn [PyStr.mem_char] in Hs. apply orb_false_elim in Hs as [Hc Hs].
  rewrite Ascii.eqb_sym in Hc.
  rewrite append_cons. cbn [PyStr.split_aux PyStr.startswith]. rewrite Hc.
  cbn [andb]. rewrite IH by assumption.
  cbn [PyStr.rev]. now rewrite append_assoc.
Qed.

Lemma split_aux_no_fence (s cur : string) :
  PyStr.mem_char backtick s = false ->
  PyStr.split_aux sep 0 cur s = [PyStr.rev cur +:+ s].
Proof.
  intros Hs. rewrite <- (append_empty_r s) at 1.
  rewrite split_aux_plain by assumption. cbn [PyStr.split_aux].
  now rewrite rev_append, rev_involutive.
Qed.

Lemma contains_no_fence (s : string) :
  PyStr.mem_char backtick s = false -> PyStr.contains s sep = false.
Proof.
  induction s as [|c s IH]; intros Hs; [reflexivity|].
  cbn [PyStr.contains]. rewrite startswith_plain by assumption.
  cbn [PyStr.mem_char] in Hs. apply orb_false_elim in Hs as [_ Hs]. auto.
Qed.

End Fences.

Lemma contains_after (s t needle : string) :
  PyStr.contains t needle = true -> PyStr.contains (s +:+ t) needle = true.
Proof.
  intros Ht. induction s as [|c s IH]; [exact Ht|].
  rewrite append_cons. cbn [PyStr.contains]. rewrite IH.
  now destruct (PyStr.startswith _ _).
Qed.

Lemma contains_at_start (needle t : string) :
  PyStr.contains (needle +:+ t) needle = true.
Proof.
  pose proof (startswith_append needle t) as Hs.
  destruct (needle +:+ t); cbn [PyStr.contains]; now rewrite Hs.
Qed.

(** The text up to the closing fence. *)
Lemma head_of_body (body rest : string) :
  PyStr.mem_char backtick body = false ->
  list_item (PyStr.split_aux "```" 0 EmptyString (body +:+ "```" +:+ rest)) 0
  = Ok body.
Proof.
  intros Hbody.
  rewrite (split_aux_plain "``") by assumption.
  rewrite (split_aux_at_sep "`" "``"), append_empty_r, rev_involutive.
  reflexivity.
Qed.

(** After the closing fence no further [```json] begins, unless the fence
    is followed by [json]. *)
Lemma after_closing_fence (after cur : string) :
  PyStr.mem_char backtick after = false ->
  PyStr.startswith after "json" = false ->
  PyStr.split_aux "```json" 0 cur ("```" +:+ after)
  = [PyStr.rev cur +:+ "```" +:+ after].
Proof.
  intros Hafter Hjson.
  change ("```" +:+ after) with (String "`" (String "`" (String "`" after))) at 1.
  pose proof (startswith_plain "json" after Hafter) as H1.
  pose proof (startswith_plain "`json" after Hafter) as H2.
  cbn [PyStr.split_aux PyStr.startswith].
  change backtick with "`"%char in H1, H2.
  rewrite Hjson, H1, H2. cbn [Ascii.eqb Bool.eqb andb].
  rewrite (split_aux_no_fence "``json") by assumption.
  cbn [PyStr.rev]. now rewrite !append_assoc.
Qed.

(** X14.  A reply without any backtick is parsed as it is, and a reply
    that wraps a document in a [```json] fence, with no other backtick
    before, inside or after, is parsed as the document alone. *)
Theorem fenced_json_is_unwrapped (before body after : string) :
  PyStr.mem_char backtick before = false ->
  PyStr.mem_char backtick body = false ->
  PyStr.mem_char backtick after = false ->
  extract_json (before +:+ fence_json +:+ body +:+ fence +:+ after) = Ok body
  /\ extract_json body = Ok body.
Proof.
  intros Hbefore Hbody Hafter. split.
  - unfold extract_json.
    rewrite contains_after by apply contains_at_start.
    unfold PyStr.split, fence_json, fence.
    rewrite (split_aux_plain "``json") by assumption.
    rewrite (split_aux_at_sep "`" "``json").
    rewrite (split_aux_plain "``json") by assumption.
    rewrite !append_empty_r, !rev_involutive.
    destruct (PyStr.startswith after "json") eqn:Hjson.
    + apply startswith_spec in Hjson as [rest ->].
      change ("```" +:+ "json" +:+ rest) with ("```json" +:+ rest).
      rewrite (split_aux_at_sep "`" "``json"), rev_involutive.
      cbn [list_item nth_error]. rewrite bind_ok.
      now rewrite (split_aux_no_fence "``") by assumption.
    + rewrite after_closing_fence, rev_involutive by assumption.
      cbn [list_item nth_error]. rewrite bind_ok.
      now apply head_of_body.
  - unfold extract_json, fence_json, fence.
    now rewrite (contains_no_fence "``json"), (contains_no_fence "``").
Qed.

Lemma fenced_json_is_unwrapped_witness :
  extract_json ("Here is the profile:" +:+ newline +:+ acme_reply) = Ok (newline +:+ acme_json +:+ newline).
Proof.
  apply (fenced_json_is_unwrapped ("Here is the profile:" +:+ newline)
           (newline +:+ acme_json +:+ newline) EmptyString); reflexivity.
Defined.

(** ** Queries *)

Lemma latest_none (rows : list submission_row) : latest rows = None -> rows = [].
Proof.
  destruct rows as [|a rows]; [reflexivity|]. cbn [latest].
  destruct (latest rows); [destruct (_ <? _)|]; discriminate.
Qed.

Lemma latest_is_latest (rows : list submission_row) (r : submission_row) :
  latest rows = Some r ->
  forall r', In r' rows -> sub_created_at r' <= sub_created_at r.
Proof.
  revert r. induction rows as [|a rows IH]; intros r; cbn [latest]; [discriminate|].
  destruct (latest rows) as [best|] eqn:Hbest.
  - destruct (Z.ltb_spec (sub_created_at a) (sub_created_at best));
      intros [= <-] r' [<-|Hin]; try lia; try (now apply IH).
    specialize (IH best eq_refl r' Hin). lia.
  - intros [= <-] r' [<-|Hin]; [lia|].
    apply latest_none in Hbest. subst rows. destruct Hin.
Qed.

(** X15.  [get_submission_by_url] returns a submission of that URL that is
    complete and was created less than 24 hours ago, and none of these was
    created later; it returns nothing exactly when there is no such
    submission. *)
Theorem get_submission_by_url_spec (now : Z) (d : Database) (url : string) :
  match get_submission_by_url now d url with
  | Some r =>
      In r (submissions d)
      /\ sub_company_url r = url /\ sub_status r = complete
      /\ now - day < sub_created_at r
      /\ forall r', In r' (submissions d) -> recent_complete now url r' = true ->
                    sub_created_at r' <= sub_created_at r
  | None =>
      forall r', In r' (submissions d) -> recent_complete now url r' = false
  end.
Proof.
  destruct (get_submission_by_url now d url) as [r|] eqn:Hr.
  - pose proof (get_submission_by_url_recent _ _ _ _ Hr) as (Hin & Hurl & Hst & Hrec).
    repeat split; auto.
    intros r' Hin' Hq. apply (latest_is_latest _ _ Hr). now apply filter_In.
  - intros r' Hin'. apply latest_none in Hr.
    destruct (recent_complete now url r') eqn:Hq; [|reflexivity].
    assert (Hf : In r' (List.filter (recent_complete now url) (submissions d)))
      by now apply filter_In.
    now rewrite Hr in Hf.
Qed.

Lemma find_app_none {A : Type} (f : A -> bool) (l1 l2 : list A) :
  List.find f l1 = None -> List.find f (l1 ++ l2) = List.find f l2.
Proof.
  induction l1 as [|a l1 IH]; [reflexivity|]. cbn.
  destruct (f a); [discriminate|exact IH].
Qed.

Lemma find_app_some {A : Type} (f : A -> bool) (l1 l2 : list A) (x : A) :
  List.find f l1 = Some x -> List.find f (l1 ++ l2) = Some x.
Proof.
  induction l1 as [|a l1 IH]; [discriminate|]. cbn.
  destruct (f a); [auto|exact IH].
Qed.

(** X16.  A submission created under a job id that is not yet in the table
    is what the lookup by that job id returns, with the status, URL and
    time of its creation and no completion time; the lookups of the jobs
    already in the table are unchanged. *)
Theorem created_submission_is_found (now : Z) (d : Database)
    (name url mail job_id token : string) (status : SubmissionStatus) :
  get_submission_by_job_id d job_id = None ->
  get_submission_by_job_id
    (create_submission now d name url mail job_id token status) job_id
  = Some {| sub_id := next_id (map sub_id (submissions d));
            sub_company_name := name; sub_company_url := url;
            sub_email := mail; sub_job_id := job_id; sub_auth_token := token;
            sub_status := status; sub_created_at := now;
            sub_completed_at := None |}
  /\ forall (other : string) (r : submission_row),
       get_submission_by_job_id d other = Some r ->
       get_submission_by_job_id
         (create_submission now d name url mail job_id token status) other
       = Some r.
Proof.
  intros Hfresh. unfold get_submission_by_job_id, create_submission in *.
  cbn [submissions]. split.
  - rewrite find_app_none by assumption. cbn. now rewrite String.eqb_refl.
  - intros other r Hr. now apply find_app_some.
Qed.

Lemma created_submission_is_found_witness :
  get_submission_by_job_id
    (create_submission 90000 (db (world_at 86400)) "Acme" "https://acme.com"
       "bob@acme.com" "job-3" "token-3" queued) "job-3"
  = Some {| sub_id := 3; sub_company_name := "Acme";
            sub_company_url := "https://acme.com"; sub_email := "bob@acme.com";
            sub_job_id := "job-3"; sub_auth_token := "token-3";
            sub_status := queued; sub_created_at := 90000;
            sub_completed_at := None |}.
Proof.
  destruct (created_submission_is_found 90000 (db (world_at 86400)) "Acme"
              "https://acme.com" "bob@acme.com" "job-3" "token-3" queued eq_refl)
    as [Hfound _].
  exact Hfound.
Defined.

Lemma job_lookup_other (d : Database) (job_id other : string)
    (status : SubmissionStatus) (completed_at : option Z) :
  other <> job_id ->
  get_submission_by_job_id (update_submission_status d job_id status completed_at)
                           other
  = get_submission_by_job_id d other.
Proof.
  intros Hne. unfold get_submission_by_job_id, update_submission_status. cbn.
  induction (submissions d) as [|a rows IH]; [reflexivity|]. cbn.
  destruct (String.eqb_spec (sub_job_id a) job_id) as [Ha|Ha]; cbn.
  - destruct (String.eqb_spec (sub_job_id a) other) as [Hb|_]; [congruence|exact IH].
  - destruct (String.eqb (sub_job_id a) other); [reflexivity|exact IH].
Qed.

(** X17.  [update_submission_status] changes the status of the job it is
    given and leaves every other job as it was; a completion time that is
    set is kept when the update brings none, and the profiles are not
    touched. *)
Theorem update_touches_one_job (d : Database) (job_id : string)
    (status : SubmissionStatus) (completed_at : option Z) (r : submission_row) :
  get_submission_by_job_id d job_id = Some r ->
  (exists r',
      get_submission_by_job_id (update_submission_status d job_id status completed_at)
                               job_id = Some r'
      /\ sub_status r' = status
      /\ sub_id r' = sub_id r /\ sub_auth_token r' = sub_auth_token r
      /\ sub_created_at r' = sub_created_at r
      /\ sub_completed_at r'
         = match completed_at with
           | Some t => Some t
           | None => sub_completed_at r
           end)
  /\ (forall other : string, other <> job_id ->
        get_submission_by_job_id
          (update_submission_status d job_id status completed_at) other
        = get_submission_by_job_id d other)
  /\ profiles (update_submission_status d job_id status completed_at) = profiles d.
Proof.
  intros Hr. split; [|split; [|reflexivity]].
  - exists (set_status status completed_at r).
    rewrite (job_status_after_update _ _ _ _ _ Hr). now repeat split.
  - intros other Hne. now apply job_lookup_other.
Qed.

Lemma update_touches_one_job_witness :
  get_submission_by_job_id
    (update_submission_status (db (world_at 3000)) "job-2" processing None) "job-1"
  = get_submission_by_job_id (db (world_at 3000)) "job-1".
Proof.
  destruct (update_touches_one_job (db (world_at 3000)) "job-2" processing None
              (second_submission 3000) eq_refl) as (_ & Hother & _).
  apply Hother. discriminate.
Defined.

(** ** The background task as a whole *)

Lemma cache_lookup_current (env : Env) (w : World) (job_id url : string)
    (cached_profile : profile_row) (current : submission_row) :
  cache_lookup env w job_id url = Some (cached_profile, current) ->
  get_submission_by_job_id (db w) job_id = Some current.
Proof.
  unfold cache_lookup.
  destruct (get_submission_by_url (env_now env) (db w) url) as [cached|];
    [|discriminate].
  destruct (bool_decide (sub_status cached = complete)); [|discriminate].
  destruct (get_profile_by_submission_id (db w) (sub_id cached)); [|discriminate].
  destruct (get_submission_by_job_id (db w) job_id); [|discriminate].
  now intros [= _ <-].
Qed.

Lemma attempts_log_calls (count attempt : nat) :
  forallb is_call (attempts_log attempt count) = true.
Proof.
  revert attempt. induction count as [|count IH]; intros attempt; [reflexivity|].
  destruct count as [|count]; [reflexivity|].
  change (attempts_log attempt (S (S count)))
    with (EvSynthesis attempt :: EvSleep (nth attempt delays 0)
            :: attempts_log (S attempt) (S count)).
  cbn [forallb is_call andb]. apply IH.
Qed.

Section Pipeline.

Context `{PyBuiltins}.

Variables (env : Env) (job_id auth_token : string) (submission : IntakeRequest).
Variable w : World.

Local Abbreviation now := (env_now env).
Local Abbreviation db1 := (update_submission_status (db w) job_id processing None).
Local Abbreviation url := (normalize_url (company_url submission)).
Local Abbreviation worker_data := (VDict (organize_results (env_workers env))).

Lemma generate_profile_calls (settings : Settings) (company : string)
    (max_retries : Z) (api : nat -> api_reply) (wd : pyval) :
  forallb is_call (fst (generate_profile settings company wd max_retries api)) = true.
Proof.
  unfold generate_profile.
  destruct (String.eqb (anthropic_api_key settings) EmptyString); [reflexivity|].
  destruct (retry_loop_log max_retries api wd (Z.to_nat max_retries) 0 [])
    as (count & _ & _ & _ & ->); [lia|lia|].
  apply attempts_log_calls.
Qed.

Lemma current_after_first_update (current row : submission_row) :
  get_submission_by_job_id db1 job_id = Some current ->
  get_submission_by_job_id (db w) job_id = Some row ->
  sub_id current = sub_id row.
Proof.
  intros Hcurrent Hrow.
  apply (job_status_after_update _ _ processing None) in Hrow.
  rewrite Hrow in Hcurrent. now injection Hcurrent as <-.
Qed.

Lemma no_current_after_first_update (row : submission_row) :
  get_submission_by_job_id db1 job_id = None ->
  get_submission_by_job_id (db w) job_id = Some row -> False.
Proof.
  intros Hcurrent Hrow.
  apply (job_status_after_update _ _ processing None) in Hrow. congruence.
Qed.

Ltac shape status mail calls new_profiles :=
  exists status, mail, calls, new_profiles;
  cbn [db trace redis_client log set_job_status with_db with_redis
       on_unexpected_error create_profile profiles submissions
       update_submission_status];
  rewrite ?app_nil_r, <- ?app_assoc;
  repeat split; auto; try (cbn; tauto); try discriminate.

Ltac stored Hcurrent :=
  let row := fresh "row" in
  let Hrow := fresh "Hrow" in
  intros _ row Hrow; eexists; split; [reflexivity|];
  exact (current_after_first_update _ _ Hcurrent Hrow).

Ltac not_stored Hcurrent :=
  let row := fresh "row" in
  let Hrow := fresh "Hrow" in
  intros _ row Hrow;
  destruct (no_current_after_first_update _ Hcurrent Hrow).

Lemma process_submission_shape :
  run_shape env job_id submission w
            (process_submission env job_id auth_token submission w).
Proof.
  unfold run_shape, process_submission. cbv zeta.
  destruct (cache_lookup env (with_db w db1) job_id url)
    as [[cached_profile current]|] eqn:Hcache.
  - apply cache_lookup_current in Hcache. cbn [db with_db] in Hcache.
    shape complete "profile_ready" (@nil event)
          [{| prof_id := next_id (map prof_id (profiles (db w)));
              prof_submission_id := sub_id current;
              prof_profile_json := prof_profile_json cached_profile;
              prof_data_sources_used := prof_data_sources_used cached_profile;
              prof_confidence_score := prof_confidence_score cached_profile;
              prof_created_at := now |}];
      try (right; split; [reflexivity|]; eexists; split; reflexivity).
    stored Hcache.
  - clear Hcache.
    destruct (check_data_sufficiency worker_data) as [[sufficient sources]|e] eqn:Hscore.
    2: { shape failed "error" (map EvProvider provider_names) (@nil profile_row). }
    destruct sufficient; cbn [negb].
    2: { shape insufficient_data "insufficient_data"
               (map EvProvider provider_names) (@nil profile_row). }
    pose proof (generate_profile_calls (env_settings env) (company_name submission)
                  default_max_retries (env_api env) worker_data) as Hcalls.
    destruct (generate_profile (env_settings env) (company_name submission)
                worker_data default_max_retries (env_api env)) as [calls generated].
    cbn [fst] in Hcalls.
    assert (Hall : forallb is_call (map EvProvider provider_names ++ calls) = true)
      by (rewrite forallb_app; now rewrite Hcalls).
    assert (Hsuff : exists srcs, Ok (true, sources) = Ok (true, srcs)) by eauto.
    destruct generated as [[profile error]|e].
    2: { shape failed "error" (map EvProvider provider_names ++ calls)
               (@nil profile_row). }
    destruct (option_truthy (VStr <$> error) || negb (option_truthy profile)).
    { shape failed "error" (map EvProvider provider_names ++ calls)
            (@nil profile_row). }
    cbn [db log with_db].
    destruct (get_submission_by_job_id db1 job_id) as [current|] eqn:Hcurrent.
    + destruct (confidence_of (default VNone profile)) as [score|e];
        cbn [mbind result_bind mret result_ret].
      2: { shape failed "error" (map EvProvider provider_names ++ calls)
                 (@nil profile_row). }
      cbn [redis_client log set_job_status with_db].
      destruct (redis_client w) as [r|] eqn:Hr;
        shape complete "profile_ready" (map EvProvider provider_names ++ calls)
              [{| prof_id := next_id (map prof_id (profiles (db w)));
                  prof_submission_id := sub_id current;
                  prof_profile_json := default VNone profile;
                  prof_data_sources_used := sources;
                  prof_confidence_score := score;
                  prof_created_at := now |}];
        try (right; split; [reflexivity|]; eexists; split; reflexivity);
        try (now left);
        stored Hcurrent.
    + cbn [redis_client log set_job_status with_db].
      destruct (redis_client w) as [r|] eqn:Hr;
        shape complete "profile_ready" (map EvProvider provider_names ++ calls)
              (@nil profile_row);
        try (right; split; [reflexivity|]; now exists r);
        try (now left);
        not_stored Hcurrent.
Qed.

End Pipeline.

Lemma job_lookup_ignores_profiles (rows : list submission_row)
    (p1 p2 : list profile_row) (job_id : string) :
  get_submission_by_job_id {| submissions := rows; profiles := p1 |} job_id
  = get_submission_by_job_id {| submissions := rows; profiles := p2 |} job_id.
Proof. reflexivity. Qed.

(** X18.  A run of the background task on a submission that is in the
    table leaves it [complete], [failed] or [insufficient_data], with the
    time of the run as completion time and its id, token and creation time
    unchanged; it changes no other job. *)
Theorem task_ends_in_terminal_state `{PyBuiltins}
    (env : Env) (job_id auth_token : string) (submission : IntakeRequest)
    (w : World) (current : submission_row) :
  get_submission_by_job_id (db w) job_id = Some current ->
  let w' := process_submission env job_id auth_token submission w in
  (exists row : submission_row,
      get_submission_by_job_id (db w') job_id = Some row
      /\ (sub_status row = complete \/ sub_status row = failed
          \/ sub_status row = insufficient_data)
      /\ sub_completed_at row = Some (env_now env)
      /\ sub_id row = sub_id current
      /\ sub_auth_token row = sub_auth_token current
      /\ sub_created_at row = sub_created_at current)
  /\ (forall other : string, other <> job_id ->
        get_submission_by_job_id (db w') other
        = get_submission_by_job_id (db w) other).
Proof.
  intros Hcurrent w'.
  destruct (process_submission_shape env job_id auth_token submission w)
    as (status & mail & calls & new_profiles & Hdb & _ & Hout & _).
  fold w' in Hdb. rewrite Hdb. split.
  - exists (set_status status (Some (env_now env))
                       (set_status processing None current)).
    split.
    + apply job_status_after_update.
      apply (job_status_after_update _ _ processing None) in Hcurrent.
      exact Hcurrent.
    + cbn. repeat split.
      destruct Hout as [[= <- _]|[[= <- _]|[[= <- _]|[]]]]; auto.
  - intros other Hne. rewrite job_lookup_other by assumption.
    rewrite <- (job_lookup_other (db w) job_id other processing None Hne).
    reflexivity.
Qed.

Lemma task_ends_in_terminal_state_witness :
  exists row : submission_row,
    get_submission_by_job_id
      (db (process_submission (H := sample_builtins) (env_at 90000)
             "job-2" "token-2" resubmission (world_at 86400))) "job-2"
    = Some row
    /\ (sub_status row = complete \/ sub_status row = failed
        \/ sub_status row = insufficient_data)
    /\ sub_completed_at row = Some 90000
    /\ sub_id row = 2
    /\ sub_auth_token row = "token-2"
    /\ sub_created_at row = 86400.
Proof.
  apply (task_ends_in_terminal_state (H := sample_builtins) (env_at 90000)
           "job-2" "token-2" resubmission (world_at 86400)
           (second_submission 86400) eq_refl).
Defined.

(** X19.  A run of the background task appends to the log the calls it
    made, none of them an email, and then exactly one email, to the
    submitter: profile ready, insufficient data or error. *)
Theorem task_sends_one_email `{PyBuiltins}
    (env : Env) (job_id auth_token : string) (submission : IntakeRequest)
    (w : World) :
  exists (calls : list event) (mail : string),
    trace (process_submission env job_id auth_token submission w)
    = trace w ++ calls ++ [EvEmail mail (email submission)]
    /\ forallb is_call calls = true
    /\ In mail ["profile_ready"; "insufficient_data"; "error"].
Proof.
  destruct (process_submission_shape env job_id auth_token submission w)
    as (status & mail & calls & new_profiles & _ & Htrace & Hout & _ & Hcalls & _).
  exists calls, mail. repeat split; auto.
  destruct Hout as [[= _ <-]|[[= _ <-]|[[= _ <-]|[]]]]; cbn; auto.
Qed.

(** X20.  A run of the background task keeps every stored profile and adds
    at most one; when it adds one, the profile carries the time of the run
    and the job is left [complete]. *)
Theorem task_adds_at_most_one_profile `{PyBuiltins}
    (env : Env) (job_id auth_token : string) (submission : IntakeRequest)
    (w : World) :
  let w' := process_submission env job_id auth_token submission w in
  exists new_profiles : list profile_row,
    profiles (db w') = profiles (db w) ++ new_profiles
    /\ (length new_profiles <= 1)%nat
    /\ (forall row, In row new_profiles -> prof_created_at row = env_now env)
    /\ (forall current : submission_row,
          get_submission_by_job_id (db w) job_id = Some current ->
          new_profiles <> [] ->
          exists row, get_submission_by_job_id (db w') job_id = Some row
                      /\ sub_status row = complete).
Proof.
  intros w'.
  destruct (process_submission_shape env job_id auth_token submission w)
    as (status & mail & calls & new_profiles & Hdb & _ & _ & Hnew & _).
  fold w' in Hdb. exists new_profiles. rewrite Hdb.
  split; [reflexivity|].
  destruct Hnew as [->|(-> & row & -> & Hrow)].
  - repeat split; [cbn; lia|intros ? []|congruence].
  - repeat split; [cbn; lia|now intros ? [<-|[]]|].
    intros current Hcurrent _.
    exists (set_status complete (Some (env_now env))
                       (set_status processing None current)).
    split; [|reflexivity].
    apply job_status_after_update.
    apply (job_status_after_update _ _ processing None) in Hcurrent.
    exact Hcurrent.
Qed.

Lemma task_adds_at_most_one_profile_witness :
  let w' := process_submission (H := sample_builtins) (env_rich 90000)
              "job-2" "token-2" resubmission (world_at 86400) in
  exists new_profiles : list profile_row,
    profiles (db w') = profiles (db (world_at 86400)) ++ new_profiles
    /\ (length new_profiles <= 1)%nat
    /\ (forall row, In row new_profiles -> prof_created_at row = 90000)
    /\ (forall current : submission_row,
          get_submission_by_job_id (db (world_at 86400)) "job-2" = Some current ->
          new_profiles <> [] ->
          exists row, get_submission_by_job_id (db w') "job-2" = Some row
                      /\ sub_status row = complete).
Proof.
  apply (task_adds_at_most_one_profile (H := sample_builtins) (env_rich 90000)
           "job-2" "token-2" resubmission (world_at 86400)).
Defined.

(** X21.  The background task calls the synthesis API only for a dataset
    that the sufficiency scorer accepted. *)
Theorem synthesis_needs_sufficient_data `{PyBuiltins}
    (env : Env) (job_id auth_token : string) (submission : IntakeRequest)
    (w : World) :
  exists (calls : list event) (mail : string),
    trace (process_submission env job_id auth_token submission w)
    = trace w ++ calls ++ [EvEmail mail (email submission)]
    /\ (existsb is_synthesis calls = true ->
        exists sources,
          check_data_sufficiency (VDict (organize_results (env_workers env)))
          = Ok (true, sources)).
Proof.
  destruct (process_submission_shape env job_id auth_token submission w)
    as (status & mail & calls & new_profiles & _ & Htrace & _ & _ & _ & Hsyn & _).
  now exists calls, mail.
Qed.

Lemma synthesis_needs_sufficient_data_witness :
  exists (calls : list event) (mail : string),
    trace (process_submission (H := sample_builtins) (env_rich 90000)
             "job-2" "token-2" resubmission (world_at 86400))
    = trace (world_at 86400) ++ calls ++ [EvEmail mail "eve@acme.com"]
    /\ (existsb is_synthesis calls = true ->
        exists sources,
          check_data_sufficiency (VDict (organize_results rich_results))
          = Ok (true, sources)).
Proof.
  apply (synthesis_needs_sufficient_data (H := sample_builtins) (env_rich 90000)
           "job-2" "token-2" resubmission (world_at 86400)).
Defined.

(** X22.  A run of the background task either leaves the Redis store as it
    was, or writes one entry of the URL cache, the job id under the
    normalized URL for 24 hours, and then the job is left [complete]; it
    never changes a rate-limit counter. *)
Theorem task_writes_cache_only_on_complete `{PyBuiltins}
    (env : Env) (job_id auth_token : string) (submission : IntakeRequest)
    (w : World) :
  let w' := process_submission env job_id auth_token submission w in
  redis_client w' = redis_client w
  \/ (exists r : Redis,
        redis_client w = Some r
        /\ redis_client w'
           = Some {| counters := counters r;
                     profile_cache :=
                       <[cache_key (normalize_url (company_url submission))
                         := Cached job_id (env_now env + day)]> (profile_cache r) |}
        /\ forall current : submission_row,
             get_submission_by_job_id (db w) job_id = Some current ->
             exists row, get_submission_by_job_id (db w') job_id = Some row
                         /\ sub_status row = complete).
Proof.
  intros w'.
  destruct (process_submission_shape env job_id auth_token submission w)
    as (status & mail & calls & new_profiles & Hdb & _ & _ & _ & _ & _ & Hredis & _).
  fold w' in Hdb, Hredis.
  destruct Hredis as [Hsame|(-> & r & Hr & Hr')]; [now left|].
  right. exists r. repeat split; auto.
  intros current Hcurrent. rewrite Hdb.
  exists (set_status complete (Some (env_now env))
                     (set_status processing None current)).
  split; [|reflexivity].
  apply job_status_after_update.
  apply (job_status_after_update _ _ processing None) in Hcurrent.
  exact Hcurrent.
Qed.

Lemma task_writes_cache_only_on_complete_witness :
  let w0 := {| db := db (world_at 86400); redis_client := Some empty_redis;
               trace := [] |} in
  let w' := process_submission (H := sample_builtins) (env_rich 90000)
              "job-2" "token-2" resubmission w0 in
  redis_client w' = redis_client w0
  \/ (exists r : Redis,
        redis_client w0 = Some r
        /\ redis_client w'
           = Some {| counters := counters r;
                     profile_cache :=
                       <[cache_key (normalize_url (company_url resubmission))
                         := Cached "job-2" (90000 + day)]> (profile_cache r) |}
        /\ forall current : submission_row,
             get_submission_by_job_id (db w0) "job-2" = Some current ->
             exists row, get_submission_by_job_id (db w') "job-2" = Some row
                         /\ sub_status row = complete).
Proof.
  apply (task_writes_cache_only_on_complete (H := sample_builtins) (env_rich 90000)
           "job-2" "token-2" resubmission).
Defined.

(** ** The intake endpoint *)

(** X23.  A request that the intake endpoint answers with an HTTP error
    of its own is answered 429 (rate limit), 400 (domain mismatch) or 500
    (the submission could not be stored); it adds no submission, queues no
    background task and logs nothing.  The answer is 500 exactly when the
    rate limiter and the validator let the request through and the INSERT
    raised. *)
Theorem rejected_intake_stores_nothing `{IpLiterals}
    (fault : redis_fault) (insert_error : option pyexn) (now : Z)
    (ids : string * string)
    (request : Request) (submission : IntakeRequest) (w w' : World)
    (code : Z) (detail : string) (task : option (string * string)) :
  submit_intake fault insert_error now ids request submission w
  = Ok (HTTPException code detail, w', task) ->
  (code = 429 \/ code = 400 \/ code = 500)
  /\ (code = 500 <->
      insert_error <> None
      /\ (exists ip, client_ip_of request = Ok ip
                     /\ fst (check_rate_limit fault now ip (redis_client w)) = true)
      /\ exists needs_review,
           validate_email_domain (email submission) (company_url submission)
           = Ok (true, needs_review))
  /\ db w' = db w /\ trace w' = trace w /\ task = None.
Proof.
  unfold submit_intake.
  destruct (client_ip_of request) as [ip|e]; [|discriminate].
  rewrite bind_ok. cbv beta.
  destruct (check_rate_limit fault now ip (redis_client w)) as [[|] redis]
    eqn:Hcheck; cbn [negb fst].
  - destruct (validate_email_domain (email submission) (company_url submission))
      as [[[|] review]|e]; destruct ids as [job_id auth_token];
      cbn [mbind result_bind negb]; try discriminate.
    + destruct insert_error as [e|]; [|destruct review; discriminate].
      cbn. intros [= <- _ <- <-].
      split; [auto|]. split; [|auto]. split; [|reflexivity]. intros _.
      split; [discriminate|]. split; [|now exists review].
      exists ip. now rewrite Hcheck.
    + cbn. intros [= <- _ <- <-].
      split; [auto|]. split; [|auto]. split; [discriminate|].
      intros (_ & _ & review' & [=]).
  - cbn. intros [= <- _ <- <-].
    split; [auto|]. split; [|auto]. split; [discriminate|].
    intros (_ & (ip' & [= <-] & Hallowed) & _).
    rewrite Hcheck in Hallowed. discriminate.
Qed.

Lemma rejected_intake_stores_nothing_witness :
  (500 = 429 \/ 500 = 400 \/ 500 = 500)
  /\ (500 = 500 <->
      Some offline <> None
      /\ (exists ip, client_ip_of blocked_request = Ok ip
                     /\ fst (check_rate_limit NoFault 2000 ip
                               (redis_client fresh_world)) = true)
      /\ exists needs_review,
           validate_email_domain (email resubmission) (company_url resubmission)
           = Ok (true, needs_review))
  /\ db fresh_world = db fresh_world
  /\ @nil event = trace fresh_world
  /\ @None (string * string) = None.
Proof.
  apply (rejected_intake_stores_nothing NoFault (Some offline) 2000
           ("job-9", "token-9") blocked_request resubmission fresh_world
           {| db := db fresh_world;
              redis_client :=
                Some (redis_incr_expire 2000 empty_redis
                        (rate_limit_key "203.0.113.7") 3600);
              trace := [] |}
           500 "Failed to process submission. Please try again." None).
  reflexivity.
Defined.

(** X24.  A request that the intake endpoint accepts adds exactly one
    submission, under the first fresh id and with the normalized URL.  When
    the validator asked for no review the submission is [queued] and the
    background task is queued with the two ids; when it asked for a review
    (a generic email provider) the submission is [manual_review] and no
    task is queued. *)
Theorem accepted_intake_adds_one_row `{IpLiterals}
    (fault : redis_fault) (insert_error : option pyexn) (now : Z)
    (ids : string * string)
    (request : Request) (submission : IntakeRequest) (w w' : World)
    (job_id message : string) (task : option (string * string)) :
  submit_intake fault insert_error now ids request submission w
  = Ok (IntakeResponse job_id message, w', task) ->
  job_id = fst ids
  /\ trace w' = trace w
  /\ exists status : SubmissionStatus,
       db w' = create_submission now (db w) (company_name submission)
                 (normalize_url (company_url submission)) (email submission)
                 (fst ids) (snd ids) status
       /\ ((status = queued /\ task = Some ids
            /\ validate_email_domain (email submission) (company_url submission)
               = Ok (true, false))
           \/ (status = manual_review /\ task = None
               /\ validate_email_domain (email submission) (company_url submission)
                  = Ok (true, true))).
Proof.
  unfold submit_intake.
  destruct (client_ip_of request) as [ip|e]; [|discriminate].
  rewrite bind_ok. cbv beta.
  destruct (check_rate_limit fault now ip (redis_client w)) as [[|] redis];
    cbn [negb]; [|discriminate].
  destruct (validate_email_domain (email submission) (company_url submission))
    as [[[|] [|]]|e]; destruct ids as [new_job new_token];
    destruct insert_error as [e'|];
    cbn; try discriminate; intros [= <- _ <- <-]; cbn.
  - repeat split. exists manual_review. split; [reflexivity|]. right. auto.
  - repeat split. exists queued. split; [reflexivity|]. left. auto.
Qed.

Lemma accepted_intake_adds_one_row_witness :
  exists status : SubmissionStatus,
    create_submission 2000 empty_db "Acme" "https://acme.com" "eve@gmail.com"
                      "job-3" "token-3" manual_review
    = create_submission 2000 (db fresh_world) (company_name gmail_submission)
        (normalize_url (company_url gmail_submission)) (email gmail_submission)
        "job-3" "token-3" status
    /\ ((status = queued /\ @None (string * string) = Some ("job-3", "token-3")
         /\ validate_email_domain (email gmail_submission)
                                  (company_url gmail_submission)
            = Ok (true, false))
        \/ (status = manual_review /\ @None (string * string) = None
            /\ validate_email_domain (email gmail_submission)
                                     (company_url gmail_submission)
               = Ok (true, true))).
Proof.
  destruct (accepted_intake_adds_one_row NoFault None 2000 ("job-3", "token-3")
              blocked_request gmail_submission fresh_world
              {| db := create_submission 2000 empty_db "Acme" "https://acme.com"
                         "eve@gmail.com" "job-3" "token-3" manual_review;
                 redis_client :=
                   Some (redis_incr_expire 2000 empty_redis
                           (rate_limit_key "203.0.113.7") 3600);
                 trace := [] |}
              "job-3"
              "Your request has been received and will be reviewed by our team."
              None eq_refl) as (_ & _ & Hrow).
  exact Hrow.
Defined.

(** X25.  A request accepted under a job id that is not yet in the table is
    at once visible to the status endpoint: [queued] or [manual_review],
    created at the time of the request, not completed; it is [queued]
    exactly when the background task was queued. *)
Theorem accepted_job_is_visible `{IpLiterals}
    (fault : redis_fault) (insert_error : option pyexn) (now : Z)
    (ids : string * string)
    (request : Request) (submission : IntakeRequest) (w w' : World)
    (job_id message : string) (task : option (string * string)) :
  get_submission_by_job_id (db w) (fst ids) = None ->
  submit_intake fault insert_error now ids request submission w
  = Ok (IntakeResponse job_id message, w', task) ->
  exists status : SubmissionStatus,
    get_job_status (db w') job_id = JobStatus job_id status now None
    /\ ((status = queued /\ task = Some ids)
        \/ (status = manual_review /\ task = None)).
Proof.
  intros Hfresh Hreply.
  unfold submit_intake in Hreply.
  destruct (client_ip_of request) as [ip|e]; [|discriminate].
  rewrite bind_ok in Hreply. cbv beta in Hreply.
  destruct (check_rate_limit fault now ip (redis_client w)) as [[|] redis];
    cbn [negb] in Hreply; [|discriminate].
  unfold get_job_status, get_submission_by_job_id in *.
  destruct (validate_email_domain (email submission) (company_url submission))
    as [[[|] [|]]|e]; destruct ids as [new_job new_token];
    destruct insert_error as [e'|];
    cbn in Hreply; try discriminate; injection Hreply as <- _ <- <-;
    cbn [fst] in Hfresh; cbn [db with_db with_redis create_submission submissions];
    rewrite (find_app_none _ _ _ Hfresh); cbn [find sub_job_id];
    rewrite String.eqb_refl; cbn.
  - exists manual_review. auto.
  - exists queued. auto.
Qed.

Lemma accepted_job_is_visible_witness :
  exists status : SubmissionStatus,
    get_job_status
      (create_submission 2000 empty_db "Acme" "https://acme.com" "eve@gmail.com"
                         "job-3" "token-3" manual_review) "job-3"
    = JobStatus "job-3" status 2000 None
    /\ ((status = queued /\ @None (string * string) = Some ("job-3", "token-3"))
        \/ (status = manual_review /\ @None (string * string) = None)).
Proof.
  apply (accepted_job_is_visible NoFault None 2000 ("job-3", "token-3")
           blocked_request gmail_submission fresh_world
           {| db := create_submission 2000 empty_db "Acme" "https://acme.com"
                      "eve@gmail.com" "job-3" "token-3" manual_review;
              redis_client :=
                Some (redis_incr_expire 2000 empty_redis
                        (rate_limit_key "203.0.113.7") 3600);
              trace := [] |}
           "job-3"
           "Your request has been received and will be reviewed by our team."
           None eq_refl eq_refl).
Defined.

(** ** The profile link *)

(** X26.  The profile link answers 410 exactly when its token belongs to a
    submission created more than seven days before the request, whatever
    the state of the job; a link that is exactly seven days old is still
    served. *)
Theorem profile_link_expires_after_a_week (now : Z) (d : Database)
    (token : string) :
  (exists detail, get_profile now d token = ProfileError 410 detail)
  <-> (exists submission : submission_row,
         get_submission_by_token d token = Some submission
         /\ sub_created_at submission + week < now).
Proof.
  unfold get_profile.
  destruct (get_submission_by_token d token) as [submission|].
  - destruct (Z.ltb_spec week (now - sub_created_at submission)) as [Hold|Hfresh].
    + split; [|eauto]. intros _. exists submission. split; [reflexivity|lia].
    + split.
      * intros [detail Hreply].
        destruct (bool_decide (sub_status submission = complete)); cbn in Hreply;
          [|discriminate].
        destruct (get_profile_by_submission_id d (sub_id submission)); discriminate.
      * intros (submission' & [= <-] & Hold). lia.
  - split; [intros [detail [=]]|intros (submission & [=] & _)].
Qed.

Lemma token_lookup_after_update (d : Database) (job_id token : string)
    (status : SubmissionStatus) (completed_at : option Z) :
  get_submission_by_token (update_submission_status d job_id status completed_at)
                          token
  = (fun r => if String.eqb (sub_job_id r) job_id
              then set_status status completed_at r else r)
    <$> get_submission_by_token d token.
Proof.
  unfold get_submission_by_token, update_submission_status. cbn [submissions].
  induction (submissions d) as [|a rows IH]; [reflexivity|]. cbn [map find].
  replace (sub_auth_token (if String.eqb (sub_job_id a) job_id
                           then set_status status completed_at a else a))
    with (sub_auth_token a) by now destruct (String.eqb (sub_job_id a) job_id).
  destruct (String.eqb (sub_auth_token a) token); [reflexivity|exact IH].
Qed.

Lemma profile_lookup_app (rows : list submission_row) (old : list profile_row)
    (row : profile_row) (submission_id : Z) :
  prof_submission_id row = submission_id ->
  exists found : profile_row,
    get_profile_by_submission_id
      {| submissions := rows; profiles := old ++ [row] |} submission_id
    = Some found.
Proof.
  intros Hrow. unfold get_profile_by_submission_id. cbn [profiles].
  destruct (find (fun p => prof_submission_id p =? submission_id) old)
    as [found|] eqn:Hold.
  - exists found. now apply find_app_some.
  - exists row. rewrite find_app_none by assumption. cbn.
    now rewrite Hrow, Z.eqb_refl.
Qed.

Lemma profile_lookup_after_update (d : Database) (job_id : string)
    (status : SubmissionStatus) (completed_at : option Z) (submission_id : Z) :
  get_profile_by_submission_id
    (update_submission_status d job_id status completed_at) submission_id
  = get_profile_by_submission_id d submission_id.
Proof. reflexivity. Qed.

(** X27.  Once the background task has run on a submission of the table,
    the profile link of that submission, asked within seven days of the
    submission, answers either with a stored profile and the company name
    of the submission, or 202 with the status [failed] or
    [insufficient_data] and the message that no profile could be generated;
    it never answers that the profile data is missing. *)
Theorem profile_link_after_run `{PyBuiltins}
    (env : Env) (job_id auth_token token : string) (submission : IntakeRequest)
    (w : World) (current : submission_row) (asked : Z) :
  get_submission_by_job_id (db w) job_id = Some current ->
  get_submission_by_token (db w) token = Some current ->
  asked <= sub_created_at current + week ->
  let w' := process_submission env job_id auth_token submission w in
  (exists (profile : pyval) (created_at : Z),
      get_profile asked (db w') token
      = ProfileData profile (sub_company_name current) created_at)
  \/ (exists status : SubmissionStatus,
        (status = failed \/ status = insufficient_data)
        /\ get_profile asked (db w') token
           = ProfileError 202 (Progress status "Unable to generate profile")).
Proof.
  intros Hjob Htoken Hasked w'.
  destruct (process_submission_shape env job_id auth_token submission w)
    as (status & mail & calls & new_profiles & Hdb & _ & Hout & _ & _ & _ & _
        & Hstored).
  fold w' in Hdb.
  assert (Hid : String.eqb (sub_job_id current) job_id = true).
  { unfold get_submission_by_job_id in Hjob.
    now apply find_some in Hjob as [_ Hjob]. }
  unfold get_profile. rewrite Hdb, token_lookup_after_update.
  change (get_submission_by_token
            {| submissions :=
                 submissions (update_submission_status (db w) job_id processing None);
               profiles := profiles (db w) ++ new_profiles |} token)
    with (get_submission_by_token
            (update_submission_status (db w) job_id processing None) token).
  rewrite token_lookup_after_update, Htoken. cbn [fmap option_fmap option_map].
  rewrite Hid. cbn [set_status sub_job_id]. rewrite Hid.
  cbn [set_status sub_created_at sub_status sub_id sub_company_name].
  rewrite profile_lookup_after_update.
  destruct (Z.ltb_spec week (asked - sub_created_at current)); [lia|].
  destruct Hout as [[= <- _]|[[= <- _]|[[= <- _]|[]]]]; cbn [bool_decide negb].
  - left. destruct (Hstored eq_refl current Hjob) as (row & -> & Hrow).
    destruct (profile_lookup_app
                (submissions (update_submission_status (db w) job_id processing None))
                (profiles (db w)) row (sub_id current) Hrow) as [found ->].
    rewrite bool_decide_eq_true_2 by reflexivity. cbn [negb]. eauto.
  - right. exists insufficient_data. split; [now right|].
    rewrite bool_decide_eq_false_2 by discriminate. reflexivity.
  - right. exists failed. split; [now left|].
    rewrite bool_decide_eq_false_2 by discriminate. reflexivity.
Qed.

Lemma profile_link_after_run_witness :
  let w' := process_submission (H := sample_builtins) (env_rich 90000)
              "job-2" "token-2" resubmission (world_at 86400) in
  (exists (profile : pyval) (created_at : Z),
      get_profile 100000 (db w') "token-2" = ProfileData profile "Acme" created_at)
  \/ (exists status : SubmissionStatus,
        (status = failed \/ status = insufficient_data)
        /\ get_profile 100000 (db w') "token-2"
           = ProfileError 202 (Progress status "Unable to generate profile")).
Proof.
  apply (profile_link_after_run (H := sample_builtins) (env_rich 90000)
           "job-2" "token-2" "token-2" resubmission (world_at 86400)
           (second_submission 86400) 100000 eq_refl eq_refl).
  vm_compute. discriminate.
Defined.

(** ** Feedback *)

(** X28.  Whenever the feedback endpoint answers, either it answers with
    an HTTP error and stores nothing, or it stores exactly one row, with
    the rating and the comment it was given, the rating between 1 and 5,
    for a stored profile of the submission that owns the token.  It raises
    only what one of its three statements raises for a reason of the
    database's own: the rating check and the profile reference of the
    feedback table are never violated.  With no such failure it answers. *)
Theorem submit_feedback_stores_valid_rows (faults : feedback_faults) (now : Z)
    (d : Database) (table : list feedback_row) (token : string) (rating : Z)
    (comment : option string) :
  (forall (reply : feedback_response) (table' : list feedback_row),
      submit_feedback faults now d table token rating comment = Ok (reply, table') ->
      (exists code detail, reply = FeedbackError code detail /\ table' = table)
      \/ (exists (row : feedback_row) (submission : submission_row)
                 (profile : profile_row),
            reply = FeedbackAccepted "Thank you for your feedback"
            /\ table' = table ++ [row]
            /\ fb_rating row = rating /\ 1 <= rating <= 5
            /\ fb_comment row = comment
            /\ get_submission_by_token d token = Some submission
            /\ In profile (profiles d)
            /\ prof_submission_id profile = sub_id submission
            /\ fb_profile_id row = prof_id profile))
  /\ (forall e : pyexn,
        submit_feedback faults now d table token rating comment = Raise e ->
        select_submission_error faults = Some e
        \/ select_profile_error faults = Some e
        \/ insert_feedback_error faults = Some e)
  /\ (faults = no_faults ->
      exists reply table',
        submit_feedback faults now d table token rating comment
        = Ok (reply, table')).
Proof.
  assert (Hvalue :
    match submit_feedback faults now d table token rating comment with
    | Ok (reply, table') =>
        (exists code detail, reply = FeedbackError code detail /\ table' = table)
        \/ (exists (row : feedback_row) (submission : submission_row)
                   (profile : profile_row),
              reply = FeedbackAccepted "Thank you for your feedback"
              /\ table' = table ++ [row]
              /\ fb_rating row = rating /\ 1 <= rating <= 5
              /\ fb_comment row = comment
              /\ get_submission_by_token d token = Some submission
              /\ In profile (profiles d)
              /\ prof_submission_id profile = sub_id submission
              /\ fb_profile_id row = prof_id profile)
    | Raise e =>
        select_submission_error faults = Some e
        \/ select_profile_error faults = Some e
        \/ insert_feedback_error faults = Some e
    end).
  { unfold submit_feedback.
    destruct (select_submission_error faults) as [e|]; [now left|].
    destruct (get_submission_by_token d token) as [submission|];
      [|left; eauto].
    destruct (select_profile_error faults) as [e|]; [right; now left|].
    destruct (get_profile_by_submission_id d (sub_id submission)) as [profile|]
      eqn:Hprofile; [|left; eauto].
    apply find_some in Hprofile as [Hin Hid]. apply Z.eqb_eq in Hid.
    destruct (Z.ltb_spec rating 1) as [|Hlow]; cbn [orb]; [left; eauto|].
    destruct (Z.ltb_spec 5 rating) as [|Hhigh]; [left; eauto|].
    unfold create_feedback, references_profile, rating_in_range.
    destruct (insert_feedback_error faults) as [e|]; [right; now right|].
    replace (existsb (fun p => prof_id p =? prof_id profile) (profiles d)) with true.
    2: { symmetry. apply existsb_exists. exists profile. split; [exact Hin|].
         apply Z.eqb_refl. }
    replace ((1 <=? rating) && (rating <=? 5)) with true
      by (symmetry; apply andb_true_intro; split; apply Z.leb_le; lia).
    cbn [negb]. rewrite bind_ok.
    right. do 3 eexists. repeat split; eauto. }
  split; [|split].
  - intros reply table' Hreply. now rewrite Hreply in Hvalue.
  - intros e Hraise. now rewrite Hraise in Hvalue.
  - intros ->.
    destruct (submit_feedback no_faults now d table token rating comment)
      as [[reply table']|e]; [eauto|].
    cbn in Hvalue. destruct Hvalue as [|[|]]; discriminate.
Qed.

Lemma submit_feedback_stores_valid_rows_witness :
  exists reply table',
    submit_feedback no_faults 200 (db (world_at 86400)) [] "token-1" 4
                    (Some "useful")
    = Ok (reply, table').
Proof.
  destruct (submit_feedback_stores_valid_rows no_faults 200 (db (world_at 86400))
              [] "token-1" 4 (Some "useful")) as (_ & _ & Hanswers).
  exact (Hanswers eq_refl).
Defined.

(** ** The signature checker of the technology detector *)

Lemma scan_spec {A : Type} (hit : A -> bool) (weight : Z) (label : A -> string)
    (entries : list A) (acc : Z * list string) :
  scan hit weight label entries acc
  = (fst acc + weight * Z.of_nat (length (List.filter hit entries)),
     snd acc ++ map label (List.filter hit entries)).
Proof.
  unfold scan. revert acc. induction entries as [|entry entries IH]; intros acc.
  - cbn. rewrite Z.mul_0_r, Z.add_0_r, app_nil_r. now destruct acc.
  - cbn [fold_left List.filter]. rewrite IH. destruct (hit entry); [|reflexivity].
    cbn [fst snd length map]. rewrite <- app_assoc. cbn [app].
    f_equal. lia.
Qed.

Lemma filter_empty_existsb {A : Type} (f : A -> bool) (l : list A) :
  length (List.filter f l) = 0%nat <-> existsb f l = false.
Proof.
  induction l as [|a l IH]; [easy|]. cbn. destruct (f a); cbn; [easy|exact IH].
Qed.

Lemma check_signature_value (tech_name : string) (sig : signature)
    (headers : list (string * string)) (html : string)
    (meta_tags : gmap string string) :
  let confidence := 30 * Z.of_nat (header_hits sig headers)
                    + 25 * Z.of_nat (html_hits sig html)
                    + 30 * Z.of_nat (meta_hits sig meta_tags) in
  let matches :=
    map (fun entry => "header:" +:+ fst entry)
        (List.filter (header_hit headers) (sig_headers sig))
    ++ map (fun pattern => "html:" +:+ String.substring 0 30 pattern)
           (List.filter (html_hit (PyStr.lower html)) (sig_html sig))
    ++ map (fun entry => "meta:" +:+ fst entry)
           (List.filter (meta_hit meta_tags) (sig_meta sig)) in
  check_signature tech_name sig headers html meta_tags
  = if 25 <=? confidence
    then Some {| det_name := tech_name;
                 det_confidence := Z.min confidence 100;
                 det_evidence := firstn 3 matches |}
    else None.
Proof.
  unfold check_signature, header_hits, html_hits, meta_hits. cbv zeta.
  rewrite !scan_spec. cbn [fst snd app]. rewrite <- app_assoc, Z.add_0_l.
  reflexivity.
Qed.

(** X29.  A technology that [check_signature] reports carries the name it
    was checked under, a confidence between 25 and 100, and between one and
    three pieces of evidence. *)
Theorem detection_is_bounded (tech_name : string) (sig : signature)
    (headers : list (string * string)) (html : string)
    (meta_tags : gmap string string) (found : detection) :
  check_signature tech_name sig headers html meta_tags = Some found ->
  det_name found = tech_name
  /\ 25 <= det_confidence found <= 100
  /\ (1 <= length (det_evidence found) <= 3)%nat.
Proof.
  rewrite check_signature_value. cbv zeta.
  destruct (Z.leb_spec 25 (30 * Z.of_nat (header_hits sig headers)
                           + 25 * Z.of_nat (html_hits sig html)
                           + 30 * Z.of_nat (meta_hits sig meta_tags)))
    as [Hconf|]; [|discriminate].
  intros [= <-]. cbn [det_name det_confidence det_evidence].
  split; [reflexivity|]. split; [lia|].
  rewrite length_firstn, !length_app, !length_map.
  fold (header_hits sig headers) (html_hits sig html) (meta_hits sig meta_tags).
  lia.
Qed.

Lemma detection_is_bounded_witness :
  let found := {| det_name := "WordPress"; det_confidence := 100;
                  det_evidence := ["header:x-powered-by"; "html:/wp-content/";
                                   "html:/wp-includes/"] |} in
  det_name found = "WordPress"
  /\ 25 <= det_confidence found <= 100
  /\ (1 <= length (det_evidence found) <= 3)%nat.
Proof.
  apply (detection_is_bounded "WordPress" wordpress_signature blog_headers
           blog_html blog_meta).
  reflexivity.
Defined.

(** X30.  [check_signature] reports nothing exactly when no header entry,
    no HTML pattern and no meta entry of the signature matches: one match
    of any kind is enough to report the technology. *)
Theorem undetected_iff_nothing_matches (tech_name : string) (sig : signature)
    (headers : list (string * string)) (html : string)
    (meta_tags : gmap string string) :
  check_signature tech_name sig headers html meta_tags = None
  <-> existsb (header_hit headers) (sig_headers sig) = false
      /\ existsb (html_hit (PyStr.lower html)) (sig_html sig) = false
      /\ existsb (meta_hit meta_tags) (sig_meta sig) = false.
Proof.
  rewrite check_signature_value. cbv zeta.
  rewrite <- !filter_empty_existsb.
  fold (header_hits sig headers) (html_hits sig html) (meta_hits sig meta_tags).
  destruct (Z.leb_spec 25 (30 * Z.of_nat (header_hits sig headers)
                           + 25 * Z.of_nat (html_hits sig html)
                           + 30 * Z.of_nat (meta_hits sig meta_tags)))
    as [Hconf|Hconf].
  - split; [discriminate|]. intros (Hh & Hp & Hm). lia.
  - split; [|reflexivity]. intros _. lia.
Qed.
